(* ===== verification/_CoqProject ===== *)
-Q . S2P
Prelude.v
JsValue.v
Redux.v
ProductStore.v
Logger.v
Views.v
Dom.v
PageSpec.v
App.v
AppInvariant.v
Refinement.v
Registry.v
AppLogger.v
Focus.v
Http.v
