(* ===== verification/Prelude.v ===== *)
(** * Verification of redux-playground's product manager

    The repository is a one-page browser application (src/src/product-manager.js)
    that edits one product through two tabbed panels, plus an unused timer stub
    (src/src/http/index.js).  Its parts, and how they interact:

    - a Redux store (the [redux] library, called by the code): [createStore],
      [subscribe], [dispatch] and [getState]; [dispatch] runs the root reducer
      and then calls every subscriber synchronously;
    - the application's reducers (product-manager.js lines 18-63): three slice
      reducers [pageReducer], [productReducer], [productDirtyReducer] combined
      with [combineReducers], and the action creators (lines 167-187);
    - two view templates (lines 70-85) that build markup strings;
    - the render/controller loop (lines 88-165) subscribed to the store: it
      writes the DOM (title, active tab, save button, content) and re-attaches
      one event listener to the freshly parsed form control; the listener
      closures capture the state of the render that created them and
      dispatch actions back into the store (nested dispatch);
    - the store itself is built with the [redux-logger] middleware
      (lines 65-68), which prints every dispatch to the console;
    - three listeners bound once at start-up (lines 189-216): the two tab
      links and the save button; then [render()] and [store.subscribe(render)]
      (lines 218-221);
    - [httpPut] (http/index.js), a [setTimeout] wrapper nobody calls.

    Files of the development (the [_CoqProject] order):
    - [Prelude] (this file): the [result] error monad used for JavaScript
      exceptions, its notation in [pm_scope], the [fold_result] loop, the
      tactics and the [pm] hint database shared by all files.
    - [JsValue]: the JavaScript values the program stores in its state
      ([undefined], booleans, strings), truthiness, strict equality and
      [ToString].
    - [Redux]: the store as the library implements it (modelled from the
      library's behaviour, since it is not under src/): a [Reducer] type
      class is the interface between the store and the application; the
      store, [createStore], [subscribe], [dispatch] and the notification loop
      are written once in a Section over any reducer and any environment.
    - [ProductStore]: the state, the actions and the three reducers of
      product-manager.js, [combinedReducers] with the library's
      undefined-slice check, and its [Reducer] instance.
    - [Logger]: [applyMiddleware(logger())] of lines 65-68 for the two
      releases of redux-logger, the logging middleware around [dispatch]
      with its console, and the store the code builds ([app_store]).
    - [Views]: [DetailsComponent] and [AvailabilityComponent] as the exact
      template strings of the source.
    - [Dom]: the part of the browser DOM the code touches: the title, the
      class lists of the two tabs, the save button, the content container,
      the form control parsed from the content markup (the text field's
      value as the tokenizer reads a double-quoted attribute, named and
      numeric character references decoded, newlines stripped; text is
      read as UTF-8), the ids of the page's
      elements, and the registry of [addEventListener] registrations
      (including those of detached nodes).
    - [PageSpec]: what the page promises its user, as an abstract machine:
      a page kind, a product name, an in-stock flag and a dirty flag,
      changed by five user actions, and the view a state shows.
    - [App]: [render], the listener closures, the start-up sequence (and
      [page_load], the script with the store of [Logger]), the user events
      and the reachable worlds, with the properties that follow from the
      code's guards and lookups alone.  The code that calls
      [store.dispatch] (the closures, the three start-up listeners, the
      browser's handling of a user action) is written once, in the Section
      [StoreClient], over the [dispatch] it calls.
    - [AppInvariant]: the invariant of the loop (the DOM shows the store's
      state and the live control carries one listener for it), its
      preservation by every user action, and its consequences.
    - [Refinement]: the refinement of [PageSpec] by the code, the spec's
      scenarios, and the behaviours where the code departs from the spec.
    - [Registry]: the preorder the DOM moves along ([dom_grows]: node
      numbers only increase, listeners are only added), kept by every DOM
      operation, hence by [render], [dispatch], the listeners and every user
      action (through [Redux.dispatch_env_mono]).
    - [AppLogger]: the same code of [StoreClient] over the store's
      [dispatch] as lines 65-68 build it, the logging middleware around the
      plain [dispatch], on a world that also holds the console; a
      simulation ([lsim]) relates it to the plain page of [App].
    - [Focus]: the browser's focus rules around the text field (its blur
      fires before the click that takes focus away; typing needs focus;
      Enter submits the form and reloads the page), as a restriction of
      the free event model of [App].
    - [Http]: [httpPut] over a model of the browser's timer queue, with
      [setTimeout]'s 32-bit conversion of the delay.

    What the theorems show.
    - [ProductStore]: every action the code dispatches keeps the state
      well typed (C5); each action type changes exactly its slice (C6);
      dispatching the same action twice equals once (C7); an unknown action
      changes nothing (C12); dispatching [changeProductDirtyAction(undefined)]
      throws the library's undefined-slice error (C13).
    - The running page.  [render] writes the product name, unescaped, into
      the title's [innerHTML] and into [value="..."] of the details form;
      the browser reads that markup as the model of [Dom] does only when the
      name injects nothing ([Dom.text_safe]: no quote, [&], [<], newline or
      NUL).  So the theorems about the running page are stated over
      [App.safe_reachable], the worlds reached from start-up by user events
      whose typed text is [text_safe], and they show that every name the
      store then holds is [text_safe] too.
    - [AppInvariant], [Refinement] and [App]: in every such world the DOM
      shows the state and exactly one live listener sits on the current
      form control, capturing the current state (C2, C3); no user event
      throws, and a safe one leads to such a world again (C4); in every
      world reachable by any events the save button is disabled exactly
      when the product is clean (C9); every run of safe user events is
      simulated step by step by [PageSpec]'s machine, with the view of the
      DOM equal to the abstract view (C1); the concrete scenarios of the
      spec (C8); a click on the current tab's link, repeated any number of
      times, changes nothing (C16); and the behaviours where code and spec
      part: a name with a double quote comes back truncated after a blur
      (C10), a name with [&amp;] comes back decoded (C17), a name that ends
      in [&#34;] comes back with a quote after one blur and truncated after
      the next (C22), a blur without an edit marks the product dirty (C11),
      an unknown page renders the text [undefined] (C14), and on a page
      missing an element the script looks up by id it throws a
      [TypeError] (C18).
    - [AppLogger]: a whole session as the browser runs it, from the
      script's load with redux-logger 2 on a well-formed page, never throws
      on safe actions, ends on the page the plain model computes and
      prints only one error-free group per dispatched action, chained from
      [initialState] (C21).  So the plain model of [App], on which the
      other theorems are proved, is the page the browser runs, up to the
      console.
    - [Focus]: every world of the focus model is a world of the free model
      and no action throws there (C19); what the user typed reaches the
      store when focus leaves the field (C20).
    - [Registry]: the code never removes a listener, and the closures left
      on the controls earlier renders detached sit below the live
      control's node in every later world, so no user event reaches them
      again (C23): the accumulation the spec warns of is a leak of
      registrations only, never a second live listener.
    - [Http]: the callback given to [httpPut] runs exactly once, exactly
      1000 ms after the call, and no other timer set from the call on runs,
      whatever was pending before (C15); the loop runs timers by time and,
      at the same time, in the order they were set, so two [httpPut] calls
      run their callbacks in call order (C24).

    Bounds and fuel.  The loops that are not structural are the browser's:
    the event loop, which [Http.run_for n] runs for [n + 1] milliseconds
    (C15 and C24 are stated for every [n], so they cover the runs too short
    to fire the timer and every run long enough); and the attribute-value
    tokenizer [Dom.attr_dq], which consumes a character per step and is
    given the string's length; any larger fuel gives the same value
    ([Dom.attr_dq_fuel], since no character reference gives back more input
    than it was given, [Dom.char_ref_length]).  The code of a numeric
    reference is accumulated saturating at 0x110000, which gives the HTML
    standard's unbounded result clamped ([Dom.ref_digits_exact_cap]) and
    the same code point ([Dom.ref_code_cap]), so a reference with any
    number of digits is read as the standard reads it.  The store's
    notification loop and the event runs are structural over their lists.
    Delays are JavaScript integers kept as [Z] and wrapped to 32 bits as
    WebIDL does.

    What is not modelled.  Every line of the two source files that is
    not a comment, a blank or the [redux] import is translated; what is
    left out belongs to the environment:
    - the HTML page itself beyond the ids of its elements: index.html is
      not in the repository, so the initial DOM is a parameter with no
      listener registered, and a page missing one of the seven ids the
      script looks up makes it throw (C18);
    - HTML parsing beyond the scanner of [Dom] that finds the two form
      controls of the templates: markup injected by a name that is not
      [text_safe] (a second control, a form, an element with an id) is
      not parsed, which is why the page's theorems keep to [text_safe]
      names; and the named character references
      other than the five of XML (the full table has over two thousand
      entries; numeric references are decoded);
    - the logger's timestamps and formatting;
    - the effects of an [httpPut] callback, and so an exception it throws
      (nothing calls [httpPut]);
    - input other than the clicks, typing, Tab and Enter of [Focus] (the
      free model of [App] leaves the order of events open, which
      over-approximates what a browser produces; [Focus] restricts it).
    For that reason the DOM and the page are the two components marked
    as partly modelled. *)

From Stdlib Require Import String Ascii Sorted.
From stdpp Require Import base list strings decidable.

Declare Scope pm_scope.
Delimit Scope pm_scope with pm.
Local Open Scope string_scope.

(** ** The error monad of JavaScript exceptions

    [Throw msg] is an exception that escapes the running handler with the
    message of its [Error]. *)

Inductive result (A : Type) : Type :=
| Ok (a : A)
| Throw (msg : string).
Arguments Ok {A} a.
Arguments Throw {A} msg.

Definition bind {A B : Type} (r : result A) (k : A -> result B) : result B :=
  match r with
  | Ok a => k a
  | Throw m => Throw m
  end.

Notation "x <- r ;; k" := (bind r (fun x => k))
  (at level 100, r at next level, right associativity) : pm_scope.

Local Open Scope pm_scope.

(** A loop whose body may throw: [for (const x of l) acc = f(acc, x)]. *)
Fixpoint fold_result {A B : Type} (f : A -> B -> result A) (acc : A) (l : list B)
    : result A :=
  match l with
  | [] => Ok acc
  | x :: l' => acc' <- f acc x ;; fold_result f acc' l'
  end.

(** The two characters the templates need and a Rocq string cannot spell
    directly. *)
Definition dq : string := String (ascii_of_nat 34) EmptyString.
Definition nl : string := String (ascii_of_nat 10) EmptyString.

Create HintDb pm discriminated.
Create Rewrite HintDb pm_simpl.

(** ** Generic lemmas *)

Lemma bind_Ok_inv {A B : Type} (r : result A) (k : A -> result B) (b : B) :
  bind r k = Ok b -> exists a, r = Ok a /\ k a = Ok b.
Proof. destruct r; simpl; [eauto | discriminate]. Qed.

Lemma bind_Throw_inv {A B : Type} (r : result A) (k : A -> result B) (m : string) :
  bind r k = Throw m -> r = Throw m \/ exists a, r = Ok a /\ k a = Throw m.
Proof. destruct r; simpl; intros H; [right; eauto | left; congruence]. Qed.

Lemma bind_Ok_r {A : Type} (r : result A) : bind r Ok = r.
Proof. by destruct r. Qed.

Lemma fold_result_app {A B : Type} (f : A -> B -> result A) acc l1 l2 :
  fold_result f acc (l1 ++ l2) = (acc' <- fold_result f acc l1 ;; fold_result f acc' l2).
Proof.
  revert acc. induction l1 as [|x l1 IH]; intros acc; simpl; [done|].
  destruct (f acc x); simpl; [apply IH | done].
Qed.

(** An invariant kept by every iteration of the body is kept by the loop. *)
Lemma fold_result_inv {A B : Type} (P : A -> Prop) (f : A -> B -> result A) acc l acc' :
  (forall a x a', In x l -> P a -> f a x = Ok a' -> P a') ->
  P acc -> fold_result f acc l = Ok acc' -> P acc'.
Proof.
  revert acc. induction l as [|x l IH]; intros acc Hf Hacc H; simpl in H.
  - by injection H as <-.
  - apply bind_Ok_inv in H as (a & Ha & Hrest).
    eapply IH; [| eapply Hf; eauto using in_eq | exact Hrest].
    intros. eapply Hf; eauto using in_cons.
Qed.

(** A body that never throws gives a loop that never throws. *)
Lemma fold_result_total {A B : Type} (f : A -> B -> result A) acc l :
  (forall a x, In x l -> exists a', f a x = Ok a') ->
  exists acc', fold_result f acc l = Ok acc'.
Proof.
  revert acc. induction l as [|x l IH]; intros acc Hf; simpl; [eauto|].
  destruct (Hf acc x (in_eq _ _)) as [a' ->]; simpl.
  apply IH. intros. apply Hf. by right.
Qed.

(** A body that leaves the accumulator as it is leaves the loop's too. *)
Lemma fold_result_fixed {A B : Type} (f : A -> B -> result A) acc l :
  (forall x, In x l -> f acc x = Ok acc) -> fold_result f acc l = Ok acc.
Proof.
  induction l as [|x l IH]; intros Hf; simpl; [done|].
  rewrite (Hf x (in_eq _ _)). apply IH. intros. apply Hf. by right.
Qed.

(** Lists: a filter keeps what held of every element, and the order. *)
Lemma Forall_List_filter {A : Type} (P : A -> Prop) (f : A -> bool) l :
  Forall P l -> Forall P (List.filter f l).
Proof. induction 1; simpl; [done|]. destruct (f _); auto. Qed.

Lemma StronglySorted_List_filter {A : Type} (R : A -> A -> Prop) (f : A -> bool) l :
  StronglySorted R l -> StronglySorted R (List.filter f l).
Proof.
  induction 1 as [| x l _ IH Hx]; simpl; [constructor|].
  destruct (f x); [constructor; [done | by apply Forall_List_filter] | done].
Qed.

Lemma StronglySorted_map {A B : Type} (R : A -> A -> Prop) (R' : B -> B -> Prop) (g : A -> B) l :
  (forall x y, R x y -> R' (g x) (g y)) -> StronglySorted R l -> StronglySorted R' (map g l).
Proof.
  intros Hg. induction 1 as [| x l _ IH Hx]; simpl; constructor; [done|].
  clear IH. induction Hx; simpl; constructor; [by apply Hg | done].
Qed.

(** Strings ([simpl] does not unfold [String.append] once stdpp is
    loaded): appending is associative and adds lengths. *)
Lemma string_app_cons c (s t : string) : (String c s ++ t)%string = String c (s ++ t).
Proof. reflexivity. Qed.

Lemma string_app_nil_l (s : string) : (EmptyString ++ s)%string = s.
Proof. reflexivity. Qed.

Lemma string_app_nil_r (s : string) : (s ++ EmptyString)%string = s.
Proof. induction s as [| c s IH]; [done | exact (f_equal (String c) IH)]. Qed.

Lemma string_app_assoc (s t u : string) : ((s ++ t) ++ u)%string = (s ++ t ++ u)%string.
Proof. induction s as [| c s IH]; [done | exact (f_equal (String c) IH)]. Qed.

Lemma string_length_app (s t : string) :
  String.length (s ++ t)%string = String.length s + String.length t.
Proof. induction s as [| c s IH]; [done | exact (f_equal S IH)]. Qed.

#[export] Hint Rewrite string_app_cons string_app_nil_l string_app_assoc string_length_app : pm_simpl.

#[export] Hint Resolve bind_Ok_inv : pm.

(** [inv_ok H] splits a hypothesis [bind r k = Ok b] into its two steps. *)
Ltac inv_ok H :=
  let a := fresh "a" in
  let Ha := fresh "Ha" in
  apply bind_Ok_inv in H as (a & Ha & H).

(** [simpl_ok] rewrites [Ok]-equations away in the goal and hypotheses. *)
Ltac simpl_ok :=
  repeat match goal with
  | H : Ok _ = Ok _ |- _ => injection H as H; subst
  | H : Ok _ = Throw _ |- _ => discriminate H
  | H : Throw _ = Ok _ |- _ => discriminate H
  end.
