(* ===== verification/JsValue.v ===== *)
(** * JavaScript values of the product manager's state

    The reducers of product-manager.js store whatever the action carries
    ([value], [title], [inStock]), so the state's leaves are JavaScript
    values, not typed fields.  The program only ever produces [undefined],
    booleans and strings, and only those are modelled; [truthy] is the
    conversion [!x] and [x ? a : b] apply, [strict_eq] is [===] (structural on
    these primitive values), [to_string] is the [ToString] that a template
    literal [${x}] and an [innerHTML] assignment apply. *)

From Stdlib Require Import String.
From stdpp Require Import base decidable strings.
From S2P Require Import Prelude.
Local Open Scope string_scope.

Inductive jsval : Type :=
| JUndefined
| JBool (b : bool)
| JStr (s : string).

#[export] Instance jsval_eq_dec : EqDecision jsval.
Proof. solve_decision. Defined.

(** [!!x]: [undefined], [false] and the empty string are falsy. *)
Definition truthy (v : jsval) : bool :=
  match v with
  | JUndefined => false
  | JBool b => b
  | JStr s => negb (String.eqb s "")
  end.

(** [x === y] *)
Definition strict_eq (v w : jsval) : bool := bool_decide (v = w).

(** [String(x)], as used by [`${x}`] and by the [innerHTML] setter. *)
Definition to_string (v : jsval) : string :=
  match v with
  | JUndefined => "undefined"
  | JBool true => "true"
  | JBool false => "false"
  | JStr s => s
  end.

(** The typing predicates the state invariant uses ([typeof x === ...]). *)
Definition is_string (v : jsval) : bool :=
  match v with JStr _ => true | _ => false end.
Definition is_boolean (v : jsval) : bool :=
  match v with JBool _ => true | _ => false end.

Lemma strict_eq_true v w : strict_eq v w = true <-> v = w.
Proof. unfold strict_eq. apply bool_decide_eq_true. Qed.

Lemma strict_eq_refl v : strict_eq v v = true.
Proof. by apply strict_eq_true. Qed.

Lemma strict_eq_false v w : v <> w -> strict_eq v w = false.
Proof. intros Hne. unfold strict_eq. by apply bool_decide_eq_false. Qed.

Lemma strict_eq_JStr s t : strict_eq (JStr s) (JStr t) = String.eqb s t.
Proof.
  unfold strict_eq. destruct (String.eqb_spec s t) as [-> | Hne].
  - by apply bool_decide_eq_true.
  - apply bool_decide_eq_false. congruence.
Qed.

Lemma is_boolean_truthy v : is_boolean v = true -> v = JBool (truthy v).
Proof. by destruct v. Qed.

Lemma is_string_to_string v : is_string v = true -> v = JStr (to_string v).
Proof. by destruct v. Qed.

#[export] Hint Rewrite strict_eq_refl strict_eq_JStr : pm_simpl.
#[export] Hint Resolve strict_eq_refl strict_eq_false : pm.
