(* ===== verification/Redux.v ===== *)
(** * The Redux store

    The store of the [redux] library, as product-manager.js uses it
    ([createStore], [store.getState], [store.subscribe], [store.dispatch];
    the library is not part of the repository, so this file follows the
    library's documented behaviour, which the spec restates in its section
    4.1).  The root reducer is reached through the [Reducer] type class, the
    interface between the store and the application: [ProductStore]
    provides the instance.

    [dispatch] runs in a [world]: the store together with an environment [E]
    that the subscribers act on (for the application, the DOM).  A subscriber
    is a name of type [L] that [call] runs; it may throw, and the exception
    escapes [dispatch], as in the library's [for] loop over the listeners.
    The library's [isDispatching] guard (a reducer may not dispatch) is not
    modelled: reducers here are Rocq functions and cannot dispatch. *)

From Stdlib Require Import String.
From stdpp Require Import base list.
From S2P Require Import Prelude JsValue.
Local Open Scope pm_scope.

(** The root reducer of a store: [reduce None a] is the call with an
    undefined state that [createStore] makes with the library's own
    [init_action]; [action_type] reads the [type] property of an action. *)
Class Reducer (S A : Type) := {
  reduce : option S -> A -> result S;
  action_type : A -> jsval;
  init_action : A
}.

Record store (S L : Type) := mkStore {
  currentState : S;
  currentListeners : list L
}.
Arguments mkStore {S L} _ _.
Arguments currentState {S L} _.
Arguments currentListeners {S L} _.

Record world (S L E : Type) := mkWorld {
  wstore : store S L;
  wenv : E
}.
Arguments mkWorld {S L E} _ _.
Arguments wstore {S L E} _.
Arguments wenv {S L E} _.

(** The message of the [Error] the library throws for an action without a
    [type]. *)
Definition undefined_type_error : string :=
  ("Actions may not have an undefined " ++ dq ++ "type" ++ dq ++
  " property. Have you misspelled a constant?")%string.

Section Store.
Context {S A L E : Type} `{!Reducer S A}.

(** [createStore(reducer)]: the library dispatches its [INIT] action on an
    undefined state; there are no listeners yet. *)
Definition createStore : result (store S L) :=
  s <- reduce None init_action ;; Ok (mkStore s []).

Definition getState (st : store S L) : S := currentState st.

(** [store.subscribe(listener)] appends to the listener array. *)
Definition subscribe (l : L) (st : store S L) : store S L :=
  mkStore (currentState st) (currentListeners st ++ [l]).

Context (call : L -> world S L E -> result (world S L E)).

(** [for (let i = 0; i < listeners.length; i++) listeners[i]()] *)
Definition notify (ls : list L) (w : world S L E) : result (world S L E) :=
  fold_result (fun w l => call l w) w ls.

(** [store.dispatch(action)]: reject an action without [type], compute the
    next state with the root reducer, then call the listeners of the
    snapshot taken after the reducer ran. *)
Definition dispatch (a : A) (w : world S L E) : result (world S L E) :=
  if strict_eq (action_type a) JUndefined then Throw undefined_type_error
  else
    s' <- reduce (Some (getState (wstore w))) a ;;
    let ls := currentListeners (wstore w) in
    notify ls (mkWorld (mkStore s' ls) (wenv w)).

(** A sequence of dispatches, the next one starting where the last ended. *)
Definition dispatch_all (acts : list A) (w : world S L E) : result (world S L E) :=
  fold_result (fun w a => dispatch a w) w acts.

(** An action without a [type] throws the library's error before the
    reducer or any subscriber runs. *)
Lemma dispatch_undefined_type a w :
  action_type a = JUndefined -> dispatch a w = Throw undefined_type_error.
Proof. intros Ht. unfold dispatch. by rewrite Ht, strict_eq_refl. Qed.

Lemma dispatch_defined a w :
  action_type a <> JUndefined ->
  dispatch a w =
    (s' <- reduce (Some (getState (wstore w))) a ;;
     notify (currentListeners (wstore w))
       (mkWorld (mkStore s' (currentListeners (wstore w))) (wenv w))).
Proof. intros Ht. unfold dispatch. by rewrite strict_eq_false. Qed.

(** Subscribers that only read the store (the application's [render]). *)
Section ReadOnlySubscribers.
Hypothesis call_keeps_store :
  forall l w w', call l w = Ok w' -> wstore w' = wstore w.

Lemma notify_keeps_store ls w w' :
  notify ls w = Ok w' -> wstore w' = wstore w.
Proof.
  apply (fold_result_inv (fun w'' => wstore w'' = wstore w)); [|done].
  intros a l a' _ Ha Hc. rewrite <- Ha. eauto.
Qed.

Lemma dispatch_Ok_store a w w' :
  dispatch a w = Ok w' ->
  reduce (Some (getState (wstore w))) a = Ok (getState (wstore w')) /\
  currentListeners (wstore w') = currentListeners (wstore w).
Proof.
  unfold dispatch. destruct (strict_eq _ _); [discriminate|].
  intros H. inv_ok H. apply notify_keeps_store in H. rewrite H. by split.
Qed.
End ReadOnlySubscribers.

(** Subscribers that only move the environment forward along a preorder
    [R] (for the application: the DOM only allocates nodes and adds
    listeners): so does every [dispatch]. *)
Section MonotoneSubscribers.
Context (R : E -> E -> Prop) `{!PreOrder R}.
Hypothesis call_mono : forall l w w', call l w = Ok w' -> R (wenv w) (wenv w').

Lemma notify_env_mono ls w w' : notify ls w = Ok w' -> R (wenv w) (wenv w').
Proof.
  apply (fold_result_inv (fun w'' => R (wenv w) (wenv w''))); [| done].
  intros a l a' _ Ha Hc. etransitivity; [exact Ha | eauto].
Qed.

Lemma dispatch_env_mono a w w' : dispatch a w = Ok w' -> R (wenv w) (wenv w').
Proof.
  unfold dispatch. destruct (strict_eq _ _); [discriminate|].
  intros H. inv_ok H. exact (notify_env_mono _ _ _ H).
Qed.
End MonotoneSubscribers.
End Store.

(** ** Subscribers that record their calls

    With subscribers that append their own name to a log kept in the
    environment, the log shows exactly which notifications happened. *)
Section Trace.
Context {S A L : Type} `{!Reducer S A}.

Definition trace_call (l : L) (w : world S L (list L)) : result (world S L (list L)) :=
  Ok (mkWorld (wstore w) (wenv w ++ [l])).

Lemma notify_trace ls w :
  notify trace_call ls w = Ok (mkWorld (wstore w) (wenv w ++ ls)).
Proof.
  unfold notify. revert w. induction ls as [|l ls IH]; intros w; simpl.
  - destruct w. by rewrite app_nil_r.
  - rewrite IH. simpl. by rewrite <- app_assoc.
Qed.

(** One dispatch logs each subscriber once, after the reducer ran. *)
Lemma dispatch_trace a w :
  action_type a <> JUndefined ->
  dispatch trace_call a w =
    (s' <- reduce (Some (getState (wstore w))) a ;;
     Ok (mkWorld (mkStore s' (currentListeners (wstore w)))
           (wenv w ++ currentListeners (wstore w)))).
Proof.
  intros Ht. rewrite dispatch_defined by done.
  destruct (reduce _ a); simpl; [by rewrite notify_trace | done].
Qed.
End Trace.
