(* ===== verification/ProductStore.v ===== *)
(** * The product manager's state, actions and reducers

    product-manager.js lines 4-68 and 167-187: the string constants, the
    [defaultState] object, the three slice reducers, their combination with
    the library's [combineReducers] (with its check that no slice reducer
    returns [undefined]), and the three action creators.  The instance
    [product_reducer] plugs [combinedReducers] into the store of [Redux].

    Actions and states are JavaScript objects whose fields hold whatever the
    dispatcher passed; a field an action does not set reads as [undefined].
    The store's state has the three keys of [combineReducers], not the four
    of [defaultState]: [requestStatus] is absent from it. *)

From Stdlib Require Import String.
From stdpp Require Import base list decidable.
From S2P Require Import Prelude JsValue Redux.
Local Open Scope string_scope.
Local Open Scope pm_scope.

(** ** Constants (lines 4-16) *)
Definition DETAILS : string := "DETAILS".
Definition AVAILABILITY : string := "AVAILABILITY".
Definition READY : string := "READY".
Definition WAITING : string := "WAITING".
Definition PRODUCT_UPDATE_ACCEPTED : string := "PRODUCT_UPDATE_ACCEPTED".
Definition CHANGE_PAGE : string := "CHANGE_PAGE".
Definition CHANGE_PRODUCT : string := "CHANGE_PRODUCT".
Definition CHANGE_PRODUCT_DIRTY : string := "CHANGE_PRODUCT_DIRTY".

(** ** Objects *)
Module Page.
Record t := mk { name : jsval; title : jsval }.
End Page.

Module Product.
Record t := mk { name : jsval; inStock : jsval }.
End Product.

(** The object literal [defaultState] (lines 18-29). *)
Module DefaultState.
Record t := mk {
  page : Page.t;
  product : Product.t;
  productDirty : jsval;
  requestStatus : jsval
}.
End DefaultState.

(** The state object [combineReducers] builds: its keys are those of the
    reducer map (lines 59-63). *)
Module State.
Record t := mk {
  page : Page.t;
  product : Product.t;
  productDirty : jsval
}.
End State.

(** An action object [{ type, value, title, inStock }]. *)
Module Action.
Record t := mk { type : jsval; value : jsval; title : jsval; inStock : jsval }.
End Action.

Definition defaultState : DefaultState.t :=
  DefaultState.mk
    (Page.mk (JStr DETAILS) (JStr "Product Details"))
    (Product.mk (JStr "Best Product ever!") (JBool true))
    (JBool false)
    (JStr READY).

(** ** Slice reducers (lines 32-57)

    A parameter [state = default] takes the default when the argument is
    [undefined]: [None] for the object slices, [JUndefined] for the flag. *)
Definition pageReducer (state : option Page.t) (a : Action.t) : Page.t :=
  let state := default (DefaultState.page defaultState) state in
  if strict_eq (Action.type a) (JStr CHANGE_PAGE)
  then Page.mk (Action.value a) (Action.title a)
  else state.

Definition productReducer (state : option Product.t) (a : Action.t) : Product.t :=
  let state := default (DefaultState.product defaultState) state in
  if strict_eq (Action.type a) (JStr CHANGE_PRODUCT)
  then Product.mk (Action.value a) (Action.inStock a)
  else state.

Definition productDirtyReducer (state : jsval) (a : Action.t) : jsval :=
  let state := if strict_eq state JUndefined
               then DefaultState.productDirty defaultState else state in
  if strict_eq (Action.type a) (JStr CHANGE_PRODUCT_DIRTY)
  then Action.value a
  else state.

(** The message of the library's [getUndefinedStateErrorMessage]. *)
Definition undefined_state_error (key : string) (a : Action.t) : string :=
  "Given action " ++ dq ++ to_string (Action.type a) ++ dq ++ ", reducer " ++
  dq ++ key ++ dq ++ " returned undefined. To ignore an action, you must " ++
  "explicitly return the previous state. If you want this reducer to hold " ++
  "no value, you can return null instead of undefined.".

(** [combineReducers({ page, product, productDirty })] (lines 59-63): each
    slice reducer gets its own key of the previous state ([undefined] when
    the state is); a slice that comes back [undefined] throws.  The two
    object slices cannot be [undefined]. *)
Definition combinedReducers (state : option State.t) (a : Action.t) : result State.t :=
  let page := pageReducer (State.page <$> state) a in
  let product := productReducer (State.product <$> state) a in
  let productDirty := productDirtyReducer (default JUndefined (State.productDirty <$> state)) a in
  if strict_eq productDirty JUndefined
  then Throw (undefined_state_error "productDirty" a)
  else Ok (State.mk page product productDirty).

(** ** Action creators (lines 167-187) *)
Definition changePageAction (name title : jsval) : Action.t :=
  Action.mk (JStr CHANGE_PAGE) name title JUndefined.

Definition changeProductAction (name inStock : jsval) : Action.t :=
  Action.mk (JStr CHANGE_PRODUCT) name JUndefined inStock.

Definition changeProductDirtyAction (value : jsval) : Action.t :=
  Action.mk (JStr CHANGE_PRODUCT_DIRTY) value JUndefined JUndefined.

(** The library's [INIT] action ([@@redux/INIT] followed by a random suffix
    in recent versions; any string other than the three types behaves the
    same). *)
Definition INIT : Action.t :=
  Action.mk (JStr "@@redux/INIT") JUndefined JUndefined JUndefined.

#[export] Instance product_reducer : Reducer State.t Action.t := {|
  reduce := combinedReducers;
  action_type := Action.type;
  init_action := INIT
|}.

(** ** Well-typed states and actions

    The types the program means its state to have: strings for the page's
    name and title and the product's name, booleans for [inStock] and
    [productDirty].  An action is well typed when its payload has the types
    of the slice it targets. *)
Definition state_wf (s : State.t) : bool :=
  is_string (Page.name (State.page s)) && is_string (Page.title (State.page s)) &&
  is_string (Product.name (State.product s)) &&
  is_boolean (Product.inStock (State.product s)) &&
  is_boolean (State.productDirty s).

Definition action_wf (a : Action.t) : bool :=
  match Action.type a with
  | JStr t =>
      if String.eqb t CHANGE_PAGE then is_string (Action.value a) && is_string (Action.title a)
      else if String.eqb t CHANGE_PRODUCT then
        is_string (Action.value a) && is_boolean (Action.inStock a)
      else if String.eqb t CHANGE_PRODUCT_DIRTY then is_boolean (Action.value a)
      else true
  | _ => true
  end.

(** The state [createStore] starts from. *)
Definition initialState : State.t :=
  State.mk (Page.mk (JStr DETAILS) (JStr "Product Details"))
    (Product.mk (JStr "Best Product ever!") (JBool true)) (JBool false).

(** ** Slice lemmas *)

(** [reducer_type_cases t] splits on which of the three action types the
    string [t] is, rewriting the [===] tests the reducers make. *)
Ltac reducer_type_cases t :=
  destruct (String.eqb_spec t CHANGE_PAGE) as [-> | ?];
  [| destruct (String.eqb_spec t CHANGE_PRODUCT) as [-> | ?];
     [| destruct (String.eqb_spec t CHANGE_PRODUCT_DIRTY) as [-> | ?]]].

Lemma pageReducer_other p a :
  Action.type a <> JStr CHANGE_PAGE -> pageReducer (Some p) a = p.
Proof. intros Ht. unfold pageReducer. by rewrite strict_eq_false. Qed.

Lemma productReducer_other p a :
  Action.type a <> JStr CHANGE_PRODUCT -> productReducer (Some p) a = p.
Proof. intros Ht. unfold productReducer. by rewrite strict_eq_false. Qed.

Lemma productDirtyReducer_other d a :
  d <> JUndefined -> Action.type a <> JStr CHANGE_PRODUCT_DIRTY ->
  productDirtyReducer d a = d.
Proof. intros Hd Ht. unfold productDirtyReducer. by rewrite !strict_eq_false. Qed.

(** The combined reducer on a defined state: the three slices computed
    independently, then the undefined check. *)
Lemma combinedReducers_Some s a :
  combinedReducers (Some s) a =
    let d := productDirtyReducer (State.productDirty s) a in
    if strict_eq d JUndefined then Throw (undefined_state_error "productDirty" a)
    else Ok (State.mk (pageReducer (Some (State.page s)) a)
                      (productReducer (Some (State.product s)) a) d).
Proof. reflexivity. Qed.

Lemma pageReducer_idem p a :
  pageReducer (Some (pageReducer (Some p) a)) a = pageReducer (Some p) a.
Proof. unfold pageReducer. simpl. by destruct (strict_eq _ _). Qed.

Lemma productReducer_idem p a :
  productReducer (Some (productReducer (Some p) a)) a = productReducer (Some p) a.
Proof. unfold productReducer. simpl. by destruct (strict_eq _ _). Qed.

Lemma productDirtyReducer_idem d a :
  productDirtyReducer d a <> JUndefined ->
  productDirtyReducer (productDirtyReducer d a) a = productDirtyReducer d a.
Proof.
  unfold productDirtyReducer. intros _.
  destruct (strict_eq (Action.type a) _); [done|].
  destruct (strict_eq d JUndefined) eqn:E; simpl; [done | by rewrite E].
Qed.

Lemma pageReducer_match p a :
  Action.type a = JStr CHANGE_PAGE -> pageReducer p a = Page.mk (Action.value a) (Action.title a).
Proof. intros Ht. unfold pageReducer. by rewrite Ht, strict_eq_refl. Qed.

Lemma productReducer_match p a :
  Action.type a = JStr CHANGE_PRODUCT ->
  productReducer p a = Product.mk (Action.value a) (Action.inStock a).
Proof. intros Ht. unfold productReducer. by rewrite Ht, strict_eq_refl. Qed.

Lemma productDirtyReducer_match d a :
  Action.type a = JStr CHANGE_PRODUCT_DIRTY -> productDirtyReducer d a = Action.value a.
Proof. intros Ht. unfold productDirtyReducer. by rewrite Ht, strict_eq_refl. Qed.

#[export] Hint Resolve pageReducer_other productReducer_other productDirtyReducer_other : pm.

Lemma state_wf_dirty_defined s : state_wf s = true -> State.productDirty s <> JUndefined.
Proof. unfold state_wf. destruct (State.productDirty s); by rewrite ?andb_false_r. Qed.

(** The three kinds of well-typed action, and the rest. *)
Lemma action_wf_cases a :
  action_wf a = true ->
  (Action.type a = JStr CHANGE_PAGE /\ is_string (Action.value a) = true /\
     is_string (Action.title a) = true) \/
  (Action.type a = JStr CHANGE_PRODUCT /\ is_string (Action.value a) = true /\
     is_boolean (Action.inStock a) = true) \/
  (Action.type a = JStr CHANGE_PRODUCT_DIRTY /\ is_boolean (Action.value a) = true) \/
  (Action.type a <> JStr CHANGE_PAGE /\ Action.type a <> JStr CHANGE_PRODUCT /\
     Action.type a <> JStr CHANGE_PRODUCT_DIRTY).
Proof.
  unfold action_wf. destruct (Action.type a) as [| b | t]; [right; right; right; done ..|].
  reducer_type_cases t; rewrite ?andb_true_iff; simpl; [naive_solver ..|].
  repeat match goal with H : ?x <> ?y |- _ => rewrite (proj2 (String.eqb_neq x y) H) end.
  intros _. right; right; right. split_and!; congruence.
Qed.


(** ** Properties of the store's reducer *)

(** A well-typed action applied to a well-typed state never throws and
    gives a well-typed state. *)
Lemma combinedReducers_wf s a :
  state_wf s = true -> action_wf a = true ->
  exists s', combinedReducers (Some s) a = Ok s' /\ state_wf s' = true.
Proof.
  intros Hs Ha. pose proof (state_wf_dirty_defined s Hs) as Hd.
  destruct s as [[pn pt] [nm st] d]; unfold state_wf in *; simpl in *.
  rewrite combinedReducers_Some; simpl.
  destruct (action_wf_cases a Ha) as [(Ht & Hv & Hw) | [(Ht & Hv & Hw) | [(Ht & Hv) | (H1 & H2 & H3)]]];
    [rewrite pageReducer_match, productReducer_other, productDirtyReducer_other by (rewrite ?Ht; done)
    |rewrite pageReducer_other, productReducer_match, productDirtyReducer_other by (rewrite ?Ht; done)
    |rewrite pageReducer_other, productReducer_other, productDirtyReducer_match by (rewrite ?Ht; done)
    |rewrite pageReducer_other, productReducer_other, productDirtyReducer_other by done];
    [| | destruct (Action.value a); try discriminate |];
    try rewrite (strict_eq_false _ _ Hd);
    eexists; (split; [reflexivity|]); simpl; rewrite ?Hv, ?Hw;
    repeat rewrite andb_true_iff in Hs; repeat rewrite andb_true_iff; naive_solver.
Qed.

(** C6. Routing: each of the three actions the program creates replaces
    exactly its own slice with an object rebuilt from the payload and leaves
    the other two slices as they were. *)
Theorem combinedReducers_routing s pageName title name inStock value :
  State.productDirty s <> JUndefined -> value <> JUndefined ->
  combinedReducers (Some s) (changePageAction pageName title) =
    Ok (State.mk (Page.mk pageName title) (State.product s) (State.productDirty s)) /\
  combinedReducers (Some s) (changeProductAction name inStock) =
    Ok (State.mk (State.page s) (Product.mk name inStock) (State.productDirty s)) /\
  combinedReducers (Some s) (changeProductDirtyAction value) =
    Ok (State.mk (State.page s) (State.product s) value).
Proof.
  intros Hd Hv. rewrite !combinedReducers_Some; simpl.
  rewrite (pageReducer_match _ (changePageAction _ _)),
    (productReducer_match _ (changeProductAction _ _)),
    (productDirtyReducer_match _ (changeProductDirtyAction _)) by done.
  rewrite !pageReducer_other, !productReducer_other, !productDirtyReducer_other by done.
  rewrite !strict_eq_false by done. by split_and!.
Qed.

(** C12. An action whose [type] is none of the three (an unknown action, the
    library's [INIT], or an action without [type]) leaves a defined state
    unchanged and does not throw. *)
Theorem combinedReducers_unknown_noop s a :
  State.productDirty s <> JUndefined ->
  Action.type a <> JStr CHANGE_PAGE -> Action.type a <> JStr CHANGE_PRODUCT ->
  Action.type a <> JStr CHANGE_PRODUCT_DIRTY ->
  combinedReducers (Some s) a = Ok s.
Proof.
  intros Hd H1 H2 H3. rewrite combinedReducers_Some; simpl.
  rewrite pageReducer_other, productReducer_other, productDirtyReducer_other by done.
  rewrite strict_eq_false by done. by destruct s.
Qed.

(** C13. Error path: dispatching [changeProductDirtyAction(undefined)] throws
    the library's undefined-slice error, whatever the world; the store is not
    updated and no subscriber runs. *)
Theorem dispatch_dirty_undefined_throws {L E : Type} call (w : world State.t L E) :
  dispatch call (changeProductDirtyAction JUndefined) w =
    Throw (undefined_state_error "productDirty" (changeProductDirtyAction JUndefined)).
Proof.
  rewrite dispatch_defined by discriminate. reflexivity.
Qed.

(** C7. Idempotence: applying an action to the state it produced changes
    nothing (every slice is rebuilt from the payload alone). *)
Theorem combinedReducers_idempotent s a s1 :
  combinedReducers (Some s) a = Ok s1 -> combinedReducers (Some s1) a = Ok s1.
Proof.
  rewrite combinedReducers_Some; simpl.
  destruct (strict_eq (productDirtyReducer _ a) JUndefined) eqn:E; [discriminate|].
  intros H; simpl_ok. rewrite combinedReducers_Some; simpl.
  assert (Hd : productDirtyReducer (State.productDirty s) a <> JUndefined)
    by (intros Hu; by rewrite Hu in E).
  by rewrite pageReducer_idem, productReducer_idem, productDirtyReducer_idem, E.
Qed.

(** The actions a sequence of dispatches may carry for the store to stay
    well typed: well-typed payloads and a defined [type]. *)
Definition actions_ok (acts : list Action.t) : bool :=
  forallb (fun a => action_wf a && negb (strict_eq (Action.type a) JUndefined)) acts.

(** C5. Type invariant of the store: a sequence of dispatches of well-typed
    actions from a well-typed state never throws, keeps the state well
    typed, and notifies every subscriber exactly once per dispatch, in
    order (no batching, no skipped notification). *)
Theorem dispatch_all_typed {L : Type} (ls : list L) s acts log :
  state_wf s = true -> actions_ok acts = true ->
  exists s', dispatch_all trace_call acts (mkWorld (mkStore s ls) log) =
               Ok (mkWorld (mkStore s' ls) (log ++ concat (repeat ls (length acts)))%list) /\
             state_wf s' = true.
Proof.
  revert s log. induction acts as [| a acts IH]; intros s log Hs Hacts.
  - exists s. by rewrite app_nil_r.
  - simpl in Hacts. rewrite !andb_true_iff, negb_true_iff in Hacts.
    destruct Hacts as [[Ha Ht] Hacts].
    destruct (combinedReducers_wf s a Hs Ha) as (s1 & Hs1 & Hwf1).
    destruct (IH s1 (log ++ ls)%list Hwf1 Hacts) as (s2 & Hrun & Hwf2).
    exists s2. split; [| done]. unfold dispatch_all. simpl.
    rewrite dispatch_trace by (simpl; intros E; by rewrite E, strict_eq_refl in Ht).
    simpl. rewrite Hs1. simpl. unfold dispatch_all in Hrun. by rewrite Hrun, app_assoc.
Qed.

(** ** Witnesses *)

Lemma dispatch_all_typed_witness :
  exists s', dispatch_all trace_call
               [changeProductDirtyAction (JBool true); changeProductAction (JStr "Widget") (JBool true)]
               (mkWorld (mkStore initialState [tt]) []) =
             Ok (mkWorld (mkStore s' [tt]) ([] ++ concat (repeat [tt] 2))%list) /\
             state_wf s' = true.
Proof. apply dispatch_all_typed; reflexivity. Defined.


Lemma combinedReducers_routing_witness :
  combinedReducers (Some initialState) (changePageAction (JStr AVAILABILITY) (JStr "Product Availability")) =
    Ok (State.mk (Page.mk (JStr AVAILABILITY) (JStr "Product Availability"))
                 (State.product initialState) (JBool false)) /\
  combinedReducers (Some initialState) (changeProductAction (JStr "X") (JBool true)) =
    Ok (State.mk (State.page initialState) (Product.mk (JStr "X") (JBool true)) (JBool false)) /\
  combinedReducers (Some initialState) (changeProductDirtyAction (JBool true)) =
    Ok (State.mk (State.page initialState) (State.product initialState) (JBool true)).
Proof. apply (combinedReducers_routing initialState); discriminate. Defined.

Lemma combinedReducers_unknown_noop_witness :
  combinedReducers (Some initialState) INIT = Ok initialState.
Proof. apply combinedReducers_unknown_noop; discriminate. Defined.

Lemma combinedReducers_idempotent_witness :
  combinedReducers (Some initialState) (changeProductDirtyAction (JBool true)) =
    Ok (State.mk (State.page initialState) (State.product initialState) (JBool true)) /\
  combinedReducers (Some (State.mk (State.page initialState) (State.product initialState) (JBool true)))
    (changeProductDirtyAction (JBool true)) =
    Ok (State.mk (State.page initialState) (State.product initialState) (JBool true)).
Proof.
  split; [reflexivity|].
  apply (combinedReducers_idempotent initialState). reflexivity.
Defined.
