(* ===== verification/Logger.v ===== *)
(** * The store the code builds: [applyMiddleware(logger())]

    product-manager.js lines 65-68 build the store with
    [createStore(combinedReducers, applyMiddleware(logger()))].  Neither
    library is part of the repository; this file follows their published
    code.  [createStore(reducer, enhancer)] returns
    [enhancer(createStore)(reducer)]; [applyMiddleware] first creates the
    plain store (its [INIT] dispatch goes through no middleware), then calls
    each middleware with the store's API, which throws a [TypeError] when a
    middleware is not a function; the store's [dispatch] becomes the
    middleware chain wrapped around the plain [dispatch].

    What [logger()] is depends on the redux-logger release:
    - in 2.x the default export is [createLogger], and [logger()] is the
      logging middleware with its default options;
    - from 3.0 on the default export is the middleware itself; called with
      no argument it prints a "BREAKING CHANGE" message with
      [console.error] and returns [undefined].
    [logger_export] names the two cases.

    The logging middleware records, for each action, the state before, the
    state after and the exception if [next] threw (its [logErrors] default),
    prints the record and rethrows.  The console is an output channel: it is
    kept even when [dispatch] throws.  A printed record is [log_entry];
    timestamps, durations and colours are not modelled.  Nested dispatch
    (a subscriber dispatching, which would interleave records in the
    logger's buffer) does not occur: the application's one subscriber only
    reads the store. *)

From Stdlib Require Import String.
From stdpp Require Import base list.
From S2P Require Import Prelude JsValue Redux ProductStore.
Local Open Scope pm_scope.

(** The two releases of redux-logger, by what their default export is. *)
Inductive logger_export : Type :=
| CreateLoggerDefault
| LoggerMiddlewareDefault.

(** The middleware values the application can pass to [applyMiddleware]:
    [logger()] gives the logging middleware or [undefined]. *)
Inductive middleware : Type := LoggingMiddleware.

(** The message redux-logger 3 prints for [logger()] (abridged). *)
Definition breaking_change_message : string :=
  "[redux-logger v3] BREAKING CHANGE: Since 3.0.0 redux-logger exports by default logger with default settings.".

Definition middleware_type_error : string := "TypeError: middleware is not a function".

(** [logger()] *)
Definition logger_call (v : logger_export) : list string * option middleware :=
  match v with
  | CreateLoggerDefault => ([], Some LoggingMiddleware)
  | LoggerMiddlewareDefault => ([breaking_change_message], None)
  end.

Section Logging.
Context {S A L E : Type} `{!Reducer S A}.
Context (call : L -> world S L E -> result (world S L E)).

(** One group the logger prints: the action, the state before, the
    exception if there was one, the state after. *)
Record log_entry : Type := LogEntry {
  le_action : A;
  le_prevState : S;
  le_error : option string;
  le_nextState : S
}.

(** What [console] shows: the logger's groups and [console.error] lines. *)
Inductive console_line : Type :=
| Group (e : log_entry)
| ConsoleError (msg : string).

(** [store.getState()] after a [dispatch] that threw: the library stores the
    new state before it calls the listeners, so a throwing listener leaves
    the new state in place; a throwing reducer or a rejected action leaves
    the old one. *)
Definition state_after_throw (a : A) (w : world S L E) : S :=
  if strict_eq (action_type a) JUndefined then getState (wstore w)
  else match reduce (Some (getState (wstore w))) a with
       | Ok s' => s'
       | Throw _ => getState (wstore w)
       end.

(** The store's [dispatch] once [applyMiddleware(logger)] wrapped it: the
    logging middleware around the plain [dispatch]. *)
Definition logged_dispatch (a : A) (w : world S L E) (c : list console_line)
    : list console_line * result (world S L E) :=
  let prevState := getState (wstore w) in
  match dispatch call a w with
  | Ok w' => (c ++ [Group (LogEntry a prevState None (getState (wstore w')))], Ok w')
  | Throw e => (c ++ [Group (LogEntry a prevState (Some e) (state_after_throw a w))], Throw e)
  end.

(** A sequence of dispatches through the wrapped [dispatch]; an exception
    ends the sequence, the console keeps what was printed. *)
Fixpoint logged_dispatch_all (acts : list A) (w : world S L E) (c : list console_line)
    : list console_line * result (world S L E) :=
  match acts with
  | [] => (c, Ok w)
  | a :: acts' =>
      match logged_dispatch a w c with
      | (c', Ok w') => logged_dispatch_all acts' w' c'
      | (c', Throw e) => (c', Throw e)
      end
  end.

(** The groups form a chain of states from [s] to [s']: each group starts
    where the previous one ended. *)
Fixpoint chained (s : S) (es : list log_entry) (s' : S) : Prop :=
  match es with
  | [] => s = s'
  | e :: es' => le_prevState e = s /\ chained (le_nextState e) es' s'
  end.
End Logging.

Arguments log_entry : clear implicits.
Arguments console_line : clear implicits.

(** [createStore(combinedReducers, applyMiddleware(logger()))]: the plain
    store, provided [applyMiddleware] accepts what [logger()] returned. *)
Definition app_store {L : Type} (v : logger_export)
    : list (console_line State.t Action.t) * result (store State.t L) :=
  let (errs, mw) := logger_call v in
  (map ConsoleError errs,
   st <- createStore ;;
   match mw with
   | Some LoggingMiddleware => Ok st
   | None => Throw middleware_type_error
   end).

(** ** The logger changes nothing but the console *)
Section Transparency.
Context {S A L E : Type} `{!Reducer S A}.
Context (call : L -> world S L E -> result (world S L E)).

Lemma logged_dispatch_result a w c : snd (logged_dispatch call a w c) = dispatch call a w.
Proof. unfold logged_dispatch. by destruct (dispatch call a w). Qed.

Lemma logged_dispatch_Ok a w c w' :
  dispatch call a w = Ok w' ->
  logged_dispatch call a w c =
    (c ++ [Group (LogEntry a (getState (wstore w)) None (getState (wstore w')))], Ok w').
Proof. unfold logged_dispatch. by intros ->. Qed.

Lemma logged_dispatch_Throw a w c m :
  dispatch call a w = Throw m ->
  logged_dispatch call a w c =
    (c ++ [Group (LogEntry a (getState (wstore w)) (Some m) (state_after_throw a w))], Throw m).
Proof. unfold logged_dispatch. by intros ->. Qed.

(** Two chains of groups, the second starting where the first ended, make
    one chain. *)
Lemma chained_app (s s1 s2 : S) es1 es2 :
  chained (A := A) s es1 s1 -> chained s1 es2 s2 -> chained s (es1 ++ es2) s2.
Proof.
  revert s. induction es1 as [| e es1 IH]; intros s H1 H2; simpl in *; [by subst|].
  destruct H1 as [He H1]. split; [done | exact (IH _ H1 H2)].
Qed.

(** The wrapped [dispatch] computes what the plain one does. *)
Lemma logged_dispatch_all_result acts w c :
  snd (logged_dispatch_all call acts w c) = dispatch_all call acts w.
Proof.
  revert w c. induction acts as [| a acts IH]; intros w c; [done|]. simpl.
  unfold dispatch_all; simpl. destruct (dispatch call a w) as [w1 | m] eqn:Hd.
  - rewrite (logged_dispatch_Ok _ _ _ _ Hd). apply IH.
  - by rewrite (logged_dispatch_Throw _ _ _ _ Hd).
Qed.

(** A sequence that does not throw prints one group per action, in order,
    without error, the groups chaining the states from first to last. *)
Lemma logged_dispatch_all_log acts w c w' :
  dispatch_all call acts w = Ok w' ->
  exists es, fst (logged_dispatch_all call acts w c) = c ++ map Group es /\
    map le_action es = acts /\ Forall (fun e => le_error e = None) es /\
    chained (getState (wstore w)) es (getState (wstore w')).
Proof.
  revert w c. induction acts as [| a acts IH]; intros w c Hrun.
  - injection Hrun as <-. exists []. by rewrite app_nil_r.
  - unfold dispatch_all in Hrun. simpl in Hrun. inv_ok Hrun.
    destruct (IH a0 (c ++ [Group (LogEntry a (getState (wstore w)) None (getState (wstore a0)))])
                Hrun) as (es & Hc & Hact & Hn & Hch).
    exists (LogEntry a (getState (wstore w)) None (getState (wstore a0)) :: es).
    simpl. rewrite (logged_dispatch_Ok _ _ _ _ Ha), Hc, <- app_assoc, Hact. repeat split; by try constructor.
Qed.

(** A sequence that throws prints one group per action up to the one that
    threw, and that last group carries the exception. *)
Lemma logged_dispatch_all_throw acts w c m :
  dispatch_all call acts w = Throw m ->
  exists es e, fst (logged_dispatch_all call acts w c) = c ++ map Group (es ++ [e]) /\
    le_error e = Some m.
Proof.
  revert w c. induction acts as [| a acts IH]; intros w c Hrun; [done|].
  unfold dispatch_all in Hrun. simpl in Hrun. simpl.
  destruct (dispatch call a w) as [w1 | m'] eqn:Hd; simpl in Hrun.
  - rewrite (logged_dispatch_Ok _ _ _ _ Hd).
    destruct (IH w1 (c ++ [Group (LogEntry a (getState (wstore w)) None (getState (wstore w1)))]) Hrun)
      as (es & e & Hc & He). rewrite Hc.
    exists (LogEntry a (getState (wstore w)) None (getState (wstore w1)) :: es), e.
    by rewrite <- app_assoc.
  - injection Hrun as ->. rewrite (logged_dispatch_Throw _ _ _ _ Hd).
    by eexists [], _.
Qed.
End Transparency.

