(* ===== verification/Views.v ===== *)
(** * The view templates

    [DetailsComponent] and [AvailabilityComponent] (product-manager.js lines
    70-85) are template literals; they are written here character for
    character, with [${x}] as [to_string x] and the conditional
    [${inStock ? 'checked' : ''}] as a test of [truthy inStock].  The values
    are interpolated without any escaping, as in the source. *)

From Stdlib Require Import String.
From stdpp Require Import base.
From S2P Require Import Prelude JsValue.
Local Open Scope string_scope.

(** A double-quoted attribute value of the markup. *)
Definition q (s : string) : string := dq ++ s ++ dq.

Definition DetailsComponent (title name : jsval) : string :=
  "<h3>" ++ to_string title ++ "</h3>" ++ nl ++
  "    <form name=" ++ q "details" ++ ">" ++ nl ++
  "        <label for=" ++ q "name" ++ ">Name</label>" ++ nl ++
  "        <input type=" ++ q "text" ++ " name=" ++ q "productName" ++
    " value=" ++ q (to_string name) ++ ">" ++ nl ++
  "    </form>".

Definition AvailabilityComponent (title inStock : jsval) : string :=
  "<h3>" ++ to_string title ++ "</h3>" ++ nl ++
  "    <form name=" ++ q "availability" ++ ">" ++ nl ++
  "        <label for=" ++ q "name" ++ ">" ++ nl ++
  "            <input type=" ++ q "checkbox" ++ " name=" ++ q "inStock" ++
    " value=" ++ q "inStock" ++ " " ++ (if truthy inStock then "checked" else "") ++
    "> In Stock" ++ nl ++
  "        </label>" ++ nl ++
  "    </form>".
