(* ===== verification/Dom.v ===== *)
(** * The part of the browser DOM the product manager touches

    The elements product-manager.js looks up by id: [#product-title] (its
    [innerHTML]), [#btn-details] and [#btn-availability] (their [classList]),
    [#btn-save] (its [disabled] flag) and [#content] (its [innerHTML]).
    Assigning [content.innerHTML] replaces the container's children by new
    nodes parsed from the markup: the form control found there gets a fresh
    node number, and the previous control becomes a detached node that keeps
    its listeners.  The registry of [addEventListener] calls is kept whole
    (node, event type, handler), detached nodes included; the handler type
    [H] is the application's (its closures, see [App]).  [elementIds] are the
    ids of the page's elements: [getElementById] returns [null] for any
    other.  The templates carry no id, and with [text_safe] product names
    (below) neither does what the code writes into [#content] or
    [#product-title]; the code removes no element with an id.

    HTML parsing is modelled by a scanner that finds the one form control of
    the two templates: the text input [productName] and the checkbox
    [inStock], checked when the attribute [checked] follows.  The text
    input's value is what the tokenizer's double-quoted attribute value
    state reads ([attr_dq]: up to the first double quote, character
    references decoded), after the value sanitization of a text input
    (newlines stripped).  Text is a Rocq [string] read as UTF-8: a
    character outside ASCII is its UTF-8 bytes, each at least 0x80, so a
    byte-wise scan that looks only for ASCII characters ([&], the double
    quote, [#], digits, [;]) sees what a scan by code point sees.  The
    named references decoded are the five of XML ([&amp;], [&lt;], [&gt;],
    [&quot;], [&apos;]) and their upper-case and semicolon-less legacy
    forms, with the attribute rule that a legacy form followed by [=] or an
    alphanumeric stays literal; the other named references of the HTML
    table are read literally here.  Numeric references ([&#34;],
    [&#x22;], with or without the semicolon) are decoded as the HTML
    standard's numeric character reference states do: the code is
    accumulated ([ref_digits], saturated at 0x110000, which gives the
    standard's result, [ref_digits_exact_cap]); zero, a code above 0x10FFFF
    or a surrogate becomes U+FFFD, a code of the C1 range is mapped by the
    standard's table, and the code point is written as UTF-8
    ([utf8_encode]).  A NUL in the value becomes U+FFFD.  The theorems
    about field values assume names without [&], quotes, newlines or NUL
    ([attr_safe]), except those that show the decoding.

    The scanner and [set_productTitle] (the title keeps the markup string
    as its text) are the browser's reading only for markup that injects
    nothing: a product name that holds a raw quote ends the [value] attribute early,
    and what follows is parsed as attributes or elements (a second
    [productName] control makes [details.productName] a [RadioNodeList]
    whose [addEventListener] throws); a [<] or [&] in the title's
    [innerHTML] is parsed as markup.  [text_safe] rules all of these out,
    and the theorems about the running page are stated over the worlds
    whose names are [text_safe] ([App.safe_reachable]). *)

From Stdlib Require Import String Ascii NArith.
From stdpp Require Import base list decidable.
From S2P Require Import Prelude JsValue Views.
Local Open Scope string_scope.

(** ** The markup scanner *)

(** [Some rest] when [s] is [m ++ rest]. *)
Fixpoint strip_prefix (m s : string) : option string :=
  match m, s with
  | EmptyString, _ => Some s
  | String c m', String c' s' => if Ascii.eqb c c' then strip_prefix m' s' else None
  | String _ _, EmptyString => None
  end.

(** The text after the first occurrence of [m] in [s]. *)
Fixpoint after (m s : string) : option string :=
  match strip_prefix m s with
  | Some r => Some r
  | None => match s with EmptyString => None | String _ s' => after m s' end
  end.

(** The character references the model decodes: the five of XML and the
    upper-case forms the HTML table also has.  All but [apos] also have a
    legacy form without the semicolon. *)
Definition char_refs : list (string * string * bool) :=
  [("amp", "&", true); ("lt", "<", true); ("gt", ">", true); ("quot", dq, true);
   ("apos", "'", false);
   ("AMP", "&", true); ("LT", "<", true); ("GT", ">", true); ("QUOT", dq, true)].

Definition is_alnum (c : ascii) : bool :=
  let n := nat_of_ascii c in
  (Nat.leb 48 n && Nat.leb n 57) || (Nat.leb 65 n && Nat.leb n 90) || (Nat.leb 97 n && Nat.leb n 122).

(** In an attribute value a reference without its semicolon is read
    literally when the next character is [=] or alphanumeric. *)
Definition legacy_ok (rest : string) : bool :=
  match rest with
  | EmptyString => true
  | String c _ => negb (Ascii.eqb c "=" || is_alnum c)
  end.

(** The named character reference state: the decoded text and the rest,
    or [None] when [&] stands for itself. *)
Definition named_ref (s : string) : option (string * string) :=
  let with_semicolon :=
    foldr (fun '(nm, v, _) acc =>
             match strip_prefix (nm ++ ";") s with Some r => Some (v, r) | None => acc end)
      None char_refs in
  match with_semicolon with
  | Some res => Some res
  | None =>
      foldr (fun '(nm, v, legacy) acc =>
               match strip_prefix nm s with
               | Some r => if legacy && legacy_ok r then Some (v, r) else acc
               | None => acc
               end)
        None char_refs
  end.

(** ** Numeric character references *)

(** The value of an ASCII digit, decimal or (when [hex]) hexadecimal. *)
Definition digit_value (hex : bool) (c : ascii) : option N :=
  let n := N_of_ascii c in
  if (48 <=? n)%N && (n <=? 57)%N then Some (n - 48)%N
  else if hex && (65 <=? n)%N && (n <=? 70)%N then Some (n - 55)%N
  else if hex && (97 <=? n)%N && (n <=? 102)%N then Some (n - 87)%N
  else None.

Definition ref_base (hex : bool) : N := if hex then 16%N else 10%N.

(** One past the largest code point: a code that reaches it is replaced by
    U+FFFD whatever digits follow, so the accumulation saturates there. *)
Definition code_cap : N := 0x110000.

(** The decimal or hexadecimal character reference state: the digits
    accumulate into the character reference code; the rest starts at the
    first character that is not a digit. *)
Fixpoint ref_digits (hex : bool) (code : N) (s : string) : N * string :=
  match s with
  | EmptyString => (code, EmptyString)
  | String c s' =>
      match digit_value hex c with
      | Some d => ref_digits hex (N.min (code * ref_base hex + d) code_cap) s'
      | None => (code, s)
      end
  end.

(** The same state as the standard writes it, without saturation. *)
Fixpoint ref_digits_exact (hex : bool) (code : N) (s : string) : N * string :=
  match s with
  | EmptyString => (code, EmptyString)
  | String c s' =>
      match digit_value hex c with
      | Some d => ref_digits_exact hex (code * ref_base hex + d) s'
      | None => (code, s)
      end
  end.

(** The numeric character reference end state's table for the C1 range. *)
Definition c1_table : list (N * N) :=
  [(0x80, 0x20AC); (0x82, 0x201A); (0x83, 0x0192); (0x84, 0x201E); (0x85, 0x2026);
   (0x86, 0x2020); (0x87, 0x2021); (0x88, 0x02C6); (0x89, 0x2030); (0x8A, 0x0160);
   (0x8B, 0x2039); (0x8C, 0x0152); (0x8E, 0x017D); (0x91, 0x2018); (0x92, 0x2019);
   (0x93, 0x201C); (0x94, 0x201D); (0x95, 0x2022); (0x96, 0x2013); (0x97, 0x2014);
   (0x98, 0x02DC); (0x99, 0x2122); (0x9A, 0x0161); (0x9B, 0x203A); (0x9C, 0x0153);
   (0x9E, 0x017E); (0x9F, 0x0178)]%N.

(** The numeric character reference end state: the code point the
    reference stands for. *)
Definition ref_code (code : N) : N :=
  if (code =? 0)%N || (0x10FFFF <? code)%N || ((0xD800 <=? code)%N && (code <=? 0xDFFF)%N)
  then 0xFFFD%N
  else match List.find (fun p : N * N => (p.1 =? code)%N) c1_table with
       | Some (_, v) => v
       | None => code
       end.

(** A code point as its UTF-8 bytes. *)
Definition utf8_encode (n : N) : string :=
  let byte (b : N) := ascii_of_N b in
  let cont (k : N) := byte (0x80 + N.land (N.shiftr n k) 0x3F)%N in
  if (n <? 0x80)%N then String (byte n) EmptyString
  else if (n <? 0x800)%N then String (byte (0xC0 + N.shiftr n 6)%N) (String (cont 0%N) EmptyString)
  else if (n <? 0x10000)%N then
    String (byte (0xE0 + N.shiftr n 12)%N) (String (cont 6%N) (String (cont 0%N) EmptyString))
  else String (byte (0xF0 + N.shiftr n 18)%N)
         (String (cont 12%N) (String (cont 6%N) (String (cont 0%N) EmptyString))).

(** The character after the digits: a [;] ends the reference and is
    consumed; anything else is left to the attribute value state. *)
Definition skip_semicolon (r : string) : string :=
  match r with
  | String c r' => if Ascii.eqb c ";" then r' else r
  | EmptyString => r
  end.

(** The hexadecimal or decimal character reference start state: without a
    digit the reference stands for itself ([None]). *)
Definition numeric_digits (hex : bool) (ds : string) : option (string * string) :=
  match ds with
  | String c _ =>
      match digit_value hex c with
      | Some _ => let '(code, r) := ref_digits hex 0 ds in Some (utf8_encode (ref_code code), skip_semicolon r)
      | None => None
      end
  | EmptyString => None
  end.

(** The numeric character reference state, after [&#]: an [x] or [X]
    selects hexadecimal. *)
Definition numeric_ref (s : string) : option (string * string) :=
  match s with
  | String c s' => if Ascii.eqb c "x" || Ascii.eqb c "X" then numeric_digits true s' else numeric_digits false s
  | EmptyString => None
  end.

(** The character reference state after an [&]: the decoded text and the
    rest, or [None] when [&] stands for itself. *)
Definition char_ref (s : string) : option (string * string) :=
  match s with
  | String c s' => if Ascii.eqb c "#" then numeric_ref s' else named_ref s
  | EmptyString => None
  end.

(** The attribute value (double-quoted) state of the tokenizer: the value
    ends at the first double quote, character references are decoded, a
    NUL becomes U+FFFD.
    Every step consumes a character, so [String.length s] steps are enough. *)
Fixpoint attr_dq (fuel : nat) (s : string) : string :=
  match fuel, s with
  | 0, _ | _, EmptyString => EmptyString
  | S f, String c s' =>
      if Ascii.eqb c (ascii_of_nat 34) then EmptyString
      else if Ascii.eqb c (ascii_of_nat 0) then utf8_encode 0xFFFD%N ++ attr_dq f s'
      else if Ascii.eqb c "&" then
        match char_ref s' with
        | Some (v, r) => v ++ attr_dq f r
        | None => String c (attr_dq f s')
        end
      else String c (attr_dq f s')
  end.

Definition attr_value (s : string) : string := attr_dq (String.length s) s.

(** The value sanitization of a text input: newlines are stripped. *)
Fixpoint strip_newlines (s : string) : string :=
  match s with
  | EmptyString => EmptyString
  | String c s' =>
      if Ascii.eqb c (ascii_of_nat 10) || Ascii.eqb c (ascii_of_nat 13) then strip_newlines s'
      else String c (strip_newlines s')
  end.

(** The characters the markup or the value treats specially: the double
    quote, [&], line feed, carriage return and NUL. *)
Definition attr_special (c : ascii) : bool :=
  Ascii.eqb c (ascii_of_nat 34) || Ascii.eqb c "&" || Ascii.eqb c (ascii_of_nat 10) ||
  Ascii.eqb c (ascii_of_nat 13) || Ascii.eqb c (ascii_of_nat 0).

Fixpoint attr_safe (s : string) : bool :=
  match s with
  | EmptyString => true
  | String c s' => negb (attr_special c) && attr_safe s'
  end.

(** The names the page carries as plain text: none of the characters of
    [attr_special], and no [<].  Such a name stays inside [value="..."] of
    the details template (no raw quote ends the attribute), is read back
    from it unchanged (no character reference, no newline), and is shown
    as the same text by the title's [innerHTML] (no [<] starts a tag, no
    [&] a reference; CR and NUL, which the parser rewrites, are excluded).
    For other names the markup [render] writes may hold elements the
    scanner does not see (a second [productName] control, a form, an
    id): the model is faithful for [text_safe] names. *)
Fixpoint text_safe (s : string) : bool :=
  match s with
  | EmptyString => true
  | String c s' => negb (attr_special c || Ascii.eqb c "<") && text_safe s'
  end.

Definition text_marker : string := "name=" ++ q "productName" ++ " value=" ++ dq.
Definition checkbox_marker : string := "name=" ++ q "inStock" ++ " value=" ++ q "inStock" ++ " ".

(** The form controls the browser builds from a template's markup. *)
Inductive control : Type :=
| TextInput (value : string)
| Checkbox (checked : bool).

Definition parse_control (html : string) : option control :=
  match after text_marker html with
  | Some r => Some (TextInput (strip_newlines (attr_value r)))
  | None =>
      match after checkbox_marker html with
      | Some r => Some (Checkbox (match strip_prefix "checked" r with Some _ => true | None => false end))
      | None => None
      end
  end.

(** [event.target.value] and [event.target.checked] of a control. *)
Definition control_value (c : control) : jsval :=
  match c with TextInput v => JStr v | Checkbox _ => JStr "inStock" end.
Definition control_checked (c : control) : jsval :=
  match c with TextInput _ => JBool false | Checkbox b => JBool b end.

(** ** The document *)

Record dom (H : Type) := mkDom {
  productTitle : string;
  btnDetailsClassList : list string;
  btnAvailabilityClassList : list string;
  btnSaveDisabled : bool;
  contentHTML : string;
  contentControl : option (nat * control);
  registrations : list (nat * string * H);
  nextNode : nat;
  elementIds : list string
}.
Arguments mkDom {H} _ _ _ _ _ _ _ _ _.
Arguments productTitle {H} _.
Arguments btnDetailsClassList {H} _.
Arguments btnAvailabilityClassList {H} _.
Arguments btnSaveDisabled {H} _.
Arguments contentHTML {H} _.
Arguments contentControl {H} _.
Arguments registrations {H} _.
Arguments nextNode {H} _.
Arguments elementIds {H} _.

(** [DOMTokenList.add] appends a missing token; [remove] removes it. *)
Definition classList_add (c : string) (l : list string) : list string :=
  if existsb (String.eqb c) l then l else l ++ [c].
Definition classList_remove (c : string) (l : list string) : list string :=
  List.filter (fun x => negb (String.eqb x c)) l.
Definition classList_contains (c : string) (l : list string) : bool :=
  existsb (String.eqb c) l.

(** The ids product-manager.js passes to [document.getElementById]. *)
Definition page_ids : list string :=
  ["product-title"; "btn-details"; "btn-availability"; "btn-save"; "content";
   "btn-details-link"; "btn-availability-link"].

Section Document.
Context {H : Type}.
Implicit Types d : dom H.

(** [productTitle.innerHTML = html]: the title keeps the string; for
    [text_safe] text, which holds no [<] and no [&], the parser makes it one
    text node with that same text. *)
Definition set_productTitle (html : string) d : dom H :=
  mkDom html (btnDetailsClassList d) (btnAvailabilityClassList d) (btnSaveDisabled d)
    (contentHTML d) (contentControl d) (registrations d) (nextNode d) (elementIds d).

Definition update_btnDetailsClassList (f : list string -> list string) d : dom H :=
  mkDom (productTitle d) (f (btnDetailsClassList d)) (btnAvailabilityClassList d)
    (btnSaveDisabled d) (contentHTML d) (contentControl d) (registrations d) (nextNode d) (elementIds d).

Definition update_btnAvailabilityClassList (f : list string -> list string) d : dom H :=
  mkDom (productTitle d) (btnDetailsClassList d) (f (btnAvailabilityClassList d))
    (btnSaveDisabled d) (contentHTML d) (contentControl d) (registrations d) (nextNode d) (elementIds d).

Definition set_btnSaveDisabled (b : bool) d : dom H :=
  mkDom (productTitle d) (btnDetailsClassList d) (btnAvailabilityClassList d) b
    (contentHTML d) (contentControl d) (registrations d) (nextNode d) (elementIds d).

(** [content.innerHTML = html]: the old children are detached, the parsed
    control (if any) is a new node. *)
Definition set_content_innerHTML (html : string) d : dom H :=
  match parse_control html with
  | Some c =>
      mkDom (productTitle d) (btnDetailsClassList d) (btnAvailabilityClassList d)
        (btnSaveDisabled d) html (Some (nextNode d, c)) (registrations d) (S (nextNode d)) (elementIds d)
  | None =>
      mkDom (productTitle d) (btnDetailsClassList d) (btnAvailabilityClassList d)
        (btnSaveDisabled d) html None (registrations d) (nextNode d) (elementIds d)
  end.

(** The user edits the live control (typing, ticking): no listener runs. *)
Definition set_control (c : control) d : dom H :=
  match contentControl d with
  | Some (n, _) =>
      mkDom (productTitle d) (btnDetailsClassList d) (btnAvailabilityClassList d)
        (btnSaveDisabled d) (contentHTML d) (Some (n, c)) (registrations d) (nextNode d) (elementIds d)
  | None => d
  end.

(** [node.addEventListener(type, handler)] with a closure created by the
    call, hence never already registered. *)
Definition addEventListener (n : nat) (type : string) (h : H) d : dom H :=
  mkDom (productTitle d) (btnDetailsClassList d) (btnAvailabilityClassList d)
    (btnSaveDisabled d) (contentHTML d) (contentControl d)
    (registrations d ++ [(n, type, h)]) (nextNode d) (elementIds d).

(** The listeners an event of type [type] on node [n] runs, in
    registration order. *)
Definition listeners_of (n : nat) (type : string) d : list H :=
  (fun r : nat * string * H => r.2) <$>
    List.filter (fun r : nat * string * H => Nat.eqb r.1.1 n && String.eqb r.1.2 type)
      (registrations d).

(** [document.getElementById(id)] is not [null]: the page has an element
    with that id (the templates carry no id, and a [text_safe] name adds
    no element). *)
Definition has_element (id : string) d : bool := existsb (String.eqb id) (elementIds d).

(** The page has every element product-manager.js looks up. *)
Definition page_elements d : bool := forallb (fun id => has_element id d) page_ids.

(** Every registered node, and the live control, were allocated, and the
    page has the elements the code looks up. *)
Definition dom_wf d : Prop :=
  Forall (fun r : nat * string * H => r.1.1 < nextNode d) (registrations d) /\
  (forall n c, contentControl d = Some (n, c) -> n < nextNode d) /\
  page_elements d = true.
End Document.

(** ** Scanner lemmas *)

Lemma text_safe_attr_safe s : text_safe s = true -> attr_safe s = true.
Proof.
  induction s as [| c s IH]; simpl; [done|]. rewrite !andb_true_iff, !negb_true_iff, orb_false_iff.
  intros [[Hc _] Hs]. split; [done | by apply IH].
Qed.


Lemma attr_special_false c :
  attr_special c = false ->
  Ascii.eqb c (ascii_of_nat 34) = false /\ Ascii.eqb c "&" = false /\
  Ascii.eqb c (ascii_of_nat 10) = false /\ Ascii.eqb c (ascii_of_nat 13) = false /\
  Ascii.eqb c (ascii_of_nat 0) = false.
Proof. unfold attr_special. rewrite !orb_false_iff. naive_solver. Qed.

(** A value without special characters is read back as it was written,
    wherever the closing quote is. *)
Lemma attr_dq_safe f s r :
  attr_safe s = true -> String.length s < f -> attr_dq f (s ++ dq ++ r) = s.
Proof.
  revert f. induction s as [| c s IH]; intros f Hs Hf; destruct f as [| f];
    rewrite ?string_app_cons in *; simpl in *; [lia | done | lia |].
  apply andb_true_iff in Hs as [Hc Hs]. apply negb_true_iff, attr_special_false in Hc as (H1 & H2 & _ & _ & H0).
  rewrite H1, H0, H2, IH; [done | done | lia].
Qed.

Lemma attr_value_safe s r : attr_safe s = true -> attr_value (s ++ dq ++ r) = s.
Proof.
  intros Hs. unfold attr_value. apply attr_dq_safe; [done|].
  rewrite string_length_app. simpl. lia.
Qed.

Lemma strip_newlines_safe s : attr_safe s = true -> strip_newlines s = s.
Proof.
  induction s as [| c s IH]; simpl; [done|].
  rewrite andb_true_iff, negb_true_iff. intros [Hc Hs].
  apply attr_special_false in Hc as (_ & _ & H3 & H4 & _). by rewrite H3, H4, IH.
Qed.

(** The tail of [DetailsComponent] after the interpolated name. *)
Definition details_tail : string := ">" ++ nl ++ "    </form>".

(** The value the browser gives the text field for the name [name]. *)
Definition field_value (name : string) : string :=
  strip_newlines (attr_value ((name ++ dq) ++ details_tail)).

(** The browser finds the text input of the details form. *)
Lemma parse_DetailsComponent n :
  parse_control (DetailsComponent (JStr "Product Details") n) =
    Some (TextInput (field_value (to_string n))).
Proof. reflexivity. Qed.

(** A name without special characters fills the field as it is. *)
Lemma field_value_safe n : attr_safe n = true -> field_value n = n.
Proof.
  intros Hn. unfold field_value. rewrite string_app_assoc, attr_value_safe by done.
  by apply strip_newlines_safe.
Qed.

(** A name with a double quote fills the field with the text before it. *)
Lemma field_value_dq p r : attr_safe p = true -> field_value (p ++ dq ++ r) = p.
Proof.
  intros Hp. unfold field_value. rewrite !string_app_assoc, attr_value_safe by done.
  by apply strip_newlines_safe.
Qed.

(** A prefix without special characters passes through the tokenizer. *)
Lemma attr_dq_prefix f p r :
  attr_safe p = true -> attr_dq (String.length p + f) (p ++ r) = p ++ attr_dq f r.
Proof.
  induction p as [| c p IH]; intros Hp; [done|].
  apply andb_true_iff in Hp as [Hc Hp]. apply negb_true_iff, attr_special_false in Hc as (H1 & H2 & _ & _ & H0).
  cbn [String.length Nat.add]. rewrite string_app_cons. simpl. rewrite H1, H0, H2, IH by done. done.
Qed.

Lemma strip_newlines_app s t : strip_newlines (s ++ t) = strip_newlines s ++ strip_newlines t.
Proof.
  induction s as [| c s IH]; [done|]. rewrite string_app_cons. simpl.
  destruct (_ || _); [done | by rewrite IH].
Qed.

(** ** The tokenizer's numeric references and fuel *)

(** Saturating at [code_cap] gives the standard's code, up to the cap:
    the capped accumulation is the exact one, clamped. *)
Lemma ref_digits_exact_cap hex c s :
  ref_digits hex (N.min c code_cap) s =
    (N.min (ref_digits_exact hex c s).1 code_cap, (ref_digits_exact hex c s).2).
Proof.
  revert c. induction s as [| ch s IH]; intros c; simpl; [done|].
  destruct (digit_value hex ch) as [d |]; [| done].
  rewrite <- IH. f_equal. unfold code_cap, ref_base. destruct hex; lia.
Qed.

(** So a code is replaced by U+FFFD with the cap exactly when it is
    without. *)
Lemma ref_code_large c : (0x10FFFF < c)%N -> ref_code c = 0xFFFD%N.
Proof. intros Hc. unfold ref_code. apply N.ltb_lt in Hc. by rewrite Hc, orb_true_r. Qed.

Lemma ref_code_cap c : ref_code (N.min c code_cap) = ref_code c.
Proof.
  unfold code_cap. destruct (N.le_gt_cases c 0x110000) as [Hle | Hgt].
  - by rewrite N.min_l by done.
  - rewrite N.min_r by lia. rewrite !ref_code_large by lia. done.
Qed.

Lemma strip_prefix_length m s r : strip_prefix m s = Some r -> String.length r <= String.length s.
Proof.
  revert s. induction m as [| c m IH]; intros s H; simpl in H; [injection H as <-; lia|].
  destruct s as [| c' s]; [done|]. destruct (Ascii.eqb c c'); [| done].
  apply IH in H. simpl. lia.
Qed.

Lemma ref_digits_length hex c s : String.length (ref_digits hex c s).2 <= String.length s.
Proof.
  revert c. induction s as [| ch s IH]; intros c; simpl; [done|].
  destruct (digit_value hex ch); [specialize (IH (N.min (c * ref_base hex + n) code_cap)); lia | done].
Qed.

(** A search through a table that keeps its accumulator or returns a
    result with [P]. *)
Lemma foldr_option_inv {X Y : Type} (P : Y -> Prop) (f : X -> option Y -> option Y) l y :
  (forall x acc y, f x acc = Some y -> P y \/ acc = Some y) -> foldr f None l = Some y -> P y.
Proof.
  intros Hf. revert y. induction l as [| x l IH]; intros y; simpl; [done|].
  intros H. destruct (Hf _ _ _ H) as [Hy | Hacc]; [done | by apply IH].
Qed.

Lemma numeric_digits_length hex ds v r :
  numeric_digits hex ds = Some (v, r) -> String.length r <= String.length ds.
Proof.
  unfold numeric_digits. destruct ds as [| c ds]; [done|]. destruct (digit_value hex c); [| done].
  pose proof (ref_digits_length hex 0 (String c ds)) as Hl.
  destruct (ref_digits hex 0 (String c ds)) as [code r0]. intros [= _ <-]. simpl in Hl.
  destruct r0 as [| c' r']; simpl; [lia|]. destruct (Ascii.eqb c' ";"); simpl in *; lia.
Qed.

Lemma numeric_ref_length s v r : numeric_ref s = Some (v, r) -> String.length r <= String.length s.
Proof.
  destruct s as [| c s]; [done|]. unfold numeric_ref.
  destruct (_ || _); intros H; apply numeric_digits_length in H; simpl in *; lia.
Qed.

Lemma named_ref_length s v r : named_ref s = Some (v, r) -> String.length r <= String.length s.
Proof.
  set (P := fun p : string * string => String.length p.2 <= String.length s).
  assert (Hs : forall m r0 w, strip_prefix m s = Some r0 -> P (w, r0))
    by (intros m r0 w H; exact (strip_prefix_length m s r0 H)).
  unfold named_ref. destruct (foldr _ None char_refs) as [res |] eqn:Ew.
  - intros [= ->]. change (P (v, r)). revert Ew. apply (foldr_option_inv P). intros [[nm w] b] acc y. simpl.
    destruct (strip_prefix (nm ++ ";") s) eqn:E; [intros [= <-]; left; by apply (Hs _ _ _ E) | by right].
  - intros H. change (P (v, r)). revert H. apply (foldr_option_inv P). intros [[nm w] b] acc y. simpl.
    destruct (strip_prefix nm s) eqn:E; [| by right].
    destruct (b && legacy_ok s0); [intros [= <-]; left; by apply (Hs _ _ _ E) | by right].
Qed.

(** A character reference never gives back more than it was given. *)
Lemma char_ref_length s v r : char_ref s = Some (v, r) -> String.length r <= String.length s.
Proof.
  destruct s as [| c s]; [done|]. unfold char_ref. destruct (Ascii.eqb c "#").
  - intros H. apply numeric_ref_length in H. simpl. lia.
  - apply named_ref_length.
Qed.

(** The fuel of [attr_dq] is enough: every step consumes a character, so
    any fuel at least the input's length gives the same value. *)
Lemma attr_dq_fuel f g s :
  String.length s <= f -> String.length s <= g -> attr_dq f s = attr_dq g s.
Proof.
  revert g s. induction f as [| f IH]; intros g [| c s] Hf Hg; simpl in Hf;
    try lia; destruct g as [| g]; simpl in Hg; try lia; [done..|].
  simpl. destruct (Ascii.eqb c (ascii_of_nat 34)); [done|].
  destruct (Ascii.eqb c (ascii_of_nat 0)); [f_equal; apply IH; lia|].
  destruct (Ascii.eqb c "&"); [| f_equal; apply IH; lia].
  destruct (char_ref s) as [[v r] |] eqn:E; [apply char_ref_length in E |]; f_equal; apply IH; lia.
Qed.

Corollary attr_value_fuel f s : String.length s <= f -> attr_dq f s = attr_value s.
Proof. intros H. by apply attr_dq_fuel. Qed.

(** A character reference [&t] in a name is read as the text [v] it
    stands for: the template does not escape [&]. *)
Lemma field_value_ref p t v r :
  attr_safe p = true -> attr_safe r = true -> strip_newlines v = v ->
  (forall s, char_ref (t ++ s) = Some (v, s)) ->
  field_value (p ++ "&" ++ t ++ r) = p ++ v ++ r.
Proof.
  intros Hp Hr Hv Ht. unfold field_value, attr_value. rewrite !string_app_assoc, !string_length_app.
  rewrite attr_dq_prefix by done. rewrite string_app_cons, string_app_nil_l. simpl attr_dq.
  rewrite Ht, attr_dq_safe by (done || rewrite ?string_length_app; simpl; lia).
  by rewrite !strip_newlines_app, Hv, (strip_newlines_safe p), (strip_newlines_safe r).
Qed.

Lemma field_value_amp p r :
  attr_safe p = true -> attr_safe r = true -> field_value (p ++ "&amp;" ++ r) = p ++ "&" ++ r.
Proof. intros Hp Hr. apply (field_value_ref p "amp;"); [done | done | done | reflexivity]. Qed.

(** [&#34;] in a name is read as a double quote. *)
Lemma field_value_num_quote p r :
  attr_safe p = true -> attr_safe r = true -> field_value (p ++ "&#34;" ++ r) = p ++ dq ++ r.
Proof. intros Hp Hr. apply (field_value_ref p "#34;"); [done | done | done | reflexivity]. Qed.

(** The browser finds the checkbox, checked exactly when [inStock] is truthy. *)
Lemma parse_AvailabilityComponent b :
  parse_control (AvailabilityComponent (JStr "Product Availability") b) =
    Some (Checkbox (truthy b)).
Proof. unfold AvailabilityComponent. by destruct (truthy b). Qed.

(** [undefined] as content holds no form control. *)
Lemma parse_undefined : parse_control "undefined" = None.
Proof. reflexivity. Qed.

(** ** Document lemmas *)

Lemma classList_contains_add c l : classList_contains c (classList_add c l) = true.
Proof.
  unfold classList_contains, classList_add.
  destruct (existsb (String.eqb c) l) eqn:E; [done|].
  rewrite existsb_app, E. simpl. by rewrite String.eqb_refl.
Qed.

Lemma classList_contains_remove c l : classList_contains c (classList_remove c l) = false.
Proof.
  unfold classList_contains, classList_remove.
  induction l as [| x l IH]; simpl; [done|].
  destruct (String.eqb_spec x c) as [-> | Hne]; simpl; [done|].
  rewrite IH, orb_false_r. apply String.eqb_neq. congruence.
Qed.

#[export] Hint Rewrite classList_contains_add classList_contains_remove : pm_simpl.

Section DocumentLemmas.
Context {H : Type}.
Implicit Types d : dom H.

(** The registrations of node [n], whatever the event type. *)
Definition registrations_of (n : nat) d : list (nat * string * H) :=
  List.filter (fun r : nat * string * H => Nat.eqb r.1.1 n) (registrations d).

Lemma set_content_innerHTML_Some html c d :
  parse_control html = Some c ->
  set_content_innerHTML html d =
    mkDom (productTitle d) (btnDetailsClassList d) (btnAvailabilityClassList d)
      (btnSaveDisabled d) html (Some (nextNode d, c)) (registrations d) (S (nextNode d)) (elementIds d).
Proof. intros Hp. unfold set_content_innerHTML. by rewrite Hp. Qed.

(** A node not yet allocated has no registration. *)
Lemma filter_fresh_node (rs : list (nat * string * H)) n :
  Forall (fun r : nat * string * H => r.1.1 < n) rs ->
  List.filter (fun r : nat * string * H => Nat.eqb r.1.1 n) rs = [].
Proof.
  induction 1 as [| r rs Hr _ IH]; simpl; [done|].
  by rewrite (proj2 (Nat.eqb_neq _ _)) by lia.
Qed.

(** After a fresh node got one listener, that listener is all it has. *)
Lemma registrations_of_fresh d type h :
  dom_wf d ->
  List.filter (fun r : nat * string * H => Nat.eqb r.1.1 (nextNode d))
    (registrations d ++ [(nextNode d, type, h)]) = [(nextNode d, type, h)].
Proof.
  intros [Hf _]. rewrite filter_app, filter_fresh_node by done.
  simpl. by rewrite Nat.eqb_refl.
Qed.

Lemma listeners_of_single (rs : list (nat * string * H)) n type r :
  List.filter (fun r : nat * string * H => Nat.eqb r.1.1 n) rs = [r] ->
  (fun r : nat * string * H => r.2) <$>
    List.filter (fun r : nat * string * H => Nat.eqb r.1.1 n && String.eqb r.1.2 type) rs =
  if String.eqb r.1.2 type then [r.2] else [].
Proof.
  induction rs as [| r' rs IH]; simpl; [discriminate|].
  destruct (Nat.eqb r'.1.1 n) eqn:En; simpl.
  - intros [= -> Hrest]. rewrite Hrest in IH.
    destruct (String.eqb r.1.2 type); simpl; f_equal.
    all: clear IH; induction rs as [| r'' rs IH']; simpl in *; [done|].
    all: destruct (Nat.eqb r''.1.1 n); [discriminate | by apply IH'].
  - intros Hrest. by apply IH.
Qed.
(** The executable check of [dom_wf]. *)
Definition dom_wfb d : bool :=
  forallb (fun r : nat * string * H => Nat.ltb r.1.1 (nextNode d)) (registrations d) &&
  match contentControl d with Some (n, _) => Nat.ltb n (nextNode d) | None => true end &&
  page_elements d.

Lemma dom_wfb_spec d : dom_wfb d = true -> dom_wf d.
Proof.
  unfold dom_wfb. rewrite !andb_true_iff, forallb_forall. intros [[Hf Hc] He]. split_and!.
  - apply Forall_forall. intros r Hr. by apply Nat.ltb_lt, Hf.
  - intros n c Hnc. rewrite Hnc in Hc. by apply Nat.ltb_lt.
  - done.
Qed.

(** Editing the live control changes nothing else. *)
Lemma set_control_keeps c d :
  btnDetailsClassList (set_control c d) = btnDetailsClassList d /\
  btnAvailabilityClassList (set_control c d) = btnAvailabilityClassList d /\
  registrations (set_control c d) = registrations d /\
  nextNode (set_control c d) = nextNode d /\
  elementIds (set_control c d) = elementIds d.
Proof. unfold set_control. by destruct (contentControl d) as [[? ?]|]. Qed.

Lemma dom_wf_elements d : dom_wf d -> page_elements d = true.
Proof. by intros (_ & _ & He). Qed.

Lemma set_control_wf c d : dom_wf d -> dom_wf (set_control c d).
Proof.
  unfold set_control. destruct (contentControl d) as [[n c0]|] eqn:E; [|done].
  intros (Hf & Hc & He). split_and!; [done | | done]. simpl. intros ? ? [= <- _]. by eapply Hc.
Qed.
End DocumentLemmas.
