(* ===== verification/PageSpec.v ===== *)
(** * What the page promises: an abstract specification

    The product manager as its user sees it (spec sections 3 and 8): a page
    kind (details or availability), a product (a name and an in-stock flag)
    and a dirty flag, changed by five user actions.  Editing the name or
    toggling the flag marks the product dirty; saving clears the flag
    without touching the product; switching tabs changes only the page.  An
    action on a control that the current tab does not show, or a click on
    the disabled save button, changes nothing.  The view is what the page
    displays for a state.  [App] proves that the code refines this machine. *)

From Stdlib Require Import String.
From stdpp Require Import base decidable.

Inductive page_kind : Type := Details | Availability.

#[export] Instance page_kind_eq_dec : EqDecision page_kind.
Proof. solve_decision. Defined.

Record abs_state : Type := AbsState {
  a_page : page_kind;
  a_name : string;
  a_inStock : bool;
  a_dirty : bool
}.

Inductive abs_event : Type :=
| EditName (v : string)
| ToggleInStock
| GoDetails
| GoAvailability
| Save.

Definition abs_step (e : abs_event) (a : abs_state) : abs_state :=
  match e with
  | EditName v =>
      if decide (a_page a = Details) then AbsState (a_page a) v (a_inStock a) true else a
  | ToggleInStock =>
      if decide (a_page a = Availability)
      then AbsState (a_page a) (a_name a) (negb (a_inStock a)) true else a
  | GoDetails => AbsState Details (a_name a) (a_inStock a) (a_dirty a)
  | GoAvailability => AbsState Availability (a_name a) (a_inStock a) (a_dirty a)
  | Save => AbsState (a_page a) (a_name a) (a_inStock a) false
  end.

Definition abs_run (es : list abs_event) (a : abs_state) : abs_state :=
  fold_left (fun a e => abs_step e a) es a.

(** What the page shows: the title, which tab is marked active, whether the
    save button is enabled, and the panel (the name in the text field, or
    the state of the checkbox). *)
Inductive panel : Type :=
| NamePanel (field : string)
| StockPanel (checked : bool).

Record abs_view : Type := AbsView {
  v_title : string;
  v_detailsActive : bool;
  v_availabilityActive : bool;
  v_saveEnabled : bool;
  v_panel : panel
}.

Definition view (a : abs_state) : abs_view :=
  AbsView (a_name a)
    (bool_decide (a_page a = Details)) (bool_decide (a_page a = Availability))
    (a_dirty a)
    (match a_page a with
     | Details => NamePanel (a_name a)
     | Availability => StockPanel (a_inStock a)
     end).

Definition abs_initial : abs_state := AbsState Details "Best Product ever!" true false.
