(* ===== verification/App.v ===== *)
(** * The render/controller loop of product-manager.js

    [render] (lines 88-165) reads the store's state and writes the DOM of
    [Dom]; for the current page it attaches one listener to the form control
    that the new content produced.  The listeners are closures over the
    [productDirty] and [product] of the render that created them; they are
    the data of [handler], run by [listener], and dispatch back into the
    store: [dispatch_app] is the store's [dispatch] with [render] as the one
    subscriber, so a dispatch inside a listener re-renders before the
    listener goes on (nested dispatch).  The three listeners bound once at
    start-up (lines 189-216) are [onDetailsLinkClick], [onAvailabilityLinkClick]
    and [onSaveClick]; [startup] is lines 65-68 and 218-221.  The code that
    calls [store.dispatch] is written once, in the Section [StoreClient],
    over the [dispatch] it calls ([listener], [onDetailsLinkClick_with],
    ..., [handle_event_with]); [run_handler], [onDetailsLinkClick], ...,
    [handle_event] are that code over [dispatch_app], and [AppLogger] runs
    it over the logger's [dispatch].

    A user acts through [ui_event]s; [handle_event] is what the browser does
    for each (a click on a disabled button does nothing; a click on the
    checkbox toggles it, then fires [change]; typing changes the field's
    value and fires no listener the code registers).  [reachable] collects
    the worlds reachable from a start-up on any well-formed initial DOM.
    Every [getElementById] of the code is followed by a property access, so
    a missing element throws a [TypeError] ([render_lookups],
    [listener_lookups]); [page_load] is the whole script with the store of
    [Logger]. *)

From Stdlib Require Import String.
From stdpp Require Import base list decidable.
From S2P Require Import Prelude JsValue Redux ProductStore Logger Views Dom PageSpec.
Local Open Scope string_scope.
Local Open Scope pm_scope.

(** The closures of lines 134-146 and 149-161 with the two variables of
    [render] they capture. *)
Inductive handler : Type :=
| ProductNameBlur (productDirty : jsval) (product : Product.t)
| InStockChange (productDirty : jsval) (product : Product.t).

(** The store's one subscriber, [render] (line 221). *)
Inductive subscriber : Type := Render.

Abbreviation app_world := (world State.t subscriber (dom handler)).

(** The [TypeError] of [document.forms.details.productName] when the
    content holds no such form. *)
Definition forms_type_error : string := "TypeError: document.forms lookup of undefined".

(** The [TypeError] of a property access on the [null] that
    [getElementById] returns for a missing element (the engine's wording
    varies). *)
Definition null_property_error (prop : string) : string :=
  "TypeError: Cannot access property " ++ prop ++ " of null".

(** The first element of [lookups] (an id and the property the code uses on
    it) that the page does not have. *)
Definition first_missing (lookups : list (string * string)) (d : dom handler) : option (string * string) :=
  List.find (fun l => negb (has_element l.1 d)) lookups.

(** The elements [render] uses, in the order it uses them. *)
Definition render_lookups : list (string * string) :=
  [("product-title", "innerHTML"); ("btn-details", "classList"); ("btn-availability", "classList");
   ("btn-save", "disabled"); ("content", "innerHTML")].

(** ** [render] (lines 88-165)

    A missing element throws at its first use; an exception does not roll
    back what the browser already did, but a world that threw is not
    continued here, so the lookups are checked first. *)
Definition render (w : app_world) : result app_world :=
  match first_missing render_lookups (wenv w) with
  | Some (_, prop) => Throw (null_property_error prop)
  | None =>
  let s := getState (wstore w) in
  let page := State.page s in
  let product := State.product s in
  let productDirty := State.productDirty s in
  (* [store.getState()] has no [requestStatus] key *)
  let requestStatus := JUndefined in
  let d := wenv w in
  let d := set_productTitle (to_string (Product.name product)) d in
  let d := update_btnDetailsClassList (classList_remove "active") d in
  let d := update_btnAvailabilityClassList (classList_remove "active") d in
  let d := if strict_eq (Page.name page) (JStr DETAILS)
           then update_btnDetailsClassList (classList_add "active") d
           else if strict_eq (Page.name page) (JStr AVAILABILITY)
           then update_btnAvailabilityClassList (classList_add "active") d
           else d in
  let d := set_btnSaveDisabled
             (negb (truthy productDirty) || strict_eq requestStatus (JStr WAITING)) d in
  let renderedContent :=
    if strict_eq (Page.name page) (JStr DETAILS)
    then JStr (DetailsComponent (Page.title page) (Product.name product))
    else if strict_eq (Page.name page) (JStr AVAILABILITY)
    then JStr (AvailabilityComponent (Page.title page) (Product.inStock product))
    else JUndefined in
  let d := set_content_innerHTML (to_string renderedContent) d in
  d <- (if strict_eq (Page.name page) (JStr DETAILS) then
          match contentControl d with
          | Some (n, TextInput _) =>
              Ok (addEventListener n "blur" (ProductNameBlur productDirty product) d)
          | _ => Throw forms_type_error
          end
        else if strict_eq (Page.name page) (JStr AVAILABILITY) then
          match contentControl d with
          | Some (n, Checkbox _) =>
              Ok (addEventListener n "change" (InStockChange productDirty product) d)
          | _ => Throw forms_type_error
          end
        else Ok d) ;;
  Ok (mkWorld (wstore w) d)
  end.

Definition call_subscriber (l : subscriber) (w : app_world) : result app_world :=
  match l with Render => render w end.

(** [store.dispatch] of the application's store. *)
Definition dispatch_app (a : Action.t) (w : app_world) : result app_world :=
  dispatch call_subscriber a w.

(** ** The user's actions *)
Inductive ui_event : Type :=
| TypeProductName (v : string)
| BlurProductName
| ClickInStock
| ClickDetailsLink
| ClickAvailabilityLink
| ClickSave.

(** ** The code that calls [store.dispatch]

    The listener closures (lines 134-161) and the three listeners bound at
    start-up (lines 189-216) call [store.dispatch], the store's [dispatch]
    as the middleware left it.  The Section takes that [dispatch] as a
    parameter, over a world [W] that holds the page ([page] reads it,
    [set_dom] writes the DOM), so that the same code runs over the plain
    [dispatch] ([run_handler], [fire], [handle_event] below) and over the
    logger's ([AppLogger.logged_handle_event]). *)
Section StoreClient.
Context {W : Type} (store_dispatch : Action.t -> W -> result W).
Context (page : W -> app_world) (set_dom : dom handler -> W -> W).

Definition listener (h : handler) (target : control) (w : W) : result W :=
  match h with
  | ProductNameBlur productDirty product =>
      w <- (if negb (truthy productDirty)
            then store_dispatch (changeProductDirtyAction (JBool true)) w else Ok w) ;;
      store_dispatch (changeProductAction (control_value target) (Product.inStock product)) w
  | InStockChange productDirty product =>
      w <- (if negb (truthy productDirty)
            then store_dispatch (changeProductDirtyAction (JBool true)) w else Ok w) ;;
      store_dispatch (changeProductAction (Product.name product) (control_checked target)) w
  end.

(** An event of type [type] on node [n]: the listeners registered when the
    event starts run in order, each on the state the previous one left. *)
Definition fire_with (n : nat) (type : string) (target : control) (w : W) : result W :=
  fold_result (fun w h => listener h target w) w (listeners_of n type (wenv (page w))).

Definition onDetailsLinkClick_with (w : W) : result W :=
  if strict_eq (Page.name (State.page (getState (wstore (page w))))) (JStr DETAILS) then Ok w
  else store_dispatch (changePageAction (JStr DETAILS) (JStr "Product Details")) w.

Definition onAvailabilityLinkClick_with (w : W) : result W :=
  if strict_eq (Page.name (State.page (getState (wstore (page w))))) (JStr AVAILABILITY) then Ok w
  else store_dispatch (changePageAction (JStr AVAILABILITY) (JStr "Product Availability")) w.

Definition onSaveClick_with (w : W) : result W :=
  store_dispatch (changeProductDirtyAction (JBool false)) w.

(** What the browser does for each user action (a click on a disabled
    button does nothing; a click on the checkbox toggles it, then fires
    [change]; typing changes the field's value and fires no listener). *)
Definition handle_event_with (e : ui_event) (w : W) : result W :=
  match e, contentControl (wenv (page w)) with
  | TypeProductName v, Some (_, TextInput _) => Ok (set_dom (set_control (TextInput v) (wenv (page w))) w)
  | BlurProductName, Some (n, TextInput v) => fire_with n "blur" (TextInput v) w
  | ClickInStock, Some (n, Checkbox c) =>
      fire_with n "change" (Checkbox (negb c)) (set_dom (set_control (Checkbox (negb c)) (wenv (page w))) w)
  | ClickDetailsLink, _ => onDetailsLinkClick_with w
  | ClickAvailabilityLink, _ => onAvailabilityLinkClick_with w
  | ClickSave, _ => if btnSaveDisabled (wenv (page w)) then Ok w else onSaveClick_with w
  | _, _ => Ok w
  end.
End StoreClient.

(** ** The same code over the plain [dispatch] *)
Definition with_dom (w : app_world) (d : dom handler) : app_world := mkWorld (wstore w) d.

Definition run_handler (h : handler) (target : control) (w : app_world) : result app_world :=
  listener dispatch_app h target w.

Definition fire (n : nat) (type : string) (target : control) (w : app_world) : result app_world :=
  fire_with dispatch_app id n type target w.

Definition onDetailsLinkClick (w : app_world) : result app_world :=
  onDetailsLinkClick_with dispatch_app id w.

Definition onAvailabilityLinkClick (w : app_world) : result app_world :=
  onAvailabilityLinkClick_with dispatch_app id w.

Definition onSaveClick (w : app_world) : result app_world :=
  onSaveClick_with dispatch_app w.

Definition handle_event (e : ui_event) (w : app_world) : result app_world :=
  handle_event_with dispatch_app id (fun d w => with_dom w d) e w.

(** ** Start-up (lines 65-68, 218-221) *)

(** [render(); store.subscribe(render);] on the store just built. *)
Definition start_render (st : store State.t subscriber) (d0 : dom handler) : result app_world :=
  w <- render (mkWorld st d0) ;;
  Ok (mkWorld (subscribe Render (wstore w)) (wenv w)).

(** Lines 190, 201 and 212: [document.getElementById(id).addEventListener]
    on the two tab links and the save button; the listeners themselves are
    [onDetailsLinkClick], [onAvailabilityLinkClick] and [onSaveClick]. *)
Definition listener_lookups : list (string * string) :=
  [("btn-details-link", "addEventListener"); ("btn-availability-link", "addEventListener");
   ("btn-save", "addEventListener")].

Definition bind_listeners (d0 : dom handler) : result unit :=
  match first_missing listener_lookups d0 with
  | Some (_, prop) => Throw (null_property_error prop)
  | None => Ok tt
  end.

Definition startup (d0 : dom handler) : result app_world :=
  st <- createStore ;; _ <- bind_listeners d0 ;; start_render st d0.

(** The whole script as the browser loads it, with the store of
    [Logger.app_store]: what the console shows, and the world if the script
    ran to its end. *)
Definition page_load (v : logger_export) (d0 : dom handler)
    : list (console_line State.t Action.t) * result app_world :=
  let (out, r) := app_store v in (out, st <- r ;; _ <- bind_listeners d0 ;; start_render st d0).

Definition run_events (es : list ui_event) (w : app_world) : result app_world :=
  fold_result (fun w e => handle_event e w) w es.

Inductive reachable : app_world -> Prop :=
| reach_start d0 w : dom_wf d0 -> startup d0 = Ok w -> reachable w
| reach_step w e w' : reachable w -> handle_event e w = Ok w' -> reachable w'.

(** The user events whose text the page carries as plain text: typing a
    [text_safe] value; every other event. *)
Definition safe_event (e : ui_event) : bool :=
  match e with TypeProductName v => text_safe v | _ => true end.

(** The worlds reached from a start-up by safe events: those in which the
    markup [render] writes holds no element the user's text injected, so
    that [document.forms.details.productName] (lines 134 and 149) is the
    one control the scanner of [Dom] finds. *)
Inductive safe_reachable : app_world -> Prop :=
| sreach_start d0 w : dom_wf d0 -> startup d0 = Ok w -> safe_reachable w
| sreach_step w e w' : safe_reachable w -> safe_event e = true -> handle_event e w = Ok w' -> safe_reachable w'.

Lemma safe_reachable_reachable w : safe_reachable w -> reachable w.
Proof. induction 1; [by eapply reach_start | by eapply reach_step]. Qed.

(** A page with every element: no lookup fails. *)
Lemma page_elements_lookups d :
  page_elements d = true ->
  first_missing render_lookups d = None /\ first_missing listener_lookups d = None.
Proof.
  unfold page_elements, page_ids. cbn [forallb]. rewrite !andb_true_iff.
  intros (H1 & H2 & H3 & H4 & H5 & H6 & H7 & _).
  unfold first_missing. cbn. by rewrite H1, H2, H3, H4, H5, H6, H7.
Qed.

(** No lookup failed: the page has all its elements. *)
Lemma first_missing_None l d :
  first_missing l d = None -> Forall (fun x : string * string => has_element x.1 d = true) l.
Proof.
  intros H. apply Forall_forall. intros x Hx.
  apply negb_false_iff. exact (find_none _ _ H x Hx).
Qed.

Lemma lookups_page_elements d :
  first_missing render_lookups d = None -> first_missing listener_lookups d = None ->
  page_elements d = true.
Proof.
  intros H1 H2. apply first_missing_None in H1, H2.
  unfold render_lookups in H1; unfold listener_lookups in H2.
  repeat rewrite Forall_cons_iff in H1; repeat rewrite Forall_cons_iff in H2. cbn in H1, H2.
  unfold page_elements, page_ids. cbn [forallb].
  destruct H1 as (E1 & E2 & E3 & E4 & E5 & _), H2 as (E6 & E7 & _).
  by rewrite E1, E2, E3, E4, E5, E6, E7.
Qed.

(** ** Properties of the code alone

    These need no invariant: they follow from the guards and the lookups
    of the code. *)

(** A page as index.html could give it: two tab buttons carrying a class,
    an enabled save button, an empty content container, no listener yet. *)
Definition example_dom : dom handler := mkDom "" ["nav-link"] ["nav-link"] false "" None [] 0 page_ids.

(** C14. A page name that is neither tab's: [renderedContent] stays
    [undefined], and assigning it to [innerHTML] replaces the previous
    content by the text "undefined" with no form control (the previous
    control is detached, no listener is added). *)
Theorem render_unknown_page w :
  page_elements (wenv w) = true ->
  strict_eq (Page.name (State.page (getState (wstore w)))) (JStr DETAILS) = false ->
  strict_eq (Page.name (State.page (getState (wstore w)))) (JStr AVAILABILITY) = false ->
  exists d, render w = Ok (mkWorld (wstore w) d) /\
    contentHTML d = "undefined" /\ contentControl d = None /\
    registrations d = registrations (wenv w).
Proof.
  intros He Hd Ha. unfold render. rewrite (proj1 (page_elements_lookups _ He)), Hd, Ha.
  eexists; split; [reflexivity | done].
Qed.

Definition unknown_page_state : State.t :=
  State.mk (Page.mk (JStr "SETTINGS") (JStr "Settings")) (State.product initialState) (JBool false).

Lemma render_unknown_page_witness :
  exists d, render (mkWorld (mkStore unknown_page_state [Render]) example_dom) =
              Ok (mkWorld (mkStore unknown_page_state [Render]) d) /\
    contentHTML d = "undefined" /\ contentControl d = None /\
    registrations d = registrations example_dom.
Proof. apply render_unknown_page; reflexivity. Defined.

(** C16. Clicking the tab link of the page already shown does nothing,
    however often it is clicked: the store, the DOM and the registered
    listeners stay exactly as they were (spec section 8: no state change and
    no duplicate listener after repeated no-op clicks; lines 194 and 205). *)
Theorem current_tab_click_noop w k :
  (Page.name (State.page (getState (wstore w))) = JStr DETAILS ->
     run_events (repeat ClickDetailsLink k) w = Ok w) /\
  (Page.name (State.page (getState (wstore w))) = JStr AVAILABILITY ->
     run_events (repeat ClickAvailabilityLink k) w = Ok w).
Proof.
  split; intros Hp; apply fold_result_fixed; intros e He; apply repeat_spec in He as ->;
    cbn [handle_event handle_event_with onDetailsLinkClick_with onAvailabilityLinkClick_with id];
    unfold onDetailsLinkClick_with, onAvailabilityLinkClick_with, id; by rewrite Hp, strict_eq_refl.
Qed.

Definition availability_page_state : State.t :=
  State.mk (Page.mk (JStr AVAILABILITY) (JStr "Product Availability")) (State.product initialState) (JBool true).

Lemma current_tab_click_noop_witness :
  run_events (repeat ClickAvailabilityLink 3) (mkWorld (mkStore availability_page_state [Render]) example_dom) =
  Ok (mkWorld (mkStore availability_page_state [Render]) example_dom).
Proof. apply (proj2 (current_tab_click_noop _ 3)). reflexivity. Defined.

(** C18. Error path of a page without one of the elements the script looks
    up by id: the first lookup that returns [null] throws a [TypeError] (at
    lines 190-212 for the two tab links and the save button, in [render]
    for the others), so the script stops; nothing catches it, contrary to
    the spec's demand (section 7) that an absent DOM target never abort the
    render loop. *)
Theorem missing_element_aborts d0 :
  page_elements d0 = false ->
  exists prop, startup d0 = Throw (null_property_error prop) /\
    page_load CreateLoggerDefault d0 = ([], Throw (null_property_error prop)).
Proof.
  intros Hmiss. unfold page_load, app_store. cbn [logger_call map].
  unfold startup, bind_listeners, start_render, createStore.
  change (reduce None init_action) with (Ok initialState : result State.t). cbn [bind].
  destruct (first_missing listener_lookups d0) as [[id prop] |] eqn:E1; [by eexists|].
  cbn [bind]. unfold render. cbn [wenv].
  destruct (first_missing render_lookups d0) as [[id prop] |] eqn:E2; [by eexists|].
  by rewrite (lookups_page_elements d0 E2 E1) in Hmiss.
Qed.

(** The example page without its save button. *)
Definition no_save_button_dom : dom handler :=
  mkDom "" ["nav-link"] ["nav-link"] false "" None [] 0
    ["product-title"; "btn-details"; "btn-availability"; "content";
     "btn-details-link"; "btn-availability-link"].

Lemma missing_element_aborts_witness :
  exists prop, startup no_save_button_dom = Throw (null_property_error prop) /\
    page_load CreateLoggerDefault no_save_button_dom = ([], Throw (null_property_error prop)).
Proof. apply missing_element_aborts. reflexivity. Defined.

