(* ===== verification/AppInvariant.v ===== *)
(** * Invariants of the render/controller loop

    The loop of [App] keeps the DOM synchronised with the store.  The
    reachable states of the store are the images ([concr]) of the abstract
    states of [PageSpec]; [render_dom] is the document [render] builds for
    one; [synced] says a document shows a state and carries exactly one
    live listener, the one [render] made for that state.  [app_inv_at] is
    the invariant of the loop, [handle_event_inv] its preservation by every
    user action, [reachable_app_inv] its proof by rule induction on
    [reachable]; the theorems of this file are its consequences. *)

From Stdlib Require Import String.
From stdpp Require Import base list decidable.
From S2P Require Import Prelude JsValue Redux ProductStore Views Dom PageSpec App.
Local Open Scope string_scope.
Local Open Scope pm_scope.

(** ** The concrete state of an abstract one

    The reachable states of the store are exactly the images of the
    abstract states of [PageSpec]: a page among the two the tab links
    dispatch, a string name, a boolean flag, a boolean dirty flag. *)
Definition page_of (k : page_kind) : Page.t :=
  match k with
  | Details => Page.mk (JStr DETAILS) (JStr "Product Details")
  | Availability => Page.mk (JStr AVAILABILITY) (JStr "Product Availability")
  end.

Definition concr (a : abs_state) : State.t :=
  State.mk (page_of (a_page a)) (Product.mk (JStr (a_name a)) (JBool (a_inStock a)))
    (JBool (a_dirty a)).

(** What [render] builds for a state: its listener, the event type, the
    markup, the control parsed from it and the whole document. *)
Definition handler_of (a : abs_state) : handler :=
  let product := Product.mk (JStr (a_name a)) (JBool (a_inStock a)) in
  match a_page a with
  | Details => ProductNameBlur (JBool (a_dirty a)) product
  | Availability => InStockChange (JBool (a_dirty a)) product
  end.

Definition event_type_of (k : page_kind) : string :=
  match k with Details => "blur" | Availability => "change" end.

Definition content_of (a : abs_state) : string :=
  match a_page a with
  | Details => DetailsComponent (JStr "Product Details") (JStr (a_name a))
  | Availability => AvailabilityComponent (JStr "Product Availability") (JBool (a_inStock a))
  end.

Definition control_of (a : abs_state) : control :=
  match a_page a with
  | Details => TextInput (field_value (a_name a))
  | Availability => Checkbox (a_inStock a)
  end.

Definition render_dom (a : abs_state) (d : dom handler) : dom handler :=
  let cd := classList_remove "active" (btnDetailsClassList d) in
  let ca := classList_remove "active" (btnAvailabilityClassList d) in
  mkDom (a_name a)
    (if decide (a_page a = Details) then classList_add "active" cd else cd)
    (if decide (a_page a = Availability) then classList_add "active" ca else ca)
    (negb (a_dirty a)) (content_of a) (Some (nextNode d, control_of a))
    (registrations d ++ [(nextNode d, event_type_of (a_page a), handler_of a)])
    (S (nextNode d)) (elementIds d).

(** [elements_ok] proves that a document has the page's elements from a
    [dom_wf] hypothesis on a document it was rendered from: the code never
    changes [elementIds]. *)
Ltac elements_ok :=
  match goal with H : dom_wf ?d |- page_elements _ = true => exact (dom_wf_elements d H) end.

Lemma render_concr st d a :
  getState st = concr a -> page_elements d = true ->
  render (mkWorld st d) = Ok (mkWorld st (render_dom a d)).
Proof.
  intros Hs He. unfold render. cbn [wenv]. rewrite (proj1 (page_elements_lookups d He)). simpl. rewrite Hs.
  destruct a as [[|] nm b [|]]; simpl.
  1,2: rewrite (set_content_innerHTML_Some _ _ _ (parse_DetailsComponent _)); reflexivity.
  all: rewrite (set_content_innerHTML_Some _ _ _ (parse_AvailabilityComponent _)); reflexivity.
Qed.

(** ** The three actions on concrete states *)

Lemma reduce_concr_dirty a b :
  combinedReducers (Some (concr a)) (changeProductDirtyAction (JBool b)) =
    Ok (concr (AbsState (a_page a) (a_name a) (a_inStock a) b)).
Proof. reflexivity. Qed.

Lemma reduce_concr_product a nm b :
  combinedReducers (Some (concr a)) (changeProductAction (JStr nm) (JBool b)) =
    Ok (concr (AbsState (a_page a) nm b (a_dirty a))).
Proof. reflexivity. Qed.

Lemma reduce_concr_page a k :
  combinedReducers (Some (concr a)) (changePageAction (Page.name (page_of k)) (Page.title (page_of k))) =
    Ok (concr (AbsState k (a_name a) (a_inStock a) (a_dirty a))).
Proof. by destruct k. Qed.

(** A dispatch from a concrete state with [render] subscribed: the reducer's
    state, then one render. *)
Lemma dispatch_app_concr a a' d act :
  page_elements d = true -> Action.type act <> JUndefined ->
  combinedReducers (Some (concr a)) act = Ok (concr a') ->
  dispatch_app act (mkWorld (mkStore (concr a) [Render]) d) =
    Ok (mkWorld (mkStore (concr a') [Render]) (render_dom a' d)).
Proof.
  intros He Ht Hr. unfold dispatch_app. rewrite dispatch_defined by done.
  cbn [getState wstore currentState currentListeners wenv reduce product_reducer].
  rewrite Hr. cbn [bind notify fold_result call_subscriber].
  by rewrite (render_concr _ _ a').
Qed.

Lemma dispatch_app_dirty a b d :
  page_elements d = true ->
  dispatch_app (changeProductDirtyAction (JBool b)) (mkWorld (mkStore (concr a) [Render]) d) =
    let a' := AbsState (a_page a) (a_name a) (a_inStock a) b in
    Ok (mkWorld (mkStore (concr a') [Render]) (render_dom a' d)).
Proof. intros He. apply dispatch_app_concr; [done | discriminate | apply reduce_concr_dirty]. Qed.

Lemma dispatch_app_product a nm b d :
  page_elements d = true ->
  dispatch_app (changeProductAction (JStr nm) (JBool b)) (mkWorld (mkStore (concr a) [Render]) d) =
    let a' := AbsState (a_page a) nm b (a_dirty a) in
    Ok (mkWorld (mkStore (concr a') [Render]) (render_dom a' d)).
Proof. intros He. apply dispatch_app_concr; [done | discriminate | apply reduce_concr_product]. Qed.

Lemma dispatch_app_page a k d :
  page_elements d = true ->
  dispatch_app (changePageAction (Page.name (page_of k)) (Page.title (page_of k)))
    (mkWorld (mkStore (concr a) [Render]) d) =
    let a' := AbsState k (a_name a) (a_inStock a) (a_dirty a) in
    Ok (mkWorld (mkStore (concr a') [Render]) (render_dom a' d)).
Proof. intros He. apply dispatch_app_concr; [done | by destruct k | apply reduce_concr_page]. Qed.

(** ** The DOM of a state *)

Definition control_fits (a : abs_state) (c : control) : Prop :=
  match a_page a, c with
  | Details, TextInput _ => True
  | Availability, Checkbox b => b = a_inStock a
  | _, _ => False
  end.

(** The DOM shows the state [a]: title, active tab, save button and
    content, and the live control carries exactly one registration, the
    listener [render] made for [a]. *)
Record synced (a : abs_state) (d : dom handler) : Prop := {
  sync_title : productTitle d = a_name a;
  sync_details_tab : classList_contains "active" (btnDetailsClassList d) = bool_decide (a_page a = Details);
  sync_availability_tab :
    classList_contains "active" (btnAvailabilityClassList d) = bool_decide (a_page a = Availability);
  sync_save : btnSaveDisabled d = negb (a_dirty a);
  sync_content : contentHTML d = content_of a;
  sync_live : exists n c, contentControl d = Some (n, c) /\ nextNode d = S n /\ control_fits a c /\
                registrations_of n d = [(n, event_type_of (a_page a), handler_of a)]
}.

(** The invariant of the loop, for the abstract state [a]. *)
Definition app_inv_at (a : abs_state) (w : app_world) : Prop :=
  wstore w = mkStore (concr a) [Render] /\ synced a (wenv w) /\ dom_wf (wenv w).

Lemma render_dom_synced a d : dom_wf d -> synced a (render_dom a d) /\ dom_wf (render_dom a d).
Proof.
  intros Hwf. split.
  - destruct a as [[|] nm b db]; split; simpl; autorewrite with pm_simpl; try done;
      eexists _, _; (split; [done|]); (split; [done|]);
      (split; [done|]); unfold registrations_of; simpl; by apply registrations_of_fresh.
  - destruct Hwf as (Hf & Hc & He). split_and!; simpl.
    + apply Forall_app; split; [| constructor; simpl; [lia | done]].
      eapply Forall_impl; [| exact Hf]; simpl; intros; lia.
    + intros n c [= <- _]. lia.
    + exact He.
Qed.

Lemma app_inv_render a d :
  dom_wf d -> app_inv_at a (mkWorld (mkStore (concr a) [Render]) (render_dom a d)).
Proof. intros Hwf. destruct (render_dom_synced a d Hwf). by split. Qed.

(** The effect of a user action on the abstract state, given the live
    control the action meets. *)
Definition ui_step (e : ui_event) (a : abs_state) (c : control) : abs_state :=
  match e, a_page a, c with
  | BlurProductName, Details, TextInput v => AbsState Details v (a_inStock a) true
  | ClickInStock, Availability, Checkbox _ =>
      AbsState Availability (a_name a) (negb (a_inStock a)) true
  | ClickDetailsLink, _, _ => AbsState Details (a_name a) (a_inStock a) (a_dirty a)
  | ClickAvailabilityLink, _, _ => AbsState Availability (a_name a) (a_inStock a) (a_dirty a)
  | ClickSave, _, _ => AbsState (a_page a) (a_name a) (a_inStock a) false
  | _, _, _ => a
  end.

(** The listener of a synchronised live control is the one [render] made. *)
Lemma synced_listeners a d n c :
  synced a d -> contentControl d = Some (n, c) ->
  listeners_of n (event_type_of (a_page a)) d = [handler_of a].
Proof.
  intros Hs Hc. destruct (sync_live _ _ Hs) as (n' & c' & Hc' & _ & _ & Hr).
  rewrite Hc in Hc'. injection Hc' as <- <-.
  unfold listeners_of. rewrite (listeners_of_single _ _ _ _ Hr). simpl.
  by rewrite String.eqb_refl.
Qed.

(** A listener made for [a], fired on a target whose value is [c], takes the
    store to [ui_step] through one or two dispatches, each followed by a
    render; the last render gives the document. *)
Lemma run_handler_render a e c d :
  dom_wf d ->
  (e = BlurProductName /\ a_page a = Details /\ exists v, c = TextInput v) \/
  (e = ClickInStock /\ a_page a = Availability /\ c = Checkbox (negb (a_inStock a))) ->
  exists d', dom_wf d' /\
    run_handler (handler_of a) c (mkWorld (mkStore (concr a) [Render]) d) =
      Ok (mkWorld (mkStore (concr (ui_step e a c)) [Render]) (render_dom (ui_step e a c) d')).
Proof.
  intros Hwf [(-> & Hp & v & ->) | (-> & Hp & ->)];
    destruct a as [k nm b [|]]; simpl in Hp; subst k; cbn [run_handler listener handler_of a_page
      a_name a_inStock a_dirty truthy negb control_value control_checked Product.inStock
      Product.name];
    rewrite ?dispatch_app_dirty by elements_ok; cbn [bind a_page a_name a_inStock a_dirty];
    rewrite dispatch_app_product by elements_ok;
    eexists; (split; [| reflexivity]); try done; by apply render_dom_synced.
Qed.

Lemma run_handler_of a e c d :
  dom_wf d ->
  (e = BlurProductName /\ a_page a = Details /\ exists v, c = TextInput v) \/
  (e = ClickInStock /\ a_page a = Availability /\ c = Checkbox (negb (a_inStock a))) ->
  exists w', run_handler (handler_of a) c (mkWorld (mkStore (concr a) [Render]) d) = Ok w' /\
    app_inv_at (ui_step e a c) w'.
Proof.
  intros Hwf Hcase. destruct (run_handler_render a e c d Hwf Hcase) as (d' & Hwf' & ->).
  eexists; split; [reflexivity | by apply app_inv_render].
Qed.

Lemma render_dom_set_control a c (d : dom handler) : render_dom a (set_control c d) = render_dom a d.
Proof.
  destruct (set_control_keeps c d) as (H1 & H2 & H3 & H4 & H5).
  unfold render_dom. by rewrite H1, H2, H3, H4, H5.
Qed.

Lemma listeners_of_set_control n t c (d : dom handler) : listeners_of n t (set_control c d) = listeners_of n t d.
Proof. unfold listeners_of. by rewrite (proj1 (proj2 (proj2 (set_control_keeps c d)))). Qed.

(** Typing in the text field keeps the DOM synchronised. *)
Lemma type_text_synced a d n u v :
  synced a d -> dom_wf d -> contentControl d = Some (n, TextInput u) ->
  synced a (set_control (TextInput v) d) /\ dom_wf (set_control (TextInput v) d).
Proof.
  intros Hs Hwf Hc. split; [| by apply set_control_wf].
  destruct Hs as [H1 H2 H3 H4 H5 (n' & c' & Hc' & H6 & H7 & H8)].
  rewrite Hc in Hc'. injection Hc' as <- <-.
  unfold set_control. rewrite Hc. split; try done.
  by exists n, (TextInput v).
Qed.

Lemma app_inv_same a d :
  synced a d -> dom_wf d -> app_inv_at a (mkWorld (mkStore (concr a) [Render]) d).
Proof. by split. Qed.

(** One user action from a world in the invariant: it does not throw, and
    it reaches the invariant for the abstract state [ui_step] gives. *)
(** How an event leaves the live control: as it was, holding the text the
    user typed, or the control of a new render of [a']. *)
Definition control_after (a' : abs_state) (e : ui_event) (d d' : dom handler) : Prop :=
  contentControl d' = contentControl d \/
  (exists n v, e = TypeProductName v /\ contentControl d' = Some (n, TextInput v)) \/
  (exists m, contentControl d' = Some (m, control_of a')).

Lemma control_after_render a' e d d' : control_after a' e d (render_dom a' d').
Proof. right; right. by eexists. Qed.

Lemma handle_event_step a w e n c :
  app_inv_at a w -> contentControl (wenv w) = Some (n, c) ->
  exists w', handle_event e w = Ok w' /\ app_inv_at (ui_step e a c) w' /\
    control_after (ui_step e a c) e (wenv w) (wenv w').
Proof.
  destruct w as [st d]. intros (Hst & Hs & Hwf) Hc. simpl in *. subst st.
  pose proof (sync_live _ _ Hs) as (n' & c' & Hc' & _ & Hfit & _).
  rewrite Hc in Hc'. injection Hc' as <- <-.
  destruct e as [v | | | | |]; unfold handle_event, handle_event_with, id; cbn [wenv]; rewrite ?Hc.
  - destruct c as [u | b]; eexists; (split; [reflexivity|]); simpl;
      [destruct (type_text_synced a d n u v Hs Hwf Hc) |];
      (split; [destruct a as [[|] ? ? ?]; by apply app_inv_same |]).
    + right; left. exists n, v. split; [done|]. unfold set_control. by rewrite Hc.
    + by left.
  - destruct c as [v | b]; [| eexists; split_and!; [reflexivity | by destruct a as [[|] ? ? ?] | by left]].
    unfold fire_with. destruct a as [[|] nm b db]; [| done]. simpl wenv.
    pose proof (synced_listeners _ _ _ _ Hs Hc) as Hl; simpl in Hl.
    rewrite Hl. cbn [fold_result]. rewrite bind_Ok_r.
    destruct (run_handler_render (AbsState Details nm b db) BlurProductName (TextInput v) d Hwf)
      as (d' & Hwf' & Hrun); [left; eauto|].
    eexists; split_and!; [exact Hrun | by apply app_inv_render | apply control_after_render].
  - destruct c as [v | b]; [eexists; split_and!; [reflexivity | by destruct a as [[|] ? ? ?] | by left]|].
    unfold fire_with. destruct a as [[|] nm bs db]; [done|]. unfold control_fits in Hfit; simpl in Hfit; subst b. simpl wenv.
    pose proof (synced_listeners _ _ _ _ Hs Hc) as Hl; simpl in Hl.
    rewrite listeners_of_set_control, Hl. cbn [fold_result]. rewrite bind_Ok_r.
    replace (ui_step ClickInStock _ (Checkbox bs))
      with (ui_step ClickInStock (AbsState Availability nm bs db) (Checkbox (negb bs))) by done.
    destruct (run_handler_render (AbsState Availability nm bs db) ClickInStock (Checkbox (negb bs))
                (set_control (Checkbox (negb bs)) d) (set_control_wf _ _ Hwf)) as (d' & Hwf' & Hrun);
      [right; eauto|].
    eexists; split_and!; [exact Hrun | by apply app_inv_render | apply control_after_render].
  - unfold onDetailsLinkClick_with. destruct a as [[|] nm b db]; simpl.
    + eexists; split_and!; [reflexivity | by apply app_inv_same | by left].
    + rewrite (dispatch_app_page _ Details) by elements_ok.
      eexists; split_and!; [reflexivity | by apply app_inv_render | apply control_after_render].
  - unfold onAvailabilityLinkClick_with. destruct a as [[|] nm b db]; simpl.
    + rewrite (dispatch_app_page _ Availability) by elements_ok.
      eexists; split_and!; [reflexivity | by apply app_inv_render | apply control_after_render].
    + eexists; split_and!; [reflexivity | by apply app_inv_same | by left].
  - rewrite (sync_save _ _ Hs). unfold onSaveClick_with.
    destruct a as [k nm b [|]]; simpl.
    + rewrite dispatch_app_dirty by elements_ok.
      eexists; split_and!; [reflexivity | by apply app_inv_render | apply control_after_render].
    + eexists; split_and!; [reflexivity | by apply app_inv_same | by left].
Qed.

Lemma handle_event_inv a w e n c :
  app_inv_at a w -> contentControl (wenv w) = Some (n, c) ->
  exists w', handle_event e w = Ok w' /\ app_inv_at (ui_step e a c) w'.
Proof.
  intros Ha Hc. destruct (handle_event_step a w e n c Ha Hc) as (w' & Hw' & Ha' & _). eauto.
Qed.

(** Start-up renders the initial state once, then subscribes [render]. *)
Lemma startup_concr d0 :
  page_elements d0 = true ->
  startup d0 = Ok (mkWorld (mkStore (concr abs_initial) [Render]) (render_dom abs_initial d0)).
Proof.
  intros He. unfold startup, start_render, bind_listeners, createStore.
  change (reduce None init_action) with (Ok (concr abs_initial) : result State.t).
  rewrite (proj2 (page_elements_lookups d0 He)).
  cbn [bind]. by rewrite (render_concr _ _ abs_initial).
Qed.

Lemma app_inv_live a w :
  app_inv_at a w -> exists n c, contentControl (wenv w) = Some (n, c).
Proof. intros (_ & Hs & _). destruct (sync_live _ _ Hs) as (n & c & Hc & _). eauto. Qed.

Lemma reachable_app_inv w : reachable w -> exists a, app_inv_at a w.
Proof.
  induction 1 as [d0 w Hwf Hst | w e w' _ [a Ha] Hstep].
  - rewrite startup_concr in Hst by elements_ok. injection Hst as <-.
    exists abs_initial. by apply app_inv_render.
  - destruct (app_inv_live a w Ha) as (n & c & Hc).
    destruct (handle_event_inv a w e n c Ha Hc) as (w'' & Hw'' & Hinv).
    rewrite Hstep in Hw''. injection Hw'' as <-. eauto.
Qed.

(** In a world of the loop, every user event succeeds. *)
Lemma reachable_handle_event w e : reachable w -> exists w', handle_event e w = Ok w'.
Proof.
  intros Hr. destruct (reachable_app_inv w Hr) as [a Ha].
  destruct (app_inv_live a w Ha) as (n & c & Hc).
  destruct (handle_event_inv a w e n c Ha Hc) as (w' & Hw' & _). eauto.
Qed.

(** ** Worlds reached by safe events *)

Lemma render_dom_control a d : contentControl (render_dom a d) = Some (nextNode d, control_of a).
Proof. reflexivity. Qed.

(** Every text control of [d] holds [text_safe] text. *)
Definition controls_safe (d : dom handler) : Prop :=
  forall n u, contentControl d = Some (n, TextInput u) -> text_safe u = true.

(** A rendered text field holds the name, read back unchanged. *)
Lemma control_of_safe a u :
  text_safe (a_name a) = true -> control_of a = TextInput u -> text_safe u = true.
Proof.
  intros Hn. destruct a as [[|] nm b db]; simpl; [| done].
  intros [= <-]. by rewrite field_value_safe by (by apply text_safe_attr_safe).
Qed.

(** A user event stores as the name either the old one or the value of
    the text control it met. *)
Lemma ui_step_name_safe e a c :
  text_safe (a_name a) = true -> (forall u, c = TextInput u -> text_safe u = true) ->
  text_safe (a_name (ui_step e a c)) = true.
Proof.
  intros Hn Hc. destruct e, a as [[|] nm b db], c as [u | ?]; try exact Hn; simpl; try exact Hn.
  by apply Hc.
Qed.

Lemma render_dom_controls_safe a d : text_safe (a_name a) = true -> controls_safe (render_dom a d).
Proof.
  intros Ha n u Hu. rewrite render_dom_control in Hu. injection Hu as _ Hu. by eapply control_of_safe.
Qed.

Lemma controls_safe_after a' e d d' :
  controls_safe d -> safe_event e = true -> text_safe (a_name a') = true ->
  control_after a' e d d' -> controls_safe d'.
Proof.
  intros Hd He Ha [Hsame | [(m & v & -> & Hc) | (m & Hc)]] n u Hu.
  - rewrite Hsame in Hu. eauto.
  - rewrite Hc in Hu. by injection Hu as <- <-.
  - rewrite Hc in Hu. injection Hu as <- Hu. by eapply control_of_safe.
Qed.

(** The invariant of the loop under safe events: the name and every text
    control hold [text_safe] text. *)
Lemma safe_app_inv w :
  safe_reachable w ->
  exists a, app_inv_at a w /\ text_safe (a_name a) = true /\ controls_safe (wenv w).
Proof.
  induction 1 as [d0 w Hwf Hs | w e w' _ (a & Ha & Hn & Hc) He Hstep].
  - rewrite (startup_concr d0 (dom_wf_elements d0 Hwf)) in Hs. injection Hs as <-.
    exists abs_initial. split_and!; [by apply app_inv_render | done |].
    by apply render_dom_controls_safe.
  - destruct (app_inv_live a w Ha) as (n & c & Hnc).
    destruct (handle_event_step a w e n c Ha Hnc) as (w'' & Hw'' & Ha' & Hafter).
    rewrite Hstep in Hw''. injection Hw'' as <-.
    assert (Hname : text_safe (a_name (ui_step e a c)) = true)
      by (apply ui_step_name_safe; [done | intros u ->; eauto]).
    exists (ui_step e a c). split_and!; [done | done | by eapply controls_safe_after].
Qed.

(** The variables a listener closure captured. *)
Definition captured (h : handler) : jsval * Product.t :=
  match h with ProductNameBlur d p | InStockChange d p => (d, p) end.

(** C2. Invariant of the loop: in every world reached from start-up by
    user events whose typed text is [text_safe] (the worlds in which the
    model's DOM is the browser's), the store's state is well typed and is
    the image of an abstract state (a page the tab links dispatch, a
    string name, boolean flags), [render] is its only subscriber, the DOM
    shows that state, the allocated nodes are well formed, and the name and
    the text field stay [text_safe], so the markup of every render holds
    exactly one [productName] control. *)
Theorem reachable_inv w :
  safe_reachable w ->
  state_wf (getState (wstore w)) = true /\
  exists a, wstore w = mkStore (concr a) [Render] /\ synced a (wenv w) /\ dom_wf (wenv w) /\
    text_safe (a_name a) = true /\ controls_safe (wenv w).
Proof.
  intros Hr. destruct (safe_app_inv w Hr) as (a & (Hst & Hs & Hwf) & Hn & Hc).
  split; [rewrite Hst; by destruct a as [[|] ? ? ?] |]. exists a. done.
Qed.

(** C4. Safety: in a world reached by safe events, no user action makes
    a handler or a render throw, and a safe action leads to a world of
    the same kind. *)
Theorem handle_event_total w e :
  safe_reachable w -> exists w', handle_event e w = Ok w' /\ (safe_event e = true -> safe_reachable w').
Proof.
  intros Hr. destruct (reachable_handle_event w e (safe_reachable_reachable w Hr)) as [w' Hw'].
  exists w'. split; [done | intros He; by eapply sreach_step].
Qed.

(** C3. No listener leak and no stale closure: the live form control of a
    world reached by safe events has exactly one registration, and its closure captured
    the store's current [productDirty] and [product]. *)
Theorem live_control_single_listener w :
  safe_reachable w ->
  exists n c type h,
    contentControl (wenv w) = Some (n, c) /\
    registrations_of n (wenv w) = [(n, type, h)] /\
    captured h = (State.productDirty (getState (wstore w)), State.product (getState (wstore w))).
Proof.
  intros Hr. destruct (reachable_app_inv w (safe_reachable_reachable w Hr)) as (a & Hst & Hs & _).
  destruct (sync_live _ _ Hs) as (n & c & Hc & _ & _ & Hreg).
  exists n, c, (event_type_of (a_page a)), (handler_of a). split_and!; [done | exact Hreg |].
  rewrite Hst. by destruct a as [[|] ? ? ?].
Qed.


(** ** Witnesses *)

Lemma reachable_inv_witness :
  exists w, startup example_dom = Ok w /\
    state_wf (getState (wstore w)) = true /\
    exists a, wstore w = mkStore (concr a) [Render] /\ synced a (wenv w) /\ dom_wf (wenv w) /\
      text_safe (a_name a) = true /\ controls_safe (wenv w).
Proof.
  eexists. split; [reflexivity|].
  apply reachable_inv. apply (sreach_start example_dom); [apply dom_wfb_spec; reflexivity | reflexivity].
Defined.

Lemma handle_event_total_witness :
  exists w, startup example_dom = Ok w /\
    exists w', handle_event BlurProductName w = Ok w' /\ (safe_event BlurProductName = true -> safe_reachable w').
Proof.
  eexists. split; [reflexivity|].
  apply handle_event_total. apply (sreach_start example_dom); [apply dom_wfb_spec; reflexivity | reflexivity].
Defined.

Lemma live_control_single_listener_witness :
  exists w, startup example_dom = Ok w /\
    exists n c type h,
      contentControl (wenv w) = Some (n, c) /\
      registrations_of n (wenv w) = [(n, type, h)] /\
      captured h = (State.productDirty (getState (wstore w)), State.product (getState (wstore w))).
Proof.
  eexists. split; [reflexivity|].
  apply live_control_single_listener. apply (sreach_start example_dom); [apply dom_wfb_spec; reflexivity | reflexivity].
Defined.

