(* ===== verification/Refinement.v ===== *)
(** * Refinement of the page's specification, and the page's behaviours

    [dom_view] reads what a document shows; [impl_event] is how a user
    performs each abstract action of [PageSpec].  [refines_step] is the
    simulation step: from a world in the invariant of [AppInvariant] for an
    abstract state, the events of one action reach the invariant for the
    next abstract state; [product_manager_refines_spec] composes it along a
    run.  The rest of the file states the behaviours of the page the spec
    lists as scenarios, and those where the code departs from it: the text
    field's value read back from unescaped markup (a quote, a named or a
    numeric character reference), and a blur without an edit.  The
    refinement covers the names the page carries as plain text
    ([Dom.text_safe]); for other names the markup a render writes may hold
    elements the model's scanner does not see. *)

From Stdlib Require Import String.
From stdpp Require Import base list decidable.
From S2P Require Import Prelude JsValue Redux ProductStore Logger Views Dom PageSpec App AppInvariant.
Local Open Scope string_scope.
Local Open Scope pm_scope.

(** ** Refinement of the abstract specification *)

(** What a document shows: the title, the active marks, the save button,
    and the panel the content markup holds. *)
Definition panel_of (c : control) : panel :=
  match c with TextInput v => NamePanel v | Checkbox b => StockPanel b end.

Definition dom_view (d : dom handler) : option abs_view :=
  match parse_control (contentHTML d) with
  | Some c =>
      Some (AbsView (productTitle d) (classList_contains "active" (btnDetailsClassList d))
              (classList_contains "active" (btnAvailabilityClassList d))
              (negb (btnSaveDisabled d)) (panel_of c))
  | None => None
  end.

(** Each abstract action as the user performs it on the page. *)
Definition impl_event (e : abs_event) : list ui_event :=
  match e with
  | EditName v => [TypeProductName v; BlurProductName]
  | ToggleInStock => [ClickInStock]
  | GoDetails => [ClickDetailsLink]
  | GoAvailability => [ClickAvailabilityLink]
  | Save => [ClickSave]
  end.

(** The names the refinement covers: those the page carries as plain
    text, without a double quote, [&], [<], newline or NUL ([text_safe]):
    the text field and the title then show them as they are, and the
    markup of a render holds no element the name injected. *)
Definition abs_event_ok (e : abs_event) : bool :=
  match e with EditName v => text_safe v | _ => true end.

Lemma parse_content_of a : parse_control (content_of a) = Some (control_of a).
Proof.
  destruct a as [[|] nm b db]; simpl;
    [apply parse_DetailsComponent | apply parse_AvailabilityComponent].
Qed.

Lemma synced_view a d :
  synced a d -> attr_safe (a_name a) = true -> dom_view d = Some (view a).
Proof.
  intros Hs Hq. unfold dom_view.
  rewrite (sync_content _ _ Hs), parse_content_of, (sync_title _ _ Hs), (sync_details_tab _ _ Hs),
    (sync_availability_tab _ _ Hs), (sync_save _ _ Hs), negb_involutive.
  destruct a as [[|] nm b db]; simpl in *; [by rewrite field_value_safe | done].
Qed.

Lemma run_events_single e w : run_events [e] w = handle_event e w.
Proof. apply bind_Ok_r. Qed.

(** One abstract action: the events that perform it reach the invariant of
    the abstract successor. *)
Lemma refines_step a w e :
  app_inv_at a w -> exists w', run_events (impl_event e) w = Ok w' /\ app_inv_at (abs_step e a) w'.
Proof.
  intros Ha. destruct (app_inv_live a w Ha) as (n & c & Hc).
  pose proof Ha as (Hst & Hs & Hwf).
  destruct (sync_live _ _ Hs) as (n' & c' & Hc' & _ & Hfit & _).
  rewrite Hc in Hc'. injection Hc' as <- <-.
  destruct e as [v | | | |]; simpl impl_event; rewrite ?run_events_single.
  - destruct a as [[|] nm b db], c as [u | bc]; simpl in Hfit; try done.
    + destruct w as [st d]; simpl in *; subst st.
      destruct (type_text_synced _ d n u v Hs Hwf Hc) as [Hs' Hwf'].
      assert (Hc2 : contentControl (set_control (TextInput v) d) = Some (n, TextInput v))
        by (unfold set_control; by rewrite Hc).
      destruct (handle_event_inv _ (with_dom (mkWorld (mkStore _ [Render]) d) (set_control (TextInput v) d))
                  BlurProductName n (TextInput v) (conj eq_refl (conj Hs' Hwf')) Hc2)
        as (w' & Hw' & Hinv).
      assert (Ht : handle_event (TypeProductName v) (mkWorld (mkStore (concr (AbsState Details nm b db)) [Render]) d)
                   = Ok (with_dom (mkWorld (mkStore (concr (AbsState Details nm b db)) [Render]) d)
                           (set_control (TextInput v) d)))
        by (unfold handle_event, handle_event_with, id; cbn [wenv]; by rewrite Hc).
      exists w'. unfold run_events. cbn [fold_result]. rewrite Ht. cbn [bind fold_result].
      rewrite Hw'. split; [done | exact Hinv].
    + destruct (handle_event_inv _ w (TypeProductName v) n _ Ha Hc) as (w1 & Hw1 & Ha1).
      simpl in Ha1. destruct (app_inv_live _ w1 Ha1) as (n1 & c1 & Hc1).
      destruct (handle_event_inv _ w1 BlurProductName n1 c1 Ha1 Hc1) as (w2 & Hw2 & Ha2).
      exists w2. unfold run_events. cbn [fold_result]. rewrite Hw1. cbn [bind fold_result].
      rewrite Hw2. split; [done|].
      revert Ha2. destruct c1 as [? | ?]; by simpl.
  - destruct (handle_event_inv a w ClickInStock n c Ha Hc) as (w' & Hw' & Ha').
    exists w'. split; [done|]. revert Ha'.
    destruct a as [[|] nm b db], c as [u | bc]; simpl in Hfit; by try done.
  - destruct (handle_event_inv a w ClickDetailsLink n c Ha Hc) as (w' & Hw' & Ha'). eauto.
  - destruct (handle_event_inv a w ClickAvailabilityLink n c Ha Hc) as (w' & Hw' & Ha'). eauto.
  - destruct (handle_event_inv a w ClickSave n c Ha Hc) as (w' & Hw' & Ha'). eauto.
Qed.

Lemma run_events_app es1 es2 w :
  run_events (es1 ++ es2) w = (w' <- run_events es1 w ;; run_events es2 w').
Proof. apply fold_result_app. Qed.

Lemma run_events_reachable es w w' : reachable w -> run_events es w = Ok w' -> reachable w'.
Proof.
  intros Hr. apply (fold_result_inv reachable (fun w e => handle_event e w)); [| done].
  intros ? e ? _ ? ?. by eapply reach_step.
Qed.

Lemma refines_run es a w :
  app_inv_at a w ->
  exists w', run_events (flat_map impl_event es) w = Ok w' /\ app_inv_at (abs_run es a) w'.
Proof.
  revert a w. induction es as [| e es IH]; intros a w Ha.
  - exists w. split; [by destruct w | done].
  - destruct (refines_step a w e Ha) as (w1 & Hw1 & Ha1).
    destruct (IH _ _ Ha1) as (w2 & Hw2 & Ha2).
    exists w2. simpl flat_map. rewrite run_events_app, Hw1. split; [exact Hw2 | exact Ha2].
Qed.

Lemma abs_run_text_safe es a :
  Forall (fun e => abs_event_ok e = true) es -> text_safe (a_name a) = true ->
  text_safe (a_name (abs_run es a)) = true.
Proof.
  intros Hes. revert a. induction Hes as [| e es He _ IH]; intros a Ha; simpl; [done|].
  apply IH. destruct e; simpl in *; repeat case_decide; done.
Qed.

(** The events of safe abstract actions are safe, and keep a world among
    those reached by safe events. *)
Lemma run_events_safe_reachable es w w' :
  Forall (fun e => safe_event e = true) es -> safe_reachable w -> run_events es w = Ok w' ->
  safe_reachable w'.
Proof.
  intros Hes. revert w. induction Hes as [| e es He _ IH]; intros w Hw Hrun.
  - by injection Hrun as <-.
  - unfold run_events in Hrun. simpl in Hrun. inv_ok Hrun. apply (IH a); [by eapply sreach_step | exact Hrun].
Qed.

Lemma impl_events_safe es :
  Forall (fun e => abs_event_ok e = true) es ->
  Forall (fun e => safe_event e = true) (flat_map impl_event es).
Proof.
  induction 1 as [| e es He _ IH]; simpl; [done|]. apply Forall_app. split; [| done].
  destruct e; simpl in *; repeat constructor; done.
Qed.

(** C1. The program refines its specification: from start-up on any
    well-formed page, the user events that perform a sequence of abstract
    actions (names without a double quote, [&], [<], newline or NUL, the
    names the page carries as plain text) succeed, reach a world of the
    program reached by safe events, leave the store in the state the
    abstract machine reaches, and the page shows that state's view: the
    title (its text, the name itself), the active tab, the save button and
    the panel the content markup holds. *)
Theorem product_manager_refines_spec d0 es :
  dom_wf d0 -> Forall (fun e => abs_event_ok e = true) es ->
  exists w,
    (w0 <- startup d0 ;; run_events (flat_map impl_event es) w0) = Ok w /\
    safe_reachable w /\
    getState (wstore w) = concr (abs_run es abs_initial) /\
    dom_view (wenv w) = Some (view (abs_run es abs_initial)).
Proof.
  intros Hwf Hes. rewrite startup_concr by elements_ok. cbn [bind].
  destruct (refines_run es abs_initial _ (app_inv_render abs_initial d0 Hwf))
    as (w & Hw & Hst & Hs & _).
  exists w. split_and!; [exact Hw | | by rewrite Hst | ].
  - eapply run_events_safe_reachable; [by apply impl_events_safe | | exact Hw].
    eapply sreach_start; [exact Hwf | apply startup_concr; elements_ok].
  - apply synced_view; [exact Hs | apply text_safe_attr_safe; by apply abs_run_text_safe].
Qed.

(** ** The text field after a render *)

(** A blur on the freshly rendered text field: the field holds what the
    browser reads back from the markup ([field_value]), and the listener
    stores that value and marks the product dirty. *)
Lemma blur_rendered a d :
  dom_wf d -> a_page a = Details ->
  exists d', dom_wf d' /\
    handle_event BlurProductName (mkWorld (mkStore (concr a) [Render]) (render_dom a d)) =
      let a' := AbsState Details (field_value (a_name a)) (a_inStock a) true in
      Ok (mkWorld (mkStore (concr a') [Render]) (render_dom a' d')).
Proof.
  intros Hwf Hp. destruct a as [k nm b db]; simpl in Hp; subst k.
  pose proof (synced_listeners (AbsState Details nm b db) (render_dom (AbsState Details nm b db) d)
                (nextNode d) (TextInput (field_value nm))
                (proj1 (render_dom_synced _ d Hwf)) eq_refl) as Hl.
  simpl in Hl. unfold handle_event, handle_event_with, fire_with, id. cbn [wenv contentControl render_dom control_of a_page a_name].
  rewrite Hl. cbn [fold_result]. rewrite bind_Ok_r.
  apply (run_handler_render (AbsState Details nm b db) BlurProductName (TextInput (field_value nm)));
    [by apply render_dom_synced | left; eauto].
Qed.

(** C10. The text field does not round-trip a name with a double quote:
    [value="${name}"] is not escaped, so the re-rendered field holds the name
    up to its first quote, and a blur on it (even with no edit) stores the
    truncated name. *)
Theorem blur_truncates_name_at_quote a d p r :
  dom_wf d -> a_page a = Details -> a_name a = p ++ dq ++ r -> attr_safe p = true ->
  exists w', handle_event BlurProductName (mkWorld (mkStore (concr a) [Render]) (render_dom a d)) = Ok w' /\
    getState (wstore w') = concr (AbsState Details p (a_inStock a) true).
Proof.
  intros Hwf Hp Hn Hsafe. destruct (blur_rendered a d Hwf Hp) as (d' & _ & ->).
  eexists; split; [reflexivity|]. simpl. by rewrite Hn, field_value_dq.
Qed.

(** C11. Focusing the name field and leaving it without an edit marks the
    product dirty: the blur listener dispatches the dirty flag and the
    unchanged name, and the save button becomes enabled. *)
Theorem blur_without_edit_marks_dirty a d :
  dom_wf d -> a_page a = Details -> attr_safe (a_name a) = true ->
  exists w', handle_event BlurProductName (mkWorld (mkStore (concr a) [Render]) (render_dom a d)) = Ok w' /\
    getState (wstore w') = concr (AbsState Details (a_name a) (a_inStock a) true) /\
    btnSaveDisabled (wenv w') = false.
Proof.
  intros Hwf Hp Hq. destruct (blur_rendered a d Hwf Hp) as (d' & _ & ->).
  eexists; split; [reflexivity|]. simpl. by rewrite field_value_safe.
Qed.

(** C8. The end-to-end scenarios of the spec (section 8), on any
    well-formed page: the first render; an edit of the name; a save; a
    switch to the availability tab and a click on the checkbox. *)
Theorem e2e_scenarios d0 :
  dom_wf d0 ->
  exists w1 w2 w3 w4,
    startup d0 = Ok w1 /\
    productTitle (wenv w1) = "Best Product ever!" /\
    classList_contains "active" (btnDetailsClassList (wenv w1)) = true /\
    classList_contains "active" (btnAvailabilityClassList (wenv w1)) = false /\
    btnSaveDisabled (wenv w1) = true /\
    run_events [TypeProductName "Widget"; BlurProductName] w1 = Ok w2 /\
    getState (wstore w2) = concr (AbsState Details "Widget" true true) /\
    btnSaveDisabled (wenv w2) = false /\
    run_events [ClickSave] w2 = Ok w3 /\
    getState (wstore w3) = concr (AbsState Details "Widget" true false) /\
    btnSaveDisabled (wenv w3) = true /\
    run_events [ClickAvailabilityLink; ClickInStock] w3 = Ok w4 /\
    getState (wstore w4) = concr (AbsState Availability "Widget" false true) /\
    classList_contains "active" (btnAvailabilityClassList (wenv w4)) = true /\
    classList_contains "active" (btnDetailsClassList (wenv w4)) = false.
Proof.
  intros Hwf. pose proof (app_inv_render abs_initial d0 Hwf) as H1.
  destruct (refines_run [EditName "Widget"] _ _ H1) as (w2 & Hw2 & Hst2 & Hs2 & H2).
  destruct (refines_run [Save] _ _ (conj Hst2 (conj Hs2 H2))) as (w3 & Hw3 & Hst3 & Hs3 & H3).
  destruct (refines_run [GoAvailability; ToggleInStock] _ _ (conj Hst3 (conj Hs3 H3)))
    as (w4 & Hw4 & Hst4 & Hs4 & _).
  cbn [flat_map impl_event app] in Hw2, Hw3, Hw4.
  destruct H1 as (_ & Hs1 & _).
  exists (mkWorld (mkStore (concr abs_initial) [Render]) (render_dom abs_initial d0)), w2, w3, w4.
  split_and!; [apply startup_concr; elements_ok | exact (sync_title _ _ Hs1)
    | by rewrite (sync_details_tab _ _ Hs1) | by rewrite (sync_availability_tab _ _ Hs1)
    | by rewrite (sync_save _ _ Hs1) | exact Hw2 | by rewrite Hst2 | by rewrite (sync_save _ _ Hs2)
    | exact Hw3 | by rewrite Hst3 | by rewrite (sync_save _ _ Hs3)
    | exact Hw4 | by rewrite Hst4 | by rewrite (sync_availability_tab _ _ Hs4)
    | by rewrite (sync_details_tab _ _ Hs4)].
Qed.

(** C17. The text field does not round-trip a name holding a character
    reference either: [value="${name}"] does not escape [&], the browser
    decodes [&amp;] in the attribute, and a blur on the re-rendered field
    (even with no edit) stores the decoded name. *)
Theorem blur_decodes_character_reference a d p r :
  dom_wf d -> a_page a = Details -> a_name a = p ++ "&amp;" ++ r ->
  attr_safe p = true -> attr_safe r = true ->
  exists w', handle_event BlurProductName (mkWorld (mkStore (concr a) [Render]) (render_dom a d)) = Ok w' /\
    getState (wstore w') = concr (AbsState Details (p ++ "&" ++ r) (a_inStock a) true).
Proof.
  intros Hwf Hp Hn Hsp Hsr. destruct (blur_rendered a d Hwf Hp) as (d' & _ & ->).
  eexists; split; [reflexivity|]. simpl. by rewrite Hn, field_value_amp.
Qed.

(** C22. Numeric character references are decoded too, and a decoded
    quote then truncates: a name ending with [&#34;] becomes, after a blur
    on the rendered field (with no edit), the name with a double quote in
    place of the reference; after the next render and blur it is cut at
    that quote.  Two focus changes without typing lose the end of the
    name.  (In the second render the decoded quote is followed by the
    template's own closing quote and [>]; the tokenizer reads that quote as
    the name of an empty attribute: no element is injected, the field is
    still the one [productName] control.) *)
Theorem numeric_quote_reference_drifts a d p :
  dom_wf d -> a_page a = Details -> a_name a = p ++ "&#34;" -> text_safe p = true ->
  exists w1 w2,
    handle_event BlurProductName (mkWorld (mkStore (concr a) [Render]) (render_dom a d)) = Ok w1 /\
    getState (wstore w1) = concr (AbsState Details (p ++ dq) (a_inStock a) true) /\
    handle_event BlurProductName w1 = Ok w2 /\
    getState (wstore w2) = concr (AbsState Details p (a_inStock a) true).
Proof.
  intros Hwf Hp Hn Hsp. apply text_safe_attr_safe in Hsp.
  destruct (blur_rendered a d Hwf Hp) as (d1 & Hwf1 & ->).
  cbn zeta. rewrite Hn, <- (string_app_nil_r "&#34;"), field_value_num_quote, string_app_nil_r by done.
  set (a1 := AbsState Details (p ++ dq) (a_inStock a) true).
  destruct (blur_rendered a1 d1 Hwf1 eq_refl) as (d2 & _ & H2).
  eexists _, _. split_and!; [reflexivity | reflexivity | exact H2 |].
  simpl. by rewrite <- (string_app_nil_r dq), field_value_dq.
Qed.

(** ** Witnesses *)

Lemma product_manager_refines_spec_witness :
  exists w,
    (w0 <- startup example_dom ;;
     run_events (flat_map impl_event [EditName "Widget"; Save; GoAvailability; ToggleInStock]) w0) = Ok w /\
    safe_reachable w /\
    getState (wstore w) = concr (abs_run [EditName "Widget"; Save; GoAvailability; ToggleInStock] abs_initial) /\
    dom_view (wenv w) = Some (view (abs_run [EditName "Widget"; Save; GoAvailability; ToggleInStock] abs_initial)).
Proof.
  apply (product_manager_refines_spec example_dom); [apply dom_wfb_spec; reflexivity | repeat constructor].
Defined.

Definition quoted_name_state : abs_state := AbsState Details ("Say " ++ dq ++ "hi" ++ dq) true true.

Lemma blur_truncates_name_at_quote_witness :
  exists w', handle_event BlurProductName
               (mkWorld (mkStore (concr quoted_name_state) [Render]) (render_dom quoted_name_state example_dom))
             = Ok w' /\
    getState (wstore w') = concr (AbsState Details "Say " true true).
Proof.
  apply (blur_truncates_name_at_quote quoted_name_state example_dom "Say " ("hi" ++ dq));
    [apply dom_wfb_spec | | |]; reflexivity.
Defined.

Lemma blur_without_edit_marks_dirty_witness :
  exists w', handle_event BlurProductName
               (mkWorld (mkStore (concr abs_initial) [Render]) (render_dom abs_initial example_dom)) = Ok w' /\
    getState (wstore w') = concr (AbsState Details (a_name abs_initial) (a_inStock abs_initial) true) /\
    btnSaveDisabled (wenv w') = false.
Proof. apply blur_without_edit_marks_dirty; [apply dom_wfb_spec | |]; reflexivity. Defined.

Lemma e2e_scenarios_witness :
  exists w1 w2 w3 w4,
    startup example_dom = Ok w1 /\
    productTitle (wenv w1) = "Best Product ever!" /\
    classList_contains "active" (btnDetailsClassList (wenv w1)) = true /\
    classList_contains "active" (btnAvailabilityClassList (wenv w1)) = false /\
    btnSaveDisabled (wenv w1) = true /\
    run_events [TypeProductName "Widget"; BlurProductName] w1 = Ok w2 /\
    getState (wstore w2) = concr (AbsState Details "Widget" true true) /\
    btnSaveDisabled (wenv w2) = false /\
    run_events [ClickSave] w2 = Ok w3 /\
    getState (wstore w3) = concr (AbsState Details "Widget" true false) /\
    btnSaveDisabled (wenv w3) = true /\
    run_events [ClickAvailabilityLink; ClickInStock] w3 = Ok w4 /\
    getState (wstore w4) = concr (AbsState Availability "Widget" false true) /\
    classList_contains "active" (btnAvailabilityClassList (wenv w4)) = true /\
    classList_contains "active" (btnDetailsClassList (wenv w4)) = false.
Proof. apply e2e_scenarios. apply dom_wfb_spec. reflexivity. Defined.

Definition amp_name_state : abs_state := AbsState Details "Tom &amp; Jerry" true false.

Lemma blur_decodes_character_reference_witness :
  exists w', handle_event BlurProductName
               (mkWorld (mkStore (concr amp_name_state) [Render]) (render_dom amp_name_state example_dom))
             = Ok w' /\
    getState (wstore w') = concr (AbsState Details "Tom & Jerry" true true).
Proof.
  apply (blur_decodes_character_reference amp_name_state example_dom "Tom " " Jerry");
    [apply dom_wfb_spec | | | |]; reflexivity.
Defined.

Definition numeric_quote_state : abs_state := AbsState Details "12&#34;" true false.

Lemma numeric_quote_reference_drifts_witness :
  exists w1 w2,
    handle_event BlurProductName
      (mkWorld (mkStore (concr numeric_quote_state) [Render]) (render_dom numeric_quote_state example_dom))
      = Ok w1 /\
    getState (wstore w1) = concr (AbsState Details ("12" ++ dq) true true) /\
    handle_event BlurProductName w1 = Ok w2 /\
    getState (wstore w2) = concr (AbsState Details "12" true true).
Proof.
  apply (numeric_quote_reference_drifts numeric_quote_state example_dom "12");
    [apply dom_wfb_spec | | |]; reflexivity.
Defined.
