(* ===== verification/Registry.v ===== *)
(** * The listener registry: what [render] leaves behind

    Every [render] (product-manager.js lines 88-165) replaces the content
    by new nodes and adds a listener to the new form control; the code
    never calls [removeEventListener], so the closures of earlier renders
    stay registered on the detached controls (the spec, section 4.3 and
    section 9, calls this the accumulation risk).  [dom_grows] is the
    preorder the DOM moves along: the allocation counter [nextNode] only
    increases and the registry is only extended.  Every DOM operation of
    [Dom] respects it ([grows] hints), hence [render], and, through
    [Redux.dispatch_env_mono], every [dispatch], listener and user action.
    With the invariant of [AppInvariant] (the live control is the last node
    allocated), this shows that a closure left on a detached control can
    never run again: the live control of every later world has a larger
    node number. *)

From Stdlib Require Import String.
From stdpp Require Import base list.
From S2P Require Import Prelude JsValue Redux ProductStore Dom PageSpec App AppInvariant Refinement.
Local Open Scope pm_scope.

(** The DOM [d'] is [d] after some allocations and registrations. *)
Definition dom_grows (d d' : dom handler) : Prop :=
  nextNode d <= nextNode d' /\ exists rs, registrations d' = registrations d ++ rs.

#[export] Instance dom_grows_preorder : PreOrder dom_grows.
Proof.
  split.
  - intros d. split; [lia | exists []; by rewrite app_nil_r].
  - intros d1 d2 d3 [H1 [rs1 E1]] [H2 [rs2 E2]]. split; [lia|].
    exists (rs1 ++ rs2). by rewrite E2, E1, app_assoc.
Qed.

Lemma dom_grows_refl d : dom_grows d d.
Proof. reflexivity. Qed.

(** ** Every DOM operation respects [dom_grows] *)
Section Operations.
Implicit Types d : dom handler.

Lemma set_productTitle_grows t d d' : dom_grows d d' -> dom_grows d (set_productTitle t d').
Proof. done. Qed.

Lemma update_btnDetailsClassList_grows f d d' :
  dom_grows d d' -> dom_grows d (update_btnDetailsClassList f d').
Proof. done. Qed.

Lemma update_btnAvailabilityClassList_grows f d d' :
  dom_grows d d' -> dom_grows d (update_btnAvailabilityClassList f d').
Proof. done. Qed.

Lemma set_btnSaveDisabled_grows b d d' : dom_grows d d' -> dom_grows d (set_btnSaveDisabled b d').
Proof. done. Qed.

Lemma set_content_innerHTML_grows html d d' :
  dom_grows d d' -> dom_grows d (set_content_innerHTML html d').
Proof.
  intros [Hn Hr]. unfold set_content_innerHTML.
  destruct (parse_control html); split; simpl; [lia | done | lia | done].
Qed.

Lemma addEventListener_grows n t h d d' :
  dom_grows d d' -> dom_grows d (addEventListener n t h d').
Proof.
  intros [Hn [rs Hr]]. split; [done|]. exists (rs ++ [(n, t, h)]). simpl. by rewrite Hr, app_assoc.
Qed.

Lemma set_control_grows c d : dom_grows d (set_control c d).
Proof.
  destruct (set_control_keeps c d) as (_ & _ & Hr & Hn & _).
  split; [lia | exists []; by rewrite Hr, app_nil_r].
Qed.
End Operations.

Create HintDb grows discriminated.
#[export] Hint Resolve dom_grows_refl set_productTitle_grows update_btnDetailsClassList_grows
  update_btnAvailabilityClassList_grows set_btnSaveDisabled_grows set_content_innerHTML_grows
  addEventListener_grows : grows.

(** ** The code respects it *)

Lemma render_grows w w' : render w = Ok w' -> dom_grows (wenv w) (wenv w').
Proof.
  unfold render. destruct (first_missing _ _) as [[? ?] |]; [discriminate|].
  intros H. inv_ok H. injection H as <-. simpl.
  repeat case_match; simplify_eq; auto 20 with grows.
Qed.

Lemma dispatch_app_grows a w w' : dispatch_app a w = Ok w' -> dom_grows (wenv w) (wenv w').
Proof.
  apply (dispatch_env_mono call_subscriber dom_grows). intros [] ? ?. apply render_grows.
Qed.

(** A step that may throw and respects [dom_grows]. *)
Definition grows_step (f : app_world -> result app_world) : Prop :=
  forall w w', f w = Ok w' -> dom_grows (wenv w) (wenv w').

Lemma grows_step_bind (f g : app_world -> result app_world) :
  grows_step f -> grows_step g -> grows_step (fun w => w1 <- f w ;; g w1).
Proof.
  intros Hf Hg w w' H. inv_ok H. etransitivity; [exact (Hf _ _ Ha) | exact (Hg _ _ H)].
Qed.

Lemma grows_step_fold {B : Type} (f : app_world -> B -> result app_world) l :
  (forall x, grows_step (fun w => f w x)) -> grows_step (fun w => fold_result f w l).
Proof.
  intros Hf w w'. apply (fold_result_inv (fun w'' => dom_grows (wenv w) (wenv w''))); [| reflexivity].
  intros a x a' _ Ha Hx. etransitivity; [exact Ha | exact (Hf x _ _ Hx)].
Qed.

Lemma run_handler_grows h t : grows_step (run_handler h t).
Proof.
  unfold run_handler. destruct h as [dirty p | dirty p]; cbn [listener];
    apply grows_step_bind; try exact (dispatch_app_grows _);
    destruct (negb (truthy dirty)); [exact (dispatch_app_grows _) | intros ? ? [= <-]; reflexivity
    | exact (dispatch_app_grows _) | intros ? ? [= <-]; reflexivity].
Qed.

Lemma handle_event_grows e : grows_step (handle_event e).
Proof.
  intros w w'. unfold handle_event, handle_event_with, id.
  destruct e as [v | | | | |]; destruct (contentControl (wenv w)) as [[n [u | b]] |];
    try (intros [= <-]; reflexivity);
    try (unfold onDetailsLinkClick_with, onAvailabilityLinkClick_with, onSaveClick_with;
         case_match; [intros [= <-]; reflexivity | apply dispatch_app_grows]).
  - intros [= <-]. apply set_control_grows.
  - apply (grows_step_fold (fun w h => run_handler h (TextInput u) w)). intros h. apply run_handler_grows.
  - intros H. etransitivity; [apply (set_control_grows (Checkbox (negb b)))|].
    revert H. apply (grows_step_fold (fun w h => run_handler h (Checkbox (negb b)) w)).
    intros h. apply run_handler_grows.
Qed.

Lemma run_events_grows es : grows_step (run_events es).
Proof. apply grows_step_fold. intros e. apply handle_event_grows. Qed.

(** In a world of the loop, the live control is the last node allocated
    and every registration is on an allocated node. *)
Lemma reachable_live_last w :
  reachable w ->
  exists n c, contentControl (wenv w) = Some (n, c) /\ nextNode (wenv w) = S n /\
    Forall (fun r : nat * string * handler => r.1.1 < nextNode (wenv w)) (registrations (wenv w)).
Proof.
  intros Hr. destruct (reachable_app_inv w Hr) as (a & _ & Hs & Hwf & _).
  destruct (sync_live _ _ Hs) as (n & c & Hc & Hn & _). eauto.
Qed.


(** ** Witness *)

Local Open Scope string_scope.

Definition start_world : app_world :=
  Eval vm_compute in
  match startup example_dom with Ok w => w | Throw _ => mkWorld (mkStore initialState [Render]) example_dom end.

(** After one blur: the first control is detached, its listener stays. *)
Definition blurred_world : app_world :=
  Eval vm_compute in
  match run_events [BlurProductName] start_world with Ok w => w | Throw _ => start_world end.

Definition saved_world : app_world :=
  Eval vm_compute in
  match run_events [ClickSave; ClickAvailabilityLink] blurred_world with Ok w => w | Throw _ => blurred_world end.

