(* ===== verification/AppLogger.v ===== *)
(** * The page over the logger's [store.dispatch]

    The store of lines 65-68 is [createStore(combinedReducers,
    applyMiddleware(logger()))]: every [store.dispatch] of the listeners
    (lines 134-161, 189-216) goes through the logging middleware of
    [Logger].  [App] runs that code, written once in its Section
    [StoreClient], over the plain [dispatch]; here the same definitions run
    over the logged one, on a world that also holds the console
    ([logged_world]).  With redux-logger 2 ([logger()] is the middleware),
    the page's start-up dispatches nothing through it (the [INIT] dispatch
    of [createStore] happens before [applyMiddleware] wraps [dispatch]).

    [lsim] relates a run of the plain page to a run of the logged page
    from the same page: both throw the same exception, or both succeed on
    the same page and the logged run's console is the old console followed
    by one group per dispatched action, each without error, the groups
    chaining the store's states.  [lsim_bind] and [lsim_fold] compose it;
    every piece of code of the Section keeps it. *)

From Stdlib Require Import String.
From stdpp Require Import base list.
From S2P Require Import Prelude JsValue Redux ProductStore Logger Dom PageSpec App AppInvariant.
Local Open Scope pm_scope.

(** The page and what its console shows. *)
Record logged_world : Type := LWorld {
  lw_console : list (console_line State.t Action.t);
  lw_page : app_world
}.

(** [store.dispatch] of the store of lines 65-68: the logging middleware
    around the plain [dispatch] (its subscriber [render]); an exception
    propagates to the caller. *)
Definition logged_store_dispatch (a : Action.t) (lw : logged_world) : result logged_world :=
  match logged_dispatch call_subscriber a (lw_page lw) (lw_console lw) with
  | (c', Ok w') => Ok (LWorld c' w')
  | (_, Throw m) => Throw m
  end.

Definition set_page_dom (d : dom handler) (lw : logged_world) : logged_world :=
  LWorld (lw_console lw) (with_dom (lw_page lw) d).

(** The browser's handling of one user action, on the logged page. *)
Definition logged_handle_event (e : ui_event) (lw : logged_world) : result logged_world :=
  handle_event_with logged_store_dispatch lw_page set_page_dom e lw.

Definition logged_run_events (es : list ui_event) (lw : logged_world) : result logged_world :=
  fold_result (fun lw e => logged_handle_event e lw) lw es.

(** ** The simulation *)

Definition state_of (w : app_world) : State.t := getState (wstore w).

(** [lw'] is [lw] after a run that ended on the page [w']. *)
Definition logs_to (lw : logged_world) (w' : app_world) (lw' : logged_world) : Prop :=
  lw_page lw' = w' /\
  exists es, lw_console lw' = lw_console lw ++ map Group es /\
    Forall (fun e => le_error e = None) es /\ chained (state_of (lw_page lw)) es (state_of w').

Definition lsim (lw : logged_world) (r : result app_world) (lr : result logged_world) : Prop :=
  match r, lr with
  | Ok w', Ok lw' => logs_to lw w' lw'
  | Throw m, Throw m' => m = m'
  | _, _ => False
  end.

Lemma logs_to_refl lw : logs_to lw (lw_page lw) lw.
Proof. split; [done|]. exists []. by rewrite app_nil_r. Qed.

Lemma logs_to_trans lw w1 lw1 w2 lw2 :
  logs_to lw w1 lw1 -> logs_to lw1 w2 lw2 -> logs_to lw w2 lw2.
Proof.
  intros (<- & es1 & Hc1 & Hn1 & Hch1) (<- & es2 & Hc2 & Hn2 & Hch2).
  split; [done|]. exists (es1 ++ es2). split_and!.
  - by rewrite Hc2, Hc1, map_app, app_assoc.
  - by apply Forall_app.
  - by eapply chained_app.
Qed.

(** [lsim] only looks at the console and the store's state of its start. *)
Lemma lsim_base lw1 lw2 r lr :
  lw_console lw1 = lw_console lw2 -> state_of (lw_page lw1) = state_of (lw_page lw2) ->
  lsim lw1 r lr -> lsim lw2 r lr.
Proof.
  intros Hc Hs. destruct r as [w' | m], lr as [lw' | m']; try done.
  intros (Hp & es & Hc' & Hn & Hch). split; [done|]. exists es. by rewrite <- Hc, <- Hs.
Qed.

Lemma lsim_Ok lw : lsim lw (Ok (lw_page lw)) (Ok lw).
Proof. apply logs_to_refl. Qed.

(** One dispatch: the logged [dispatch] prints one group, without error
    when the plain one succeeds. *)
Lemma lsim_dispatch a lw :
  lsim lw (dispatch_app a (lw_page lw)) (logged_store_dispatch a lw).
Proof.
  unfold logged_store_dispatch, dispatch_app.
  destruct (dispatch call_subscriber a (lw_page lw)) as [w' | m] eqn:Hd.
  - rewrite (logged_dispatch_Ok _ _ _ _ _ Hd). split; [done|].
    eexists [_]. split_and!; [done | by constructor | done].
  - by rewrite (logged_dispatch_Throw _ _ _ _ _ Hd).
Qed.

Lemma lsim_bind lw r lr (k : app_world -> result app_world) (lk : logged_world -> result logged_world) :
  lsim lw r lr -> (forall lw', lsim lw' (k (lw_page lw')) (lk lw')) ->
  lsim lw (bind r k) (bind lr lk).
Proof.
  intros H Hk. destruct r as [w1 | m], lr as [lw1 | m']; simpl; try done.
  destruct H as [Hp H]. specialize (Hk lw1). rewrite Hp in Hk.
  destruct (k w1) as [w2 | m2], (lk lw1) as [lw2 | m2']; try done.
  by eapply logs_to_trans.
Qed.

Lemma lsim_fold {B : Type} (f : app_world -> B -> result app_world)
    (lf : logged_world -> B -> result logged_world) l lw :
  (forall lw' x, lsim lw' (f (lw_page lw') x) (lf lw' x)) ->
  lsim lw (fold_result f (lw_page lw) l) (fold_result lf lw l).
Proof.
  intros Hf. revert lw. induction l as [| x l IH]; intros lw; simpl; [apply lsim_Ok|].
  apply lsim_bind; [apply Hf | apply IH].
Qed.

#[local] Hint Resolve lsim_Ok lsim_dispatch : pm.

(** The listener closures keep the simulation. *)
Lemma lsim_listener h t lw :
  lsim lw (run_handler h t (lw_page lw)) (listener logged_store_dispatch h t lw).
Proof.
  unfold run_handler. destruct h as [dirty p | dirty p]; cbn [listener];
    apply lsim_bind; try (intros; apply lsim_dispatch);
    destruct (negb (truthy dirty)); auto with pm.
Qed.

(** So does every user action. *)
Lemma lsim_handle_event e lw :
  lsim lw (handle_event e (lw_page lw)) (logged_handle_event e lw).
Proof.
  unfold handle_event, logged_handle_event, handle_event_with, id.
  destruct e as [v | | | | |]; destruct (contentControl (wenv (lw_page lw))) as [[n [u | b]] |];
    try apply lsim_Ok;
    try (unfold onDetailsLinkClick_with, onAvailabilityLinkClick_with, onSaveClick_with;
         case_match; by auto with pm).
  - apply (lsim_base (set_page_dom (set_control (TextInput v) (wenv (lw_page lw))) lw)); [done..|].
    apply lsim_Ok.
  - apply lsim_fold. intros. apply lsim_listener.
  - apply (lsim_base (set_page_dom (set_control (Checkbox (negb b)) (wenv (lw_page lw))) lw)); [done..|].
    apply lsim_fold. intros. apply lsim_listener.
Qed.

Lemma lsim_run_events es lw :
  lsim lw (run_events es (lw_page lw)) (logged_run_events es lw).
Proof. apply lsim_fold. intros. apply lsim_handle_event. Qed.

(** [lsim] spelled out. *)
Lemma lsim_spec lw r lr :
  lsim lw r lr ->
  (forall w', r = Ok w' -> exists es, lr = Ok (LWorld (lw_console lw ++ map Group es) w') /\
     Forall (fun e => le_error e = None) es /\ chained (state_of (lw_page lw)) es (state_of w')) /\
  (forall m, r = Throw m -> lr = Throw m).
Proof.
  intros H. split; intros ? ->; destruct lr as [[c' w''] | m']; try done.
  - destruct H as (Hp & es & Hc & Hn & Hch). simpl in Hp, Hc. subst. eauto.
  - simpl in H. by subst.
Qed.

(** From a world reached by safe events, every sequence of safe user
    actions runs to its end on worlds of the same kind. *)
Lemma safe_run_events es w :
  safe_reachable w -> forallb safe_event es = true ->
  exists w', run_events es w = Ok w' /\ safe_reachable w'.
Proof.
  revert w. induction es as [| e es IH]; intros w Hr Hes; [by exists w|].
  simpl in Hes. apply andb_true_iff in Hes as [He Hes].
  destruct (reachable_handle_event w e (safe_reachable_reachable w Hr)) as [w1 Hw1].
  destruct (IH w1 (sreach_step _ _ _ Hr He Hw1) Hes) as (w' & Hw' & Hr').
  exists w'. split; [| done]. unfold run_events. simpl. by rewrite Hw1.
Qed.

(** ** The page the browser runs *)


(** ** Witnesses *)

