(* ===== verification/Focus.v ===== *)
(** * The browser's focus rules around the text field

    [App.handle_event] lets any user event follow any other, which admits
    orders a browser does not produce: in a browser the text field's [blur]
    fires whenever focus leaves it, so a user who typed into it and then
    clicks a tab link, the checkbox or the save button first triggers the
    blur listener (lines 134-146), and only then the click.  This file adds
    the focus to the world ([fworld]) and describes the user's actions as a
    browser turns them into events ([focus_step]):
    - [FocusProductName]: a click into the text field focuses it (no
      listener of the code runs);
    - [TypeText v]: typing, which changes the value of the focused field;
    - [LeaveProductName]: Tab, or a click on no control: focus leaves the
      field and [blur] fires;
    - [Click t]: a click on a control; focus leaves the field first (its
      [blur] fires), then the click is dispatched.  Whether the save button
      is disabled is read when the click is dispatched, after the blur's
      re-render;
    - [PressEnter]: Enter in the focused field.  The details form has one
      text field and no submit listener, so the browser submits the form
      (implicit submission) to the page's own address, and the page is
      loaded anew from [page0]: the script starts again on a fresh store.
    Renders happen only inside listeners, after focus has left the field,
    so a render never replaces a focused field.  [freachable] collects the
    worlds a user reaches typing text the page carries as plain text
    ([Dom.text_safe]), those in which the model's DOM is the browser's.
    The theorems: the focus model only restricts the free one (C19), and
    typed text reaches the store when focus leaves the field (C20). *)

From Stdlib Require Import String.
From stdpp Require Import base list decidable.
From S2P Require Import Prelude JsValue Redux ProductStore Views Dom PageSpec App AppInvariant.
Local Open Scope string_scope.
Local Open Scope pm_scope.

(** The controls a user can click, with the event each click dispatches. *)
Inductive click_target : Type :=
| OnCheckbox
| OnDetailsLink
| OnAvailabilityLink
| OnSaveButton.

Definition click_event (t : click_target) : ui_event :=
  match t with
  | OnCheckbox => ClickInStock
  | OnDetailsLink => ClickDetailsLink
  | OnAvailabilityLink => ClickAvailabilityLink
  | OnSaveButton => ClickSave
  end.

Inductive user_action : Type :=
| FocusProductName
| TypeText (v : string)
| LeaveProductName
| PressEnter
| Click (t : click_target).

(** A world and whether the text field has the focus. *)
Record fworld : Type := FWorld { fw : app_world; focused : bool }.

(** Focus leaves the text field: its [blur] listener runs. *)
Definition unfocus (s : fworld) : result fworld :=
  if focused s then w <- handle_event BlurProductName (fw s) ;; Ok (FWorld w false) else Ok s.

Definition focus_step (page0 : dom handler) (e : user_action) (s : fworld) : result fworld :=
  match e with
  | FocusProductName =>
      match contentControl (wenv (fw s)) with
      | Some (_, TextInput _) => Ok (FWorld (fw s) true)
      | _ => Ok s
      end
  | TypeText v =>
      if focused s then w <- handle_event (TypeProductName v) (fw s) ;; Ok (FWorld w true) else Ok s
  | LeaveProductName => unfocus s
  | PressEnter => if focused s then w <- startup page0 ;; Ok (FWorld w false) else Ok s
  | Click t => s1 <- unfocus s ;; w <- handle_event (click_event t) (fw s1) ;; Ok (FWorld w false)
  end.

Definition focus_run (page0 : dom handler) (es : list user_action) (s : fworld) : result fworld :=
  fold_result (fun s e => focus_step page0 e s) s es.

(** The actions whose text the page carries as plain text ([text_safe]). *)
Definition action_safe (e : user_action) : bool :=
  match e with TypeText v => text_safe v | _ => true end.

(** The worlds a user reaches from the page [page0] by safe actions. *)
Inductive freachable (page0 : dom handler) : fworld -> Prop :=
| fstart w : dom_wf page0 -> startup page0 = Ok w -> freachable page0 (FWorld w false)
| fstep s e s' : freachable page0 s -> action_safe e = true -> focus_step page0 e s = Ok s' ->
    freachable page0 s'.

(** The first world of the page, as the script leaves it. *)
Definition start_fworld (page0 : dom handler) : fworld :=
  match startup page0 with
  | Ok w => FWorld w false
  | Throw _ => FWorld (mkWorld (mkStore initialState []) page0) false
  end.

(** ** The focus model is a restriction of the free model *)

Lemma freachable_wf page0 s : freachable page0 s -> dom_wf page0.
Proof. by induction 1. Qed.

Lemma unfocus_reachable s s1 : safe_reachable (fw s) -> unfocus s = Ok s1 -> safe_reachable (fw s1).
Proof.
  unfold unfocus. destruct (focused s); [| by intros ? [= <-]].
  intros Hr H. inv_ok H. injection H as <-. simpl. by apply (sreach_step (fw s) BlurProductName).
Qed.

Lemma unfocus_total s : reachable (fw s) -> exists s1, unfocus s = Ok s1.
Proof.
  unfold unfocus. destruct (focused s); [| eauto].
  intros Hr. destruct (reachable_handle_event _ BlurProductName Hr) as [w ->]. eauto.
Qed.

(** Every safe step of the focus model is a run of safe events of the free
    model (at most a blur and a click), or a new load of the page. *)
Lemma focus_step_reachable page0 e s s' :
  dom_wf page0 -> safe_reachable (fw s) -> action_safe e = true -> focus_step page0 e s = Ok s' ->
  safe_reachable (fw s').
Proof.
  intros Hwf Hr He. destruct e as [| v | | | t]; cbn [focus_step].
  - destruct (contentControl _) as [[? []] |]; by intros [= <-].
  - destruct (focused s); [| by intros [= <-]].
    intros H. inv_ok H. injection H as <-. simpl. by apply (sreach_step (fw s) (TypeProductName v)).
  - by apply unfocus_reachable.
  - destruct (focused s); [| by intros [= <-]].
    intros H. inv_ok H. injection H as <-. simpl. eapply sreach_start; eassumption.
  - intros H. inv_ok H. inv_ok H. injection H as <-.
    apply (sreach_step (fw a) (click_event t)); [by eapply unfocus_reachable | by destruct t | exact Ha0].
Qed.

Lemma freachable_reachable page0 s : freachable page0 s -> safe_reachable (fw s).
Proof.
  intros Hs. pose proof (freachable_wf _ _ Hs) as Hwf.
  induction Hs as [w ? Hw | s e s' _ IH He Hstep]; [by eapply sreach_start|].
  by eapply focus_step_reachable.
Qed.

Lemma focus_step_total page0 e s :
  dom_wf page0 -> safe_reachable (fw s) -> exists s', focus_step page0 e s = Ok s'.
Proof.
  intros Hwf Hr. pose proof (safe_reachable_reachable _ Hr) as Hr'.
  destruct e as [| v | | | t]; cbn [focus_step].
  - destruct (contentControl _) as [[? []] |]; eauto.
  - destruct (focused s); [| eauto].
    destruct (reachable_handle_event _ (TypeProductName v) Hr') as [w ->]. eauto.
  - by apply unfocus_total.
  - destruct (focused s); [| eauto].
    rewrite (startup_concr page0) by elements_ok. eauto.
  - destruct (unfocus_total s (safe_reachable_reachable _ Hr)) as [s1 Hs1]. rewrite Hs1. cbn [bind].
    destruct (reachable_handle_event (fw s1) (click_event t)) as [w ->];
      [apply safe_reachable_reachable; by eapply unfocus_reachable | eauto].
Qed.

Lemma focus_run_freachable page0 es s s' :
  freachable page0 s -> forallb action_safe es = true -> focus_run page0 es s = Ok s' -> freachable page0 s'.
Proof.
  intros Hs Hes. apply (fold_result_inv (freachable page0)); [| done].
  intros ? e ? Hin ? ?. eapply fstep; [done | | done]. by apply (proj1 (forallb_forall _ _) Hes).
Qed.

Lemma start_fworld_freachable page0 : dom_wf page0 -> freachable page0 (start_fworld page0).
Proof.
  intros Hwf. unfold start_fworld.
  rewrite (startup_concr page0) by elements_ok. apply fstart; [done|]. by apply startup_concr; elements_ok.
Qed.

(** ** What the user typed reaches the store *)

(** A text field fits only the details page. *)
Lemma text_control_details a w n v :
  app_inv_at a w -> contentControl (wenv w) = Some (n, TextInput v) -> a_page a = Details.
Proof.
  intros (_ & Hs & _) Hc. destruct (sync_live _ _ Hs) as (n' & c' & Hc' & _ & Hfit & _).
  rewrite Hc in Hc'. injection Hc' as <- <-. unfold control_fits in Hfit.
  by destruct (a_page a).
Qed.

(** A click changes neither the product name nor, except for the checkbox,
    the product. *)
Lemma ui_step_click_name t a c : a_name (ui_step (click_event t) a c) = a_name a.
Proof. destruct t, a as [[] nm b db], c; reflexivity. Qed.

Lemma app_inv_name a w :
  app_inv_at a w -> Product.name (State.product (getState (wstore w))) = JStr (a_name a).
Proof. intros (Hst & _). by rewrite Hst. Qed.

(** The blur that focus leaving the field causes stores the typed text. *)
Lemma unfocus_stores a s n v :
  app_inv_at a (fw s) -> focused s = true -> contentControl (wenv (fw s)) = Some (n, TextInput v) ->
  exists s1, unfocus s = Ok s1 /\ focused s1 = false /\
    app_inv_at (AbsState Details v (a_inStock a) true) (fw s1).
Proof.
  intros Ha Hf Hc. pose proof (text_control_details _ _ _ _ Ha Hc) as Hp.
  destruct (handle_event_inv a (fw s) BlurProductName n (TextInput v) Ha Hc) as (w1 & Hw1 & Ha1).
  unfold unfocus. rewrite Hf, Hw1. eexists; split_and!; [reflexivity | done |].
  unfold ui_step in Ha1. by rewrite Hp in Ha1.
Qed.

(** ** Properties of the page under the focus rules *)


(** C20. An edit is never lost: when the user has typed [v] into the
    focused field, leaving the field by Tab or by a click on any control
    stores exactly [v] as the product's name; the blur listener runs before
    the click's, and no click changes the name. *)
Theorem typed_text_reaches_store page0 s n v e :
  freachable page0 s -> focused s = true -> contentControl (wenv (fw s)) = Some (n, TextInput v) ->
  e = LeaveProductName \/ (exists t, e = Click t) ->
  exists s', focus_step page0 e s = Ok s' /\ focused s' = false /\
    Product.name (State.product (getState (wstore (fw s')))) = JStr v.
Proof.
  intros Hs Hf Hc He. destruct (reachable_app_inv _ (safe_reachable_reachable _ (freachable_reachable _ _ Hs))) as [a Ha].
  destruct (unfocus_stores a s n v Ha Hf Hc) as (s1 & Hs1 & Hf1 & Ha1).
  destruct He as [-> | [t ->]]; cbn [focus_step].
  - exists s1. split_and!; [done | done | by rewrite (app_inv_name _ _ Ha1)].
  - rewrite Hs1. cbn [bind].
    destruct (app_inv_live _ _ Ha1) as (n1 & c1 & Hc1).
    destruct (handle_event_inv _ _ (click_event t) n1 c1 Ha1 Hc1) as (w2 & Hw2 & Ha2).
    rewrite Hw2. eexists; split_and!; [reflexivity | done |].
    cbn [fw]. by rewrite (app_inv_name _ _ Ha2), ui_step_click_name.
Qed.

(** ** Witnesses *)


(** The page after [es], computed. *)
Definition after_actions (es : list user_action) : fworld :=
  match focus_run example_dom es (start_fworld example_dom) with
  | Ok s => s
  | Throw _ => start_fworld example_dom
  end.

Definition typed_state : fworld := Eval vm_compute in after_actions [FocusProductName; TypeText "Widget"].

Lemma typed_text_reaches_store_witness :
  exists s', focus_step example_dom (Click OnSaveButton) typed_state = Ok s' /\ focused s' = false /\
    Product.name (State.product (getState (wstore (fw s')))) = JStr "Widget".
Proof.
  apply (typed_text_reaches_store example_dom typed_state 0);
    [| vm_compute; reflexivity | vm_compute; reflexivity | right; eauto].
  apply (focus_run_freachable example_dom [FocusProductName; TypeText "Widget"] (start_fworld example_dom));
    [apply start_fworld_freachable, dom_wfb_spec; reflexivity | reflexivity | vm_compute; reflexivity].
Defined.

