(* ===== verification/Http.v ===== *)
(** * The timer stub [httpPut] (src/src/http/index.js)

    [httpPut(url, callback)] ignores [url] and schedules, through
    [setTimeout], a function that calls [callback()] after
    [ASYNC_AWAIT_TIME] = 1000 ms.  [setTimeout]'s delay is a WebIDL [long]:
    the number is wrapped to a signed 32-bit integer ([to_int32]), and a
    negative result counts as 0 ([timeout_ms]).  The browser's timer queue
    is modelled by [loop]: the current time in milliseconds, the pending
    timers in the order they were set, and the next timer number.
    [run_for n] runs the event loop for [n + 1] milliseconds: every
    millisecond it runs the timers that are due, in the order they were
    set, then the clock advances.  [runs_from i] keeps the runs of the
    timers numbered [i] or later, those set from a call on, so that a
    callback scheduled twice or late shows in it.  A callback's own
    effects are not modelled (callbacks are the opaque type [Cb]), so no
    callback sets a new timer; the clamping of deeply nested timers to 4 ms
    does not apply to a delay of 1000 ms.  The loop runs the due timers in
    the order they were set, so its trace is ordered by time and, at the
    same time, by timer number ([run_before], [run_for_sorted]): the
    FIFO-by-deadline order of the spec's section 5.  Nothing in
    product-manager.js calls [httpPut]. *)

From Stdlib Require Import String ZArith.
From stdpp Require Import base list sorting.
From S2P Require Import Prelude.

(** [const ASYNC_AWAIT_TIME = 1000;] *)
Definition ASYNC_AWAIT_TIME : Z := 1000.

(** WebIDL's conversion of a number to [long]: the integer is taken modulo
    2^32 and read as a signed 32-bit value. *)
Definition to_int32 (x : Z) : Z :=
  let m := (x mod 2 ^ 32)%Z in if Z.ltb m (2 ^ 31) then m else (m - 2 ^ 32)%Z.

(** The timer initialisation steps: a negative timeout is set to 0. *)
Definition timeout_ms (timeout : Z) : nat :=
  let t := to_int32 timeout in if Z.ltb t 0%Z then 0 else Z.to_nat t.

Section EventLoop.
Context {Cb : Type}.

Record timer := Timer { deadline : nat; tid : nat; task : Cb }.

Record loop := Loop { now : nat; pending : list timer; next_tid : nat }.

(** [setTimeout(f, timeout)] returns the timer's number. *)
Definition setTimeout (f : Cb) (timeout : Z) (l : loop) : loop * nat :=
  (Loop (now l) (pending l ++ [Timer (now l + timeout_ms timeout) (next_tid l) f]) (S (next_tid l)),
   next_tid l).

(** [httpPut(url, callback)]: the arrow [() => { callback(); }] runs the
    callback and nothing else, so the timer carries the callback. *)
Definition httpPut (url : string) (callback : Cb) (l : loop) : loop :=
  fst (setTimeout callback ASYNC_AWAIT_TIME l).

Definition due (l : loop) (t : timer) : bool := Nat.leb (deadline t) (now l).

(** The timers due now leave the queue and run, in the order they were set. *)
Definition run_due (l : loop) : loop * list timer :=
  (Loop (now l) (List.filter (fun t => negb (due l t)) (pending l)) (next_tid l),
   List.filter (due l) (pending l)).

Definition tick (l : loop) : loop := Loop (S (now l)) (pending l) (next_tid l).

(** The loop over [n + 1] milliseconds, with the trace of the timers run
    and the time each ran at. *)
Fixpoint run_for (n : nat) (l : loop) : loop * list (nat * timer) :=
  let (l1, fired) := run_due l in
  let here := map (fun t => (now l, t)) fired in
  match n with
  | 0 => (l1, here)
  | S n' => let (l2, rest) := run_for n' (tick l1) in (l2, here ++ rest)
  end.

(** The runs of timer number [i] in a trace. *)
Definition runs_of (i : nat) (trace : list (nat * timer)) : list (nat * timer) :=
  List.filter (fun p => Nat.eqb (tid p.2) i) trace.

(** The runs of the timers numbered [i] or later: those set from the
    moment [next_tid] was [i] on. *)
Definition runs_from (i : nat) (trace : list (nat * timer)) : list (nat * timer) :=
  List.filter (fun p => Nat.leb i (tid p.2)) trace.

(** Timer numbers are below [next_tid], and distinct. *)
Definition loop_wf (l : loop) : bool :=
  forallb (fun t => Nat.ltb (tid t) (next_tid l)) (pending l) &&
  bool_decide (NoDup (tid <$> pending l)).

(** The order of a trace: by the time the timer ran, and at the same
    time by timer number, that is, in the order the timers were set. *)
Definition run_before (p q : nat * timer) : Prop :=
  p.1 < q.1 \/ (p.1 = q.1 /\ tid p.2 < tid q.2).

(** The pending timers are in the order they were set. *)
Definition queue_sorted (l : loop) : Prop :=
  StronglySorted (fun t t' => tid t < tid t') (pending l).

(** ** Lemmas on the queue *)

Lemma runs_of_app i tr1 tr2 : runs_of i (tr1 ++ tr2) = runs_of i tr1 ++ runs_of i tr2.
Proof. apply List.filter_app. Qed.

Lemma runs_of_here i m (ts : list timer) :
  runs_of i (map (fun t => (m, t)) ts) = map (fun t => (m, t)) (List.filter (fun t => Nat.eqb (tid t) i) ts).
Proof.
  induction ts as [| t ts IH]; simpl; [done|].
  destruct (Nat.eqb (tid t) i); simpl; by rewrite IH.
Qed.

Lemma filter_tid_absent (P : timer -> bool) i (ts : list timer) :
  Forall (fun t => tid t <> i) ts -> List.filter (fun t => Nat.eqb (tid t) i) (List.filter P ts) = [].
Proof.
  induction 1 as [| t ts Ht _ IH]; simpl; [done|].
  destruct (P t); simpl; [| done]. by rewrite (proj2 (Nat.eqb_neq _ _) Ht).
Qed.

Lemma NoDup_tid_filter (P : timer -> bool) (ts : list timer) :
  NoDup (tid <$> ts) -> NoDup (tid <$> List.filter P ts).
Proof.
  induction ts as [| t ts IH]; simpl; [done|]. rewrite NoDup_cons. intros [Hn Hd].
  destruct (P t); simpl; [| by apply IH]. rewrite NoDup_cons. split; [| by apply IH].
  intros Hin. apply Hn. apply list_elem_of_fmap in Hin as (t' & -> & Ht').
  apply list_elem_of_fmap. exists t'. split; [done|].
  apply list_elem_of_In. apply list_elem_of_In in Ht'. by apply filter_In in Ht' as [? _].
Qed.

(** The other timers of a queue with distinct numbers carry other numbers. *)
Lemma others_tid (ts : list timer) t :
  In t ts -> NoDup (tid <$> ts) ->
  exists pre post, ts = pre ++ t :: post /\ Forall (fun t' => tid t' <> tid t) (pre ++ post).
Proof.
  intros Hin Hd. apply in_split in Hin as (pre & post & ->). exists pre, post. split; [done|].
  rewrite fmap_app, fmap_cons in Hd. apply NoDup_app in Hd as (Hpre & Hdisj & Hpost).
  apply NoDup_cons in Hpost as [Hnot _].
  apply Forall_app. split; apply Forall_forall; intros t' Ht' Heq.
  - apply (Hdisj (tid t)); [| by left]. apply list_elem_of_fmap. exists t'.
    split; [by rewrite Heq | done].
  - apply Hnot. apply list_elem_of_fmap. exists t'.
    split; [by rewrite Heq | done].
Qed.

(** What runs now of the timer [t] that is due in [k] milliseconds. *)
Lemma here_runs (l : loop) t k :
  In t (pending l) -> NoDup (tid <$> pending l) -> deadline t = now l + k ->
  List.filter (fun x => Nat.eqb (tid x) (tid t)) (List.filter (due l) (pending l)) =
    if Nat.eqb k 0 then [t] else [].
Proof.
  intros Hin Hd Hdl. destruct (others_tid _ _ Hin Hd) as (pre & post & Hp & Hoth).
  apply Forall_app in Hoth as [Hpre Hpost]. rewrite Hp.
  replace (pre ++ t :: post) with (pre ++ [t] ++ post) by done. rewrite !List.filter_app.
  rewrite (filter_tid_absent _ _ pre Hpre), (filter_tid_absent _ _ post Hpost), app_nil_r. simpl.
  unfold due. rewrite Hdl.
  destruct k as [| k]; simpl.
  - by rewrite Nat.add_0_r, Nat.leb_refl; simpl; rewrite Nat.eqb_refl.
  - by rewrite (proj2 (Nat.leb_gt _ _)) by lia.
Qed.

(** The trace of a run, one millisecond at a time. *)
Lemma run_for_0_trace (l : loop) :
  snd (run_for 0 l) = map (fun t => (now l, t)) (List.filter (due l) (pending l)).
Proof. reflexivity. Qed.

Lemma run_for_S_trace n (l : loop) :
  snd (run_for (S n) l) =
    map (fun t => (now l, t)) (List.filter (due l) (pending l)) ++
    snd (run_for n (tick (fst (run_due l)))).
Proof. simpl. by destruct (run_for n _). Qed.

Lemma run_for_absent n (l : loop) i :
  Forall (fun t => tid t <> i) (pending l) -> runs_of i (snd (run_for n l)) = [].
Proof.
  revert l. induction n as [| n IH]; intros l Hl.
  - by rewrite run_for_0_trace, runs_of_here, filter_tid_absent.
  - rewrite run_for_S_trace, runs_of_app, runs_of_here, filter_tid_absent by done.
    apply IH. simpl. by apply Forall_List_filter.
Qed.

(** Once the due timer [t] ran, no pending timer carries its number. *)
Lemma ran_absent (l : loop) t :
  In t (pending l) -> NoDup (tid <$> pending l) -> deadline t = now l ->
  Forall (fun t' => tid t' <> tid t) (pending (tick (fst (run_due l)))).
Proof.
  intros Hin Hd Hdl. destruct (others_tid _ _ Hin Hd) as (pre & post & Hp & Hoth). simpl.
  rewrite Hp, List.filter_app. simpl. unfold due at 2. rewrite Hdl, Nat.leb_refl. simpl.
  rewrite <- List.filter_app. by apply Forall_List_filter.
Qed.

(** A timer not yet due stays pending, one millisecond closer. *)
Lemma waiting_stays (l : loop) t k :
  In t (pending l) -> NoDup (tid <$> pending l) -> deadline t = now l + S k ->
  In t (pending (tick (fst (run_due l)))) /\ NoDup (tid <$> pending (tick (fst (run_due l)))) /\
  deadline t = now (tick (fst (run_due l))) + k.
Proof.
  intros Hin Hd Hdl. simpl. split_and!; [| by apply NoDup_tid_filter | lia].
  apply filter_In. split; [done|]. unfold due. rewrite Hdl.
  by rewrite (proj2 (Nat.leb_gt _ _)) by lia.
Qed.

(** A pending timer due in [k] milliseconds runs once, at its deadline, in
    any run of at least [k] more milliseconds, and not in a shorter one. *)
Lemma run_for_timer n (l : loop) t k :
  In t (pending l) -> NoDup (tid <$> pending l) -> deadline t = now l + k ->
  runs_of (tid t) (snd (run_for n l)) = if Nat.leb k n then [(deadline t, t)] else [].
Proof.
  revert l k. induction n as [| n IH]; intros l k Hin Hd Hdl.
  - rewrite run_for_0_trace, runs_of_here, (here_runs l t k Hin Hd Hdl).
    by destruct k; simpl; [rewrite Hdl, Nat.add_0_r|].
  - rewrite run_for_S_trace, runs_of_app, runs_of_here, (here_runs l t k Hin Hd Hdl).
    destruct k as [| k]; simpl.
    + rewrite run_for_absent; [by rewrite Hdl, Nat.add_0_r|].
      apply ran_absent; [done | done | lia].
    + destruct (waiting_stays l t k Hin Hd Hdl) as (? & ? & ?). by apply IH.
Qed.

Lemma httpPut_timer url cb (l : loop) :
  loop_wf l = true ->
  In (Timer (now l + 1000) (next_tid l) cb) (pending (httpPut url cb l)) /\
  NoDup (tid <$> pending (httpPut url cb l)).
Proof.
  unfold loop_wf. rewrite andb_true_iff, forallb_forall, bool_decide_eq_true. intros [Hlt Hd].
  simpl. split; [apply in_or_app; right; by left|].
  rewrite fmap_app. apply NoDup_app. split_and!; [done | | by apply NoDup_singleton].
  intros i Hi Hin. apply list_elem_of_singleton in Hin as ->.
  apply list_elem_of_fmap in Hi as (t & Heq & Ht). apply list_elem_of_In, Hlt in Ht.
  simpl in Heq. apply Nat.ltb_lt in Ht. lia.
Qed.

(** Every timer the loop runs was pending when it started. *)
Lemma run_for_from_pending n (l : loop) : Forall (fun p => In p.2 (pending l)) (snd (run_for n l)).
Proof.
  revert l. induction n as [| n IH]; intros l.
  - rewrite run_for_0_trace. apply List.Forall_forall. intros p Hp.
    apply in_map_iff in Hp as (t & <- & Ht). by apply filter_In in Ht as [? _].
  - rewrite run_for_S_trace. apply Forall_app. split.
    + apply List.Forall_forall. intros p Hp. apply in_map_iff in Hp as (t & <- & Ht).
      by apply filter_In in Ht as [? _].
    + eapply Forall_impl; [apply IH|]. intros p Hp. simpl in Hp. by apply filter_In in Hp as [? _].
Qed.

(** After [httpPut], the timers numbered [next_tid l] or later are the one
    it set. *)
Lemma httpPut_runs_from url cb (l : loop) tr :
  loop_wf l = true -> Forall (fun p => In p.2 (pending (httpPut url cb l))) tr ->
  runs_from (next_tid l) tr = runs_of (next_tid l) tr.
Proof.
  unfold loop_wf. rewrite andb_true_iff, forallb_forall. intros [Hlt _] Htr.
  apply filter_ext_in. intros p Hp. apply (proj1 (List.Forall_forall _ _) Htr) in Hp.
  simpl in Hp. apply in_app_or in Hp as [Hp | [<- | []]].
  - apply Hlt, Nat.ltb_lt in Hp.
    rewrite (proj2 (Nat.leb_gt _ _)), (proj2 (Nat.eqb_neq _ _)); [done | lia | lia].
  - simpl. by rewrite Nat.leb_refl, Nat.eqb_refl.
Qed.

(** ** The order of the runs *)

Lemma run_for_times n (l : loop) : Forall (fun p => now l <= p.1) (snd (run_for n l)).
Proof.
  revert l. induction n as [| n IH]; intros l.
  - rewrite run_for_0_trace. apply List.Forall_forall. intros p Hp.
    apply in_map_iff in Hp as (t & <- & _). simpl. lia.
  - rewrite run_for_S_trace. apply Forall_app. split.
    + apply List.Forall_forall. intros p Hp. apply in_map_iff in Hp as (t & <- & _). simpl. lia.
    + eapply Forall_impl; [apply IH | simpl; lia].
Qed.

Lemma run_due_sorted (l : loop) : queue_sorted l -> queue_sorted (tick (fst (run_due l))).
Proof. apply StronglySorted_List_filter. Qed.

(** The event loop runs the timers by time, and in the order they were set
    at the same time. *)
Lemma run_for_sorted n (l : loop) : queue_sorted l -> StronglySorted run_before (snd (run_for n l)).
Proof.
  assert (Hhere : forall l : loop, queue_sorted l ->
            StronglySorted run_before (map (fun t => (now l, t)) (List.filter (due l) (pending l)))).
  { intros l' Hs. apply (StronglySorted_map (fun t t' => tid t < tid t')); [by right |].
    by apply StronglySorted_List_filter. }
  revert l. induction n as [| n IH]; intros l Hs.
  - rewrite run_for_0_trace. by apply Hhere.
  - rewrite run_for_S_trace. apply StronglySorted_app_2; [| by apply Hhere | by apply IH, run_due_sorted].
    intros p q Hp Hq. apply list_elem_of_In in Hp. apply list_elem_of_In in Hq. left.
    apply in_map_iff in Hp as (t & <- & _).
    pose proof (proj1 (List.Forall_forall _ _) (run_for_times n _) q Hq) as Hle. simpl in *. lia.
Qed.

(** [setTimeout] appends a timer numbered after every pending one. *)
Lemma setTimeout_sorted f d (l : loop) :
  loop_wf l = true -> queue_sorted l -> queue_sorted (fst (setTimeout f d l)).
Proof.
  unfold loop_wf. rewrite andb_true_iff, forallb_forall. intros [Hlt _] Hs.
  apply StronglySorted_app_2; [| done | by repeat constructor].
  intros t t' Ht Ht'. apply list_elem_of_In in Ht. apply list_elem_of_singleton in Ht' as ->.
  simpl. by apply Nat.ltb_lt, Hlt.
Qed.

Lemma httpPut_wf url cb (l : loop) : loop_wf l = true -> loop_wf (httpPut url cb l) = true.
Proof.
  intros Hwf. destruct (httpPut_timer url cb l Hwf) as [_ Hd].
  unfold loop_wf in *. apply andb_true_iff in Hwf as [Hlt _]. apply andb_true_iff. split.
  - apply forallb_forall. intros t Ht. simpl in Ht |- *. apply in_app_or in Ht as [Ht | [<- | []]].
    + apply forallb_forall with (x := t) in Hlt; [| done]. apply Nat.ltb_lt in Hlt. apply Nat.ltb_lt. lia.
    + apply Nat.ltb_lt. simpl. lia.
  - by apply bool_decide_eq_true.
Qed.

Lemma runs_of_single_In i tr p : runs_of i tr = [p] -> In p tr.
Proof. intros H. assert (Hp : In p (runs_of i tr)) by (rewrite H; by left). by apply filter_In in Hp as [? _]. Qed.

(** C15. [httpPut]'s callback runs exactly once, exactly 1000 ms after
    the call, whatever other timers are pending: among the runs of the
    timers set from the call on, there is none in a run of the loop shorter
    than that, and in any longer run exactly one, the callback's. *)
Theorem httpPut_runs_once url cb (l : loop) n :
  loop_wf l = true ->
  runs_from (next_tid l) (snd (run_for n (httpPut url cb l))) =
    if Nat.leb 1000 n
    then [(now l + 1000, Timer (now l + 1000) (next_tid l) cb)]
    else [].
Proof.
  intros Hwf. destruct (httpPut_timer url cb l Hwf) as [Hin Hd].
  rewrite (httpPut_runs_from url cb l _ Hwf (run_for_from_pending _ _)).
  exact (run_for_timer n _ _ 1000 Hin Hd eq_refl).
Qed.

(** C24. Ordering of the event loop (spec section 5: FIFO by deadline):
    the runs come in the order of the time they ran at, and at the same
    time in the order the timers were set; so two [httpPut] calls made one
    after the other both run their callbacks 1000 ms later, the first
    call's callback before the second's. *)
Theorem httpPut_fifo url1 cb1 url2 cb2 (l : loop) n :
  loop_wf l = true -> queue_sorted l ->
  StronglySorted run_before (snd (run_for n (httpPut url2 cb2 (httpPut url1 cb1 l)))) /\
  (1000 <= n ->
   In (now l + 1000, Timer (now l + 1000) (next_tid l) cb1)
      (snd (run_for n (httpPut url2 cb2 (httpPut url1 cb1 l)))) /\
   In (now l + 1000, Timer (now l + 1000) (S (next_tid l)) cb2)
      (snd (run_for n (httpPut url2 cb2 (httpPut url1 cb1 l))))).
Proof.
  intros Hwf Hs. pose proof (httpPut_wf url1 cb1 l Hwf) as Hwf1.
  split.
  - apply run_for_sorted, setTimeout_sorted, setTimeout_sorted; done.
  - intros Hn. destruct (httpPut_timer url2 cb2 _ Hwf1) as [Hin2 Hd2].
    destruct (httpPut_timer url1 cb1 _ Hwf) as [Hin1 _].
    assert (Hin1' : In (Timer (now l + 1000) (next_tid l) cb1) (pending (httpPut url2 cb2 (httpPut url1 cb1 l))))
      by (simpl; apply in_or_app; by left).
    pose proof (run_for_timer n _ _ 1000 Hin1' Hd2 eq_refl) as R1.
    pose proof (run_for_timer n _ _ 1000 Hin2 Hd2 eq_refl) as R2.
    rewrite (proj2 (Nat.leb_le _ _) Hn) in R1, R2. split; eapply runs_of_single_In; [exact R1 | exact R2].
Qed.
End EventLoop.

Local Open Scope string_scope.

Lemma httpPut_runs_once_witness :
  runs_from 1 (snd (run_for 1000 (httpPut "/product" "done" (Loop 5 [Timer 7 0 "other"] 1)))) =
    [(1005, Timer 1005 1 "done")].
Proof. apply (httpPut_runs_once (Cb := string) _ _ (Loop 5 [Timer 7 0 "other"] 1) 1000). reflexivity. Defined.

Lemma httpPut_fifo_witness :
  StronglySorted run_before
    (snd (run_for 1000 (httpPut "/b" "second" (httpPut "/a" "first" (Loop 5 [Timer 7 0 "other"] 1))))) /\
  (1000 <= 1000 ->
   In (1005, Timer 1005 1 "first")
      (snd (run_for 1000 (httpPut "/b" "second" (httpPut "/a" "first" (Loop 5 [Timer 7 0 "other"] 1))))) /\
   In (1005, Timer 1005 2 "second")
      (snd (run_for 1000 (httpPut "/b" "second" (httpPut "/a" "first" (Loop 5 [Timer 7 0 "other"] 1)))))).
Proof.
  apply (httpPut_fifo (Cb := string) _ _ _ _ (Loop 5 [Timer 7 0 "other"] 1) 1000);
    [reflexivity | repeat constructor].
Defined.
